(** * Paper-trading engine of the sniper bot: model and verified properties

    This development embeds [PaperTradingBot] of [paper-trading.ts] and
    states the properties of its virtual ledger.  It also embeds the
    exported [PaperTradingBot] of the second source file and [DryRunBot] of
    [dry-run-bot.ts].

    Conventions of the embedding.
    - A JavaScript [number] holding an amount, a price or a probability is
      a rational ([Q]) and comparisons are decided by [Qle_bool].  The
      arithmetic is given twice.  The methods at the top level compute with
      the exact operators [Qplus], [Qminus], [Qmult], [Qdiv]; the
      properties stated on them are about which entries and records exist
      and which comparisons decide, are bounds that rounding keeps, or
      are stated for exact arithmetic.
      The module [Binary64] repeats the methods with every operator
      rounded to the nearest binary64 value; what depends on the values
      the code stores (the end-to-end example, the thresholds and ranges of
      the price simulator, the balance against the ledger) is stated there.
      In both, a division by zero (only possible in [profitPercent] and in
      the total return, for a zero quote amount or initial balance) is [0]
      where JavaScript answers [Infinity] or [NaN].
    - [Map<string, PaperBalance>] is an insertion-ordered association list
      ([JsMap]) because [printSummary] iterates over it.
    - [Math.random()], [Date.now()] and [new Date()] are inputs of the
      method that reads them ([BuyDraws], [SellDraws]).
    - Every method returns the new bot state together with what it emits:
      the log records and the timers it arms with [setTimeout]. *)

From Stdlib Require Import QArith Qfield Lqa String Ascii List Arith NArith Lia Bool.
From Stdlib Require Import DecimalString DecimalN Permutation.
From Stdlib Require Import Qround Qpower Qabs.
From Stdlib Require PrimFloat FloatOps SpecFloat.
Import ListNotations.

Local Open Scope Q_scope.

(** ** JavaScript numbers *)

Definition number := Q.

(** [x < y] and [x > y] on numbers, as booleans. *)
Definition num_lt (x y : number) : bool := negb (Qle_bool y x).
Definition num_gt (x y : number) : bool := num_lt y x.
Definition num_le (x y : number) : bool := Qle_bool x y.

(** A number as it is handed to the logger: [x.toFixed(d)], a bare
    interpolation [${x}], or a literal piece of text. *)
Inductive Rendered :=
| ToFixed (x : number) (digits : nat)
| Raw (x : number)
| Lit (s : string).

(** Decimal digits of a counter or of a millisecond clock. *)
Definition decimal (n : N) : string := NilEmpty.string_of_uint (N.to_uint n).

(** [s || d] on an optional string: [undefined] and [''] are falsy. *)
Definition orDefault (s : option string) (d : string) : string :=
  match s with
  | None => d
  | Some EmptyString => d
  | Some s' => s'
  end.

(** ** [Map<string, V>] with insertion order *)

Module JsMap.

Definition t (V : Type) := list (string * V).

Definition empty {V} : t V := [].

Fixpoint get {V} (k : string) (m : t V) : option V :=
  match m with
  | [] => None
  | (k', v) :: rest => if String.eqb k' k then Some v else get k rest
  end.

(** [set] keeps the position of a key that is present and appends a new
    key at the end. *)
Fixpoint set {V} (k : string) (v : V) (m : t V) : t V :=
  match m with
  | [] => [(k, v)]
  | (k', v') :: rest =>
      if String.eqb k' k then (k', v) :: rest else (k', v') :: set k v rest
  end.

Definition delete {V} (k : string) (m : t V) : t V :=
  filter (fun kv => negb (String.eqb (fst kv) k)) m.

Definition values {V} (m : t V) : list V := map snd m.

End JsMap.

(** ** Data model *)

Module PaperBalance.
Record t := mk { token : string; amount : number; symbol : string }.
(** The object after [b.amount = a]. *)
Definition withAmount (b : t) (a : number) : t :=
  {| token := token b; amount := a; symbol := symbol b |}.
End PaperBalance.

Inductive Action := buy_action | sell_action.

Definition Action_eqb (a b : Action) : bool :=
  match a, b with
  | buy_action, buy_action | sell_action, sell_action => true
  | _, _ => false
  end.

Module PaperTrade.
Record t := mk {
  id : string;
  action : Action;
  token : string;
  tokenSymbol : string;
  quoteAmount : number;
  tokenAmount : number;
  price : number;
  timestamp : N;
  profit : option number;
  profitPercent : option number
}.
End PaperTrade.

(** The part of [BotConfig] the paper bot reads. *)
Module BotConfig.
Record t := mk {
  quoteTokenSymbol : option string;   (* config.quoteToken.symbol *)
  quoteTokenMint : string;            (* config.quoteToken.mint.toString() *)
  quoteAmount : number;               (* parseFloat(config.quoteAmount.toFixed()) *)
  autoSell : bool;
  autoSellDelay : number;
  sellSlippage : number
}.
End BotConfig.

(** Fields of [PaperTradingBot]. *)
Record Bot := mkBot {
  paperBalances : JsMap.t PaperBalance.t;
  paperTrades : list PaperTrade.t;
  totalPaperProfit : number;
  tradeCounter : N;
  initialBalance : number
}.

(** A callback armed by [setTimeout(() => this.executePaperSell(tokenMint,
    tradeId), delay)]. *)
Record Timer := mkTimer {
  timerMint : string;
  timerTradeId : string;
  timerDelay : number
}.

Inductive Level := trace | info | warn | error.

Inductive LogEntry :=
| LogInitialized (initial : number) (symbol : string)
| LogProcessingPool (mint : string)
| LogInsufficient (symbol : string) (have want : Rendered)
| LogBuyExecuted (mint tradeId : string) (quoteAmount : number)
                 (tokenAmount price : Rendered)
| LogBuyFailed
| LogCannotSell
| LogSellExecuted (mint : string) (buyPrice sellPrice profit profitPercent : Rendered)
                  (gain : bool)
| LogSellFailed
| LogProcessingSell (mint : string)
| LogSummaryHeader
| LogCurrentBalance (balance : Rendered) (symbol : string)
| LogTotalReturn (percent : Rendered)
| LogTotalOpportunities (count : nat)
| LogCompletedTrades (count : nat)
| LogWinRate (rate : Rendered)
| LogTotalProfit (total : Rendered) (symbol : string)
| LogOpenPositions (count : nat)
| LogOpenPosition (symbol : string) (amount : Rendered)
| LogRecentActivity
| LogRecentBuy (stamp : N) (tokenSymbol : string) (quoteAmount : Rendered) (symbol : string)
| LogRecentSell (stamp : N) (tokenSymbol : string) (gain : bool) (profitPercent : Rendered)
| LogSummaryFooter.

Definition level (l : LogEntry) : Level :=
  match l with
  | LogProcessingPool _ | LogProcessingSell _ => trace
  | LogInsufficient _ _ _ | LogCannotSell => warn
  | LogBuyFailed | LogSellFailed => error
  | _ => info
  end.

(** What one method call emits. *)
Record Output := mkOutput {
  logs : list LogEntry;
  armed : list Timer
}.

Definition say (l : list LogEntry) : Output := {| logs := l; armed := [] |}.

(** ** Price movement simulator *)

(** A row of the scenario table; [multiplier] receives the value of the
    [Math.random()] call made inside the closure. *)
Record Scenario := mkScenario {
  probability : number;
  multiplier : number -> number
}.

Definition scenarios : list Scenario :=
  [ {| probability := 0.4; multiplier := fun r => 0.1 + r * 0.4 |};
    {| probability := 0.3; multiplier := fun r => 0.7 + r * 0.6 |};
    {| probability := 0.2; multiplier := fun r => 1.3 + r * 1.7 |};
    {| probability := 0.1; multiplier := fun r => 3 + r * 12 |} ].

(** The [for ... of] loop with its accumulator; the fallback is [1]. *)
Fixpoint scenarioLoop (rows : list Scenario) (cumulativeProbability : number)
                      (random sample : number) : number :=
  match rows with
  | [] => 1
  | scenario :: rest =>
      let cumulativeProbability := cumulativeProbability + probability scenario in
      if num_le random cumulativeProbability
      then multiplier scenario sample
      else scenarioLoop rest cumulativeProbability random sample
  end.

Definition simulatePriceMovement (random sample : number) : number :=
  scenarioLoop scenarios 0 random sample.

(** ** The bot *)

(** The decoded pool state and token account handed to [buy] and [sell];
    only the mint address is read, through [toString()]. *)
Record PoolState := mkPoolState { baseMint : string }.
Record RawAccount := mkRawAccount { mint : string }.

(** Values read from the environment by one call of [executePaperBuy]. *)
Record BuyDraws := mkBuyDraws {
  priceRandom : number;      (* Math.random() of estimatedTokenPrice *)
  now : N;                   (* Date.now() *)
  buyStamp : N;              (* new Date() *)
  jitterRandom : number      (* Math.random() of the timer delay *)
}.

(** Values read from the environment by one call of [executePaperSell]. *)
Record SellDraws := mkSellDraws {
  scenarioRandom : number;   (* Math.random() choosing the scenario *)
  multiplierRandom : number; (* Math.random() inside the scenario *)
  sellStamp : N              (* new Date() *)
}.

Definition quoteSymbol (config : BotConfig.t) : string :=
  orDefault (BotConfig.quoteTokenSymbol config) "SOL".

Definition initializePaperBalances (config : BotConfig.t) : Bot * Output :=
  let symbol := quoteSymbol config in
  let bot :=
    if String.eqb symbol "USDC" then
      {| paperBalances :=
           JsMap.set "USDC"
             {| PaperBalance.token := BotConfig.quoteTokenMint config;
                PaperBalance.amount := 100;
                PaperBalance.symbol := "USDC" |} JsMap.empty;
         paperTrades := [];
         totalPaperProfit := 0;
         tradeCounter := 0;
         initialBalance := 100 |}
    else
      {| paperBalances :=
           JsMap.set "SOL"
             {| PaperBalance.token := BotConfig.quoteTokenMint config;
                PaperBalance.amount := 1;
                PaperBalance.symbol := "SOL" |} JsMap.empty;
         paperTrades := [];
         totalPaperProfit := 0;
         tradeCounter := 0;
         initialBalance := 1 |} in
  (bot, say [LogInitialized (initialBalance bot) symbol]).

Definition tokenSymbolOf (tokenMint : string) : string :=
  ("TOKEN_" ++ substring 0 8 tokenMint)%string.

(** [executePaperBuy].  Nothing in the [try] block can throw once
    [poolState.baseMint] is a mint address, so the [catch] arm is not
    reached. *)
Definition executePaperBuy (config : BotConfig.t) (d : BuyDraws)
                           (poolState : PoolState) (bot : Bot) : Bot * Output :=
  let symbol := quoteSymbol config in
  let quoteAmount := BotConfig.quoteAmount config in
  match JsMap.get symbol (paperBalances bot) with
  | None =>
      (bot, say [LogInsufficient symbol (Raw 0) (Raw quoteAmount)])
  | Some quoteBalance =>
      if num_lt (PaperBalance.amount quoteBalance) quoteAmount then
        (bot, say [LogInsufficient symbol (Raw (PaperBalance.amount quoteBalance))
                                   (Raw quoteAmount)])
      else
        let estimatedTokenPrice := priceRandom d * 0.001 + 0.0001 in
        let tokenAmount := quoteAmount / estimatedTokenPrice in
        let counter := (tradeCounter bot + 1)%N in
        let tradeId := ("trade_" ++ decimal counter ++ "_" ++ decimal (now d))%string in
        (* quoteBalance.amount -= quoteAmount *)
        let debited :=
          JsMap.set symbol
            (PaperBalance.withAmount quoteBalance
               (PaperBalance.amount quoteBalance - quoteAmount))
            (paperBalances bot) in
        let tokenMint := baseMint poolState in
        let balances :=
          JsMap.set tokenMint
            {| PaperBalance.token := tokenMint;
               PaperBalance.amount := tokenAmount;
               PaperBalance.symbol := tokenSymbolOf tokenMint |}
            debited in
        let trade :=
          {| PaperTrade.id := tradeId;
             PaperTrade.action := buy_action;
             PaperTrade.token := tokenMint;
             PaperTrade.tokenSymbol := tokenSymbolOf tokenMint;
             PaperTrade.quoteAmount := quoteAmount;
             PaperTrade.tokenAmount := tokenAmount;
             PaperTrade.price := estimatedTokenPrice;
             PaperTrade.timestamp := buyStamp d;
             PaperTrade.profit := None;
             PaperTrade.profitPercent := None |} in
        ({| paperBalances := balances;
            paperTrades := paperTrades bot ++ [trade];
            totalPaperProfit := totalPaperProfit bot;
            tradeCounter := counter;
            initialBalance := initialBalance bot |},
         {| logs := [LogBuyExecuted tokenMint tradeId quoteAmount
                       (ToFixed tokenAmount 6) (ToFixed estimatedTokenPrice 8)];
            armed :=
              if BotConfig.autoSell config then
                [ {| timerMint := tokenMint;
                     timerTradeId := tradeId;
                     timerDelay := BotConfig.autoSellDelay config
                                   + jitterRandom d * 10000 |} ]
              else [] |})
  end.

Definition buy (config : BotConfig.t) (d : BuyDraws)
               (poolState : PoolState) (bot : Bot) : Bot * Output :=
  let '(bot', out) := executePaperBuy config d poolState bot in
  (bot', {| logs := LogProcessingPool (baseMint poolState) :: logs out;
            armed := armed out |}).

(** [t => t.id === buyTradeId && t.action === 'buy'] *)
Definition isBuyWithId (buyTradeId : string) (t : PaperTrade.t) : bool :=
  String.eqb (PaperTrade.id t) buyTradeId
  && Action_eqb (PaperTrade.action t) buy_action.

Inductive Thrown := TypeError.

(** The body of the [try] block of [executePaperSell], entered with the
    token balance and the buy trade found.  [quoteBalance.amount += ...]
    throws when the quote entry is missing; nothing has been written at
    that point. *)
Definition settle (config : BotConfig.t) (d : SellDraws)
                  (tokenMint buyTradeId : string)
                  (tokenBalance : PaperBalance.t) (buyTrade : PaperTrade.t)
                  (bot : Bot) : Thrown + Bot * Output :=
  let priceMultiplier := simulatePriceMovement (scenarioRandom d) (multiplierRandom d) in
  let newPrice := PaperTrade.price buyTrade * priceMultiplier in
  let quoteAmountReceived := PaperBalance.amount tokenBalance * newPrice in
  let slippageMultiplier := 1 - BotConfig.sellSlippage config / 100 in
  let finalQuoteAmount := quoteAmountReceived * slippageMultiplier in
  let symbol := quoteSymbol config in
  match JsMap.get symbol (paperBalances bot) with
  | None => inl TypeError
  | Some quoteBalance =>
      (* quoteBalance.amount += finalQuoteAmount *)
      let credited :=
        JsMap.set symbol
          (PaperBalance.withAmount quoteBalance
             (PaperBalance.amount quoteBalance + finalQuoteAmount))
          (paperBalances bot) in
      (* [tokenBalance] is the object stored under [tokenMint]; its amount
         is read again below, after the credit. *)
      let tokenBalanceAmount :=
        match JsMap.get tokenMint credited with
        | Some b => PaperBalance.amount b
        | None => PaperBalance.amount tokenBalance
        end in
      let balances := JsMap.delete tokenMint credited in
      let profit := finalQuoteAmount - PaperTrade.quoteAmount buyTrade in
      let profitPercent := (profit / PaperTrade.quoteAmount buyTrade) * 100 in
      let sellTrade :=
        {| PaperTrade.id := ("sell_" ++ buyTradeId)%string;
           PaperTrade.action := sell_action;
           PaperTrade.token := tokenMint;
           PaperTrade.tokenSymbol := PaperTrade.tokenSymbol buyTrade;
           PaperTrade.quoteAmount := finalQuoteAmount;
           PaperTrade.tokenAmount := tokenBalanceAmount;
           PaperTrade.price := newPrice;
           PaperTrade.timestamp := sellStamp d;
           PaperTrade.profit := Some profit;
           PaperTrade.profitPercent := Some profitPercent |} in
      inr ({| paperBalances := balances;
              paperTrades := paperTrades bot ++ [sellTrade];
              totalPaperProfit := totalPaperProfit bot + profit;
              tradeCounter := tradeCounter bot;
              initialBalance := initialBalance bot |},
           say [LogSellExecuted tokenMint
                  (ToFixed (PaperTrade.price buyTrade) 8) (ToFixed newPrice 8)
                  (ToFixed profit 6) (ToFixed profitPercent 2)
                  (num_gt profit 0)])
  end.

Definition executePaperSell (config : BotConfig.t) (d : SellDraws)
                            (tokenMint buyTradeId : string) (bot : Bot)
  : Bot * Output :=
  match JsMap.get tokenMint (paperBalances bot),
        find (isBuyWithId buyTradeId) (paperTrades bot) with
  | Some tokenBalance, Some buyTrade =>
      match settle config d tokenMint buyTradeId tokenBalance buyTrade bot with
      | inr result => result
      | inl _ => (bot, say [LogSellFailed])
      end
  | _, _ => (bot, say [LogCannotSell])
  end.

(** The predicate of [sell]: a buy of this token with no sell record
    carrying its derived id. *)
Definition isUnsettledBuyOf (trades : list PaperTrade.t) (tokenMint : string)
                            (t : PaperTrade.t) : bool :=
  String.eqb (PaperTrade.token t) tokenMint
  && Action_eqb (PaperTrade.action t) buy_action
  && negb (existsb (fun sellT =>
                      String.eqb (PaperTrade.id sellT)
                                 ("sell_" ++ PaperTrade.id t)) trades).

Definition sell (config : BotConfig.t) (d : SellDraws)
                (rawAccount : RawAccount) (bot : Bot) : Bot * Output :=
  let tokenMint := mint rawAccount in
  let entered := LogProcessingSell tokenMint in
  match JsMap.get tokenMint (paperBalances bot) with
  | Some _ =>
      match find (isUnsettledBuyOf (paperTrades bot) tokenMint) (paperTrades bot) with
      | Some buyTrade =>
          let '(bot', out) :=
            executePaperSell config d tokenMint (PaperTrade.id buyTrade) bot in
          (bot', {| logs := entered :: logs out; armed := armed out |})
      | None => (bot, say [entered])
      end
  | None => (bot, say [entered])
  end.

Definition isBuy (t : PaperTrade.t) : bool :=
  Action_eqb (PaperTrade.action t) buy_action.

Definition isSell (t : PaperTrade.t) : bool :=
  Action_eqb (PaperTrade.action t) sell_action.

(** [t.profit! > 0]; a missing profit compares as [false]. *)
Definition isWinning (t : PaperTrade.t) : bool :=
  match PaperTrade.profit t with
  | Some p => num_gt p 0
  | None => false
  end.

(** [xs.length] as a number. *)
Definition lengthNumber {A} (xs : list A) : number :=
  inject_Z (Z.of_nat (length xs)).

(** [xs.slice(-n)] *)
Definition sliceLast {A} (n : nat) (xs : list A) : list A :=
  skipn (length xs - n) xs.

(** [paperBalances.get(symbol)?.amount || 0] *)
Definition currentQuoteBalance (config : BotConfig.t) (bot : Bot) : number :=
  match JsMap.get (quoteSymbol config) (paperBalances bot) with
  | Some b => PaperBalance.amount b
  | None => 0
  end.

Definition winRateLine (completedTrades winningTrades : list PaperTrade.t) : Rendered :=
  if (0 <? length completedTrades)%nat
  then ToFixed ((lengthNumber winningTrades / lengthNumber completedTrades) * 100) 2
  else Lit "0.00".

(** [recentTrades.forEach(...)].  For a sell record [profitPercent!.toFixed(2)]
    is evaluated before the line is logged; on a record without
    [profitPercent] it throws, which ends [printSummary] there: the lines
    logged so far are kept and [false] is returned. *)
Fixpoint recentLines (symbol : string) (trades : list PaperTrade.t)
  : list LogEntry * bool :=
  match trades with
  | [] => ([], true)
  | trade :: rest =>
      match PaperTrade.action trade with
      | buy_action =>
          let '(lines, completed) := recentLines symbol rest in
          (LogRecentBuy (PaperTrade.timestamp trade) (PaperTrade.tokenSymbol trade)
                        (ToFixed (PaperTrade.quoteAmount trade) 6) symbol :: lines,
           completed)
      | sell_action =>
          match PaperTrade.profitPercent trade with
          | Some p =>
              let '(lines, completed) := recentLines symbol rest in
              (LogRecentSell (PaperTrade.timestamp trade)
                             (PaperTrade.tokenSymbol trade)
                             (isWinning trade) (ToFixed p 2) :: lines,
               completed)
          | None => ([], false)
          end
      end
  end.

Definition printSummary (config : BotConfig.t) (bot : Bot) : Bot * Output :=
  let symbol := quoteSymbol config in
  let completedTrades := filter isSell (paperTrades bot) in
  let winningTrades := filter isWinning completedTrades in
  let currentBalance := currentQuoteBalance config bot in
  let totalReturn :=
    ((currentBalance - initialBalance bot) / initialBalance bot) * 100 in
  let openPositions :=
    filter (fun b => negb (String.eqb (PaperBalance.symbol b) symbol))
           (JsMap.values (paperBalances bot)) in
  let recentTrades := sliceLast 3 (paperTrades bot) in
  (bot,
   say ([ LogSummaryHeader;
          LogCurrentBalance (ToFixed currentBalance 6) symbol;
          LogTotalReturn (ToFixed totalReturn 2);
          LogTotalOpportunities (length (filter isBuy (paperTrades bot)));
          LogCompletedTrades (length completedTrades);
          LogWinRate (winRateLine completedTrades winningTrades);
          LogTotalProfit (ToFixed (totalPaperProfit bot) 6) symbol ]
        ++ (if (0 <? length openPositions)%nat
            then LogOpenPositions (length openPositions)
                 :: map (fun pos => LogOpenPosition (PaperBalance.symbol pos)
                                      (ToFixed (PaperBalance.amount pos) 6))
                        openPositions
            else [])
        ++ (if (0 <? length recentTrades)%nat
            then LogRecentActivity :: fst (recentLines symbol recentTrades)
            else [])
        ++ (if snd (recentLines symbol recentTrades)
            then [LogSummaryFooter]
            else []))).

(** ** The bot under its event sources

    Pool events call [buy], account events call [sell], an armed timer
    calls [executePaperSell] when it fires, and the interval timer calls
    [printSummary].  Each callback runs to completion, so a run is a
    sequence of events; a timer fires at most once. *)

Record World := mkWorld {
  theBot : Bot;
  pending : list Timer;
  journal : list LogEntry
}.

Inductive Event :=
| PoolDetected (poolState : PoolState) (d : BuyDraws)
| AccountObserved (rawAccount : RawAccount) (d : SellDraws)
| TimerFired (n : nat) (d : SellDraws)
| SummaryTick.

Definition removeNth {A} (n : nat) (xs : list A) : list A :=
  firstn n xs ++ skipn (S n) xs.

Definition absorb (w : World) (pendingLeft : list Timer) (r : Bot * Output) : World :=
  {| theBot := fst r;
     pending := pendingLeft ++ armed (snd r);
     journal := journal w ++ logs (snd r) |}.

Definition step (config : BotConfig.t) (w : World) (e : Event) : World :=
  match e with
  | PoolDetected poolState d =>
      absorb w (pending w) (buy config d poolState (theBot w))
  | AccountObserved rawAccount d =>
      absorb w (pending w) (sell config d rawAccount (theBot w))
  | TimerFired n d =>
      match nth_error (pending w) n with
      | Some t =>
          absorb w (removeNth n (pending w))
                 (executePaperSell config d (timerMint t) (timerTradeId t) (theBot w))
      | None => w
      end
  | SummaryTick =>
      absorb w (pending w) (printSummary config (theBot w))
  end.

Definition run (config : BotConfig.t) (w : World) (events : list Event) : World :=
  fold_left (step config) events w.

(** The state after the constructor. *)
Definition start (config : BotConfig.t) : World :=
  absorb {| theBot := fst (initializePaperBalances config);
            pending := []; journal := [] |}
         [] (initializePaperBalances config).

(** Sums over the trade ledger. *)
Definition sumQuote (p : PaperTrade.t -> bool) (trades : list PaperTrade.t) : number :=
  fold_right (fun t acc => PaperTrade.quoteAmount t + acc) 0 (filter p trades).

Definition countWithId (i : string) (p : PaperTrade.t -> bool)
                       (trades : list PaperTrade.t) : nat :=
  length (filter (fun t => String.eqb (PaperTrade.id t) i && p t) trades).

(** ** Concrete configurations and inputs used in the examples *)

Definition solConfig (quoteAmount slippage : number) : BotConfig.t :=
  {| BotConfig.quoteTokenSymbol := Some "SOL"%string;
     BotConfig.quoteTokenMint := "So11111111111111111111111111111111111111112";
     BotConfig.quoteAmount := quoteAmount;
     BotConfig.autoSell := true;
     BotConfig.autoSellDelay := 20000;
     BotConfig.sellSlippage := slippage |}.

Definition mintA : string := "7xKXtg2CW87d97TXJSDpbD5jBkheTqA83TZRuJosgAsU".

Definition poolA : PoolState := {| baseMint := mintA |}.
Definition accountA : RawAccount := {| mint := mintA |}.

(** A buy whose synthetic price is [0.4 * 0.001 + 0.0001 = 0.0005]. *)
Definition buyAt0005 (clock : N) : BuyDraws :=
  {| priceRandom := 0.4; now := clock; buyStamp := clock; jitterRandom := 0.5 |}.

(** A buy whose synthetic price is [0.9 * 0.001 + 0.0001 = 0.001]. *)
Definition buyAt001 (clock : N) : BuyDraws :=
  {| priceRandom := 0.9; now := clock; buyStamp := clock; jitterRandom := 0.5 |}.

(** A sell that lands in the third scenario with multiplier
    [1.3 + (2/17) * 1.7 = 1.5]. *)
Definition sellAt15 (clock : N) : SellDraws :=
  {| scenarioRandom := 0.8; multiplierRandom := 2 # 17; sellStamp := clock |}.

(** Two pool events for the same mint, an account event between them, and
    the timer of the first buy firing last ([20000 + 0.5 * 10000] ms after
    the first buy). *)
Definition staleTimerRun : list Event :=
  [ PoolDetected poolA (buyAt0005 1700000000000);
    AccountObserved accountA (sellAt15 1700000010000);
    PoolDetected poolA (buyAt001 1700000012000);
    TimerFired 0 (sellAt15 1700000025000) ].

(** ** Quantities of a Close, named as in the design *)

Section CloseQuantities.
Variable config : BotConfig.t.
Variable d : SellDraws.
Variable assetQuantity : number.
Variable buyTrade : PaperTrade.t.

Definition exitPrice : number :=
  PaperTrade.price buyTrade
  * simulatePriceMovement (scenarioRandom d) (multiplierRandom d).

Definition grossProceeds : number := assetQuantity * exitPrice.

Definition netProceeds : number :=
  grossProceeds * (1 - BotConfig.sellSlippage config / 100).

Definition profitOf : number := netProceeds - PaperTrade.quoteAmount buyTrade.

Definition profitPercentOf : number :=
  (profitOf / PaperTrade.quoteAmount buyTrade) * 100.
End CloseQuantities.

Definition isWarn (l : LogEntry) : bool :=
  match level l with warn => true | _ => false end.

(** A bot whose whole quote balance is [0.02 SOL]. *)
Definition poorBot : Bot :=
  {| paperBalances :=
       [ ("SOL"%string,
          {| PaperBalance.token := "So11111111111111111111111111111111111111112";
             PaperBalance.amount := 0.02;
             PaperBalance.symbol := "SOL" |}) ];
     paperTrades := [];
     totalPaperProfit := 0;
     tradeCounter := 0;
     initialBalance := 1 |}.

(** The end-to-end example of the design: buy amount [0.05], slippage [2]. *)
Definition exampleConfig : BotConfig.t := solConfig 0.05 2.

Definition afterOpen : World :=
  run exampleConfig (start exampleConfig)
      [ PoolDetected poolA (buyAt0005 1700000000000) ].

Definition afterClose : World :=
  run exampleConfig afterOpen [ TimerFired 0 (sellAt15 1700000025000) ].

(** Two pool events for the same mint at prices [0.0005] and [0.001], then
    the timer of the first buy. *)
Definition overwriteRun : list Event :=
  [ PoolDetected poolA (buyAt0005 1700000000000);
    PoolDetected poolA (buyAt001 1700000012000);
    TimerFired 0 (sellAt15 1700000025000) ].

(** ** Win rate, counted from the raw ledger *)

Fixpoint countSells (trades : list PaperTrade.t) : nat :=
  match trades with
  | [] => 0
  | t :: rest =>
      match PaperTrade.action t with
      | sell_action => S (countSells rest)
      | buy_action => countSells rest
      end
  end.

Fixpoint countWinningSells (trades : list PaperTrade.t) : nat :=
  match trades with
  | [] => 0
  | t :: rest =>
      match PaperTrade.action t, PaperTrade.profit t with
      | sell_action, Some p =>
          if Qlt_le_dec 0 p then S (countWinningSells rest)
          else countWinningSells rest
      | _, _ => countWinningSells rest
      end
  end.

(** [wins / sells * 100] rendered with two decimals, or the text [0.00]. *)
Definition winRateOf (trades : list PaperTrade.t) : Rendered :=
  match countSells trades with
  | O => Lit "0.00"
  | S _ =>
      ToFixed (inject_Z (Z.of_nat (countWinningSells trades))
               / inject_Z (Z.of_nat (countSells trades)) * 100) 2
  end.

(** The win-rate lines among the records of one summary. *)
Definition winRatesIn (lines : list LogEntry) : list Rendered :=
  flat_map (fun l => match l with LogWinRate r => [r] | _ => [] end) lines.

Definition reportedWinRate (out : Output) : list Rendered :=
  winRatesIn (logs out).

(** ** Well-formed runs *)

(** The mint address carried by a pool or account event. *)
Definition eventMint (e : Event) : option string :=
  match e with
  | PoolDetected poolState _ => Some (baseMint poolState)
  | AccountObserved rawAccount _ => Some (mint rawAccount)
  | TimerFired _ _ | SummaryTick => None
  end.

(** No event carries the quote symbol in place of a mint address. *)
Definition mintsApart (config : BotConfig.t) (events : list Event) : Prop :=
  Forall (fun e => eventMint e <> Some (quoteSymbol config)) events.

(** The conservation equation of the quote asset. *)
Definition conserves (config : BotConfig.t) (bot : Bot) : Prop :=
  initialBalance bot - currentQuoteBalance config bot
  + sumQuote isSell (paperTrades bot)
  == sumQuote isBuy (paperTrades bot).

(** The quote entry exists and the equation holds. *)
Definition balanced (config : BotConfig.t) (bot : Bot) : Prop :=
  JsMap.get (quoteSymbol config) (paperBalances bot) <> None
  /\ conserves config bot.

Definition settled (config : BotConfig.t) (w : World) : Prop :=
  balanced config (theBot w)
  /\ Forall (fun t => timerMint t <> quoteSymbol config) (pending w).

(** ** Settlement bookkeeping *)

(** The id template of [executePaperBuy]. *)
Definition tradeIdOf (counter clock : N) : string :=
  ("trade_" ++ decimal counter ++ "_" ++ decimal clock)%string.

(** Ids of the Sell records of a ledger, in order. *)
Definition sellIds (trades : list PaperTrade.t) : list string :=
  map PaperTrade.id (filter isSell trades).

(** The Sell id each pending timer would write. *)
Definition pendingSellIds (timers : list Timer) : list string :=
  map (fun t => ("sell_" ++ timerTradeId t)%string) timers.

(** Runs in which positions are closed by timers only, as wired by
    [runPaperTrading]: pool events, timer firings and summaries. *)
Definition closedByTimersOnly (events : list Event) : Prop :=
  Forall (fun e => match e with AccountObserved _ _ => False | _ => True end)
         events.

(** Every Sell id, written or pending, occurs once and stems from a trade
    counter value already used. *)
Definition settlesOnce (w : World) : Prop :=
  NoDup (sellIds (paperTrades (theBot w)) ++ pendingSellIds (pending w))
  /\ Forall (fun x => exists counter clock,
                 (counter <= tradeCounter (theBot w))%N
                 /\ x = ("sell_" ++ tradeIdOf counter clock)%string)
            (sellIds (paperTrades (theBot w)) ++ pendingSellIds (pending w)).

(** ** Ledger bookkeeping over runs *)

(** Ids of the Buy records of a ledger, in order. *)
Definition buyIds (trades : list PaperTrade.t) : list string :=
  map PaperTrade.id (filter isBuy trades).


(** The timer was armed for a Buy that is in the ledger. *)
Definition timerHasBuy (trades : list PaperTrade.t) (t : Timer) : Prop :=
  exists b, In b trades /\ isBuy b = true
            /\ PaperTrade.id b = timerTradeId t
            /\ PaperTrade.token b = timerMint t.

(** Buy ids are numbered by the trade counter, every pending timer points
    at a recorded Buy, and every Sell record carries its profit fields. *)
Definition wellNumbered (w : World) : Prop :=
  N.of_nat (length (filter isBuy (paperTrades (theBot w)))) = tradeCounter (theBot w)
  /\ NoDup (buyIds (paperTrades (theBot w)))
  /\ Forall (fun x => exists counter clock,
                 (counter <= tradeCounter (theBot w))%N
                 /\ x = tradeIdOf counter clock)
            (buyIds (paperTrades (theBot w)))
  /\ Forall (timerHasBuy (paperTrades (theBot w))) (pending w)
  /\ Forall (fun t => isSell t = true ->
                      PaperTrade.profit t <> None
                      /\ PaperTrade.profitPercent t <> None)
            (paperTrades (theBot w)).


(** No balance entry is negative and no recorded price is negative. *)
Definition nonNegative (bot : Bot) : Prop :=
  Forall (fun b => 0 <= PaperBalance.amount b) (JsMap.values (paperBalances bot))
  /\ Forall (fun t => 0 <= PaperTrade.price t) (paperTrades bot).

(** The [Math.random()] values that enter a price or a multiplier are not
    negative. *)
Definition drawsNonNegative (e : Event) : Prop :=
  match e with
  | PoolDetected _ d => 0 <= priceRandom d
  | AccountObserved _ d | TimerFired _ d => 0 <= multiplierRandom d
  | SummaryTick => True
  end.

(** A configuration whose quote symbol is not one the constructor funds. *)
Definition wsolConfig : BotConfig.t :=
  {| BotConfig.quoteTokenSymbol := Some "WSOL"%string;
     BotConfig.quoteTokenMint := "So11111111111111111111111111111111111111112";
     BotConfig.quoteAmount := 0.05;
     BotConfig.autoSell := true;
     BotConfig.autoSellDelay := 20000;
     BotConfig.sellSlippage := 2 |}.

(** ** The exported [PaperTradingBot]

    The second source file exports a class of the same name.  It differs
    from the class of [paper-trading.ts] in its scenario table, in reading
    [config.quoteToken.symbol] without a default, in the delay of the
    auto-sell timer and in [sell]; it adds [getPaperTradingResults].  Its
    log records carry the same fields and are written with the same
    [LogEntry] constructors. *)

Module ExportedBot.

Definition scenarios : list Scenario :=
  [ {| probability := 0.4; multiplier := fun r => 0.3 + r * 0.4 |};
    {| probability := 0.3; multiplier := fun r => 0.8 + r * 0.4 |};
    {| probability := 0.2; multiplier := fun r => 1.2 + r * 0.8 |};
    {| probability := 0.1; multiplier := fun r => 2 + r * 8 |} ].

Definition simulatePriceMovement (random sample : number) : number :=
  scenarioLoop scenarios 0 random sample.

(** [paperBalances.get(this.config.quoteToken.symbol)]; no key is
    [undefined]. *)
Definition getQuote (config : BotConfig.t) (balances : JsMap.t PaperBalance.t)
  : option PaperBalance.t :=
  match BotConfig.quoteTokenSymbol config with
  | Some symbol => JsMap.get symbol balances
  | None => None
  end.

(** [${this.config.quoteToken.symbol}] *)
Definition symbolText (config : BotConfig.t) : string :=
  match BotConfig.quoteTokenSymbol config with
  | Some symbol => symbol
  | None => "undefined"
  end.

Definition initializePaperBalances (config : BotConfig.t) : Bot * Output :=
  let bot :=
    match BotConfig.quoteTokenSymbol config with
    | Some "USDC"%string =>
        {| paperBalances :=
             JsMap.set "USDC"
               {| PaperBalance.token := BotConfig.quoteTokenMint config;
                  PaperBalance.amount := 100;
                  PaperBalance.symbol := "USDC" |} JsMap.empty;
           paperTrades := [];
           totalPaperProfit := 0;
           tradeCounter := 0;
           initialBalance := 100 |}
    | _ =>
        {| paperBalances :=
             JsMap.set "SOL"
               {| PaperBalance.token := BotConfig.quoteTokenMint config;
                  PaperBalance.amount := 1;
                  PaperBalance.symbol := "SOL" |} JsMap.empty;
           paperTrades := [];
           totalPaperProfit := 0;
           tradeCounter := 0;
           initialBalance := 1 |}
    end in
  (bot, say [LogInitialized (initialBalance bot) (symbolText config)]).

(** [executePaperBuy(poolKeys, poolState)]; [poolKeys] is not read. *)
Definition executePaperBuy (config : BotConfig.t) (d : BuyDraws)
                           (poolState : PoolState) (bot : Bot) : Bot * Output :=
  let quoteAmount := BotConfig.quoteAmount config in
  match BotConfig.quoteTokenSymbol config, getQuote config (paperBalances bot) with
  | Some symbol, Some quoteBalance =>
      if num_lt (PaperBalance.amount quoteBalance) quoteAmount then
        (bot, say [LogInsufficient symbol (Raw (PaperBalance.amount quoteBalance))
                                   (Raw quoteAmount)])
      else
        let estimatedTokenPrice := priceRandom d * 0.001 + 0.0001 in
        let tokenAmount := quoteAmount / estimatedTokenPrice in
        let counter := (tradeCounter bot + 1)%N in
        let tradeId := ("trade_" ++ decimal counter ++ "_" ++ decimal (now d))%string in
        let debited :=
          JsMap.set symbol
            (PaperBalance.withAmount quoteBalance
               (PaperBalance.amount quoteBalance - quoteAmount))
            (paperBalances bot) in
        let tokenMint := baseMint poolState in
        let balances :=
          JsMap.set tokenMint
            {| PaperBalance.token := tokenMint;
               PaperBalance.amount := tokenAmount;
               PaperBalance.symbol := tokenSymbolOf tokenMint |}
            debited in
        let trade :=
          {| PaperTrade.id := tradeId;
             PaperTrade.action := buy_action;
             PaperTrade.token := tokenMint;
             PaperTrade.tokenSymbol := tokenSymbolOf tokenMint;
             PaperTrade.quoteAmount := quoteAmount;
             PaperTrade.tokenAmount := tokenAmount;
             PaperTrade.price := estimatedTokenPrice;
             PaperTrade.timestamp := buyStamp d;
             PaperTrade.profit := None;
             PaperTrade.profitPercent := None |} in
        ({| paperBalances := balances;
            paperTrades := paperTrades bot ++ [trade];
            totalPaperProfit := totalPaperProfit bot;
            tradeCounter := counter;
            initialBalance := initialBalance bot |},
         {| logs := [LogBuyExecuted tokenMint tradeId quoteAmount
                       (ToFixed tokenAmount 6) (ToFixed estimatedTokenPrice 8)];
            armed :=
              if BotConfig.autoSell config then
                [ {| timerMint := tokenMint;
                     timerTradeId := tradeId;
                     timerDelay := BotConfig.autoSellDelay config |} ]
              else [] |})
  | _, _ =>
      (bot, say [LogInsufficient (symbolText config) (Raw 0) (Raw quoteAmount)])
  end.

Definition executePaperSell (config : BotConfig.t) (d : SellDraws)
                            (tokenMint buyTradeId : string) (bot : Bot)
  : Bot * Output :=
  match JsMap.get tokenMint (paperBalances bot),
        find (isBuyWithId buyTradeId) (paperTrades bot) with
  | Some tokenBalance, Some buyTrade =>
      let priceMultiplier :=
        simulatePriceMovement (scenarioRandom d) (multiplierRandom d) in
      let newPrice := PaperTrade.price buyTrade * priceMultiplier in
      let quoteAmountReceived := PaperBalance.amount tokenBalance * newPrice in
      let slippageMultiplier := 1 - BotConfig.sellSlippage config / 100 in
      let finalQuoteAmount := quoteAmountReceived * slippageMultiplier in
      match BotConfig.quoteTokenSymbol config, getQuote config (paperBalances bot) with
      | Some symbol, Some quoteBalance =>
          let credited :=
            JsMap.set symbol
              (PaperBalance.withAmount quoteBalance
                 (PaperBalance.amount quoteBalance + finalQuoteAmount))
              (paperBalances bot) in
          let tokenBalanceAmount :=
            match JsMap.get tokenMint credited with
            | Some b => PaperBalance.amount b
            | None => PaperBalance.amount tokenBalance
            end in
          let profit := finalQuoteAmount - PaperTrade.quoteAmount buyTrade in
          let profitPercent := (profit / PaperTrade.quoteAmount buyTrade) * 100 in
          ({| paperBalances := JsMap.delete tokenMint credited;
              paperTrades :=
                paperTrades bot ++
                [ {| PaperTrade.id := ("sell_" ++ buyTradeId)%string;
                     PaperTrade.action := sell_action;
                     PaperTrade.token := tokenMint;
                     PaperTrade.tokenSymbol := PaperTrade.tokenSymbol buyTrade;
                     PaperTrade.quoteAmount := finalQuoteAmount;
                     PaperTrade.tokenAmount := tokenBalanceAmount;
                     PaperTrade.price := newPrice;
                     PaperTrade.timestamp := sellStamp d;
                     PaperTrade.profit := Some profit;
                     PaperTrade.profitPercent := Some profitPercent |} ];
              totalPaperProfit := totalPaperProfit bot + profit;
              tradeCounter := tradeCounter bot;
              initialBalance := initialBalance bot |},
           say [LogSellExecuted tokenMint
                  (ToFixed (PaperTrade.price buyTrade) 8) (ToFixed newPrice 8)
                  (ToFixed profit 6) (ToFixed profitPercent 2)
                  (num_gt profit 0)])
      | _, _ => (bot, say [LogSellFailed])   (* the [TypeError] is caught *)
      end
  | _, _ => (bot, say [LogCannotSell])
  end.

(** [t => t.token === tokenMint && t.action === 'buy'] *)
Definition isBuyOf (tokenMint : string) (t : PaperTrade.t) : bool :=
  String.eqb (PaperTrade.token t) tokenMint
  && Action_eqb (PaperTrade.action t) buy_action.

(** [sell]: the id of the first buy of the mint, when it is a non-empty
    string, is handed to [executePaperSell]. *)
Definition sell (config : BotConfig.t) (d : SellDraws)
                (rawAccount : RawAccount) (bot : Bot) : Bot * Output :=
  let tokenMint := mint rawAccount in
  match find (isBuyOf tokenMint) (paperTrades bot) with
  | Some buyTrade =>
      match PaperTrade.id buyTrade with
      | EmptyString => (bot, say [])
      | buyTradeId => executePaperSell config d tokenMint buyTradeId bot
      end
  | None => (bot, say [])
  end.

Record Results := mkResults {
  totalTrades : nat;
  completedTrades : nat;
  winningTrades : nat;
  winRate : number;
  totalProfit : number;
  currentBalance : number;
  resultInitialBalance : number;
  totalReturn : number;
  trades : list PaperTrade.t;
  balances : list PaperBalance.t
}.

Definition getPaperTradingResults (config : BotConfig.t) (bot : Bot) : Results :=
  let completed := filter isSell (paperTrades bot) in
  let winning := filter isWinning completed in
  let current :=
    match getQuote config (paperBalances bot) with
    | Some b => PaperBalance.amount b
    | None => 0
    end in
  {| totalTrades := length (filter isBuy (paperTrades bot));
     completedTrades := length completed;
     winningTrades := length winning;
     winRate :=
       if (0 <? length completed)%nat
       then (lengthNumber winning / lengthNumber completed) * 100
       else 0;
     totalProfit := totalPaperProfit bot;
     currentBalance := current;
     resultInitialBalance := initialBalance bot;
     totalReturn := ((current - initialBalance bot) / initialBalance bot) * 100;
     trades := paperTrades bot;
     balances := JsMap.values (paperBalances bot) |}.

End ExportedBot.

(** ** [DryRunBot] of [dry-run-bot.ts] *)

Module DryRun.

(** An element of [tradingResults]; on a sell record [profit] holds the
    profit percent. *)
Record Result := mkResult {
  action : Action;
  token : string;
  amount : number;
  price : number;
  timestamp : N;
  profit : option number
}.

Record Bot := mkBot {
  tradingResults : list Result;
  totalProfit : number;
  totalTrades : N;
  successfulTrades : N;
  simulationMode : bool
}.

(** [setTimeout(() => this.simulateSell(mint, simulatedPrice), delay)] *)
Record Timer := mkTimer {
  timerMint : string;
  timerBuyPrice : number;
  timerDelay : number
}.

Inductive LogEntry :=
| LogSimulationEnabled
| LogWouldBuy (mint : string)
| LogSimulatingBuy (mint : string)
| LogBuyExecuted (mint : string)
| LogWouldSell (mint : string)
| LogSellExecuted (mint : string)
| LogSellOutcome (buyPrice sellPrice profitPercent : Rendered)
| LogNewToken (mint : string).

Record Output := mkOutput {
  logs : list LogEntry;
  armed : list Timer
}.

(** Values read from the environment by [buy] and [simulateBuy]. *)
Record BuyDraws := mkBuyDraws {
  priceRandom : number;      (* Math.random() of simulatedPrice *)
  buyStamp : N;              (* new Date() *)
  holdRandom : number        (* Math.random() of the hold time, simulateBuy only *)
}.

(** Values read from the environment by [simulateSell]. *)
Record SellDraws := mkSellDraws {
  multiplierRandom : number; (* Math.random() of priceMultiplier *)
  sellStamp : N              (* new Date() *)
}.

(** The state after the field initialisers; the constructor then calls
    [startTradingSimulation], which installs the interval and logs. *)
Definition initial : Bot :=
  {| tradingResults := [];
     totalProfit := 0;
     totalTrades := 0;
     successfulTrades := 0;
     simulationMode := true |}.

Definition startTradingSimulation (bot : Bot) : Bot * Output :=
  (bot, {| logs := [LogSimulationEnabled]; armed := [] |}).

(** The record pushed and the counters bumped by [buy] and [simulateBuy]. *)
Definition recordBuy (config : BotConfig.t) (d : BuyDraws) (tokenMint : string)
                     (bot : Bot) : Bot :=
  {| tradingResults :=
       tradingResults bot ++
       [ {| action := buy_action;
            token := tokenMint;
            amount := BotConfig.quoteAmount config;
            price := priceRandom d * 0.001;
            timestamp := buyStamp d;
            profit := None |} ];
     totalProfit := totalProfit bot;
     totalTrades := (totalTrades bot + 1)%N;
     successfulTrades := (successfulTrades bot + 1)%N;
     simulationMode := simulationMode bot |}.

Definition buy (config : BotConfig.t) (d : BuyDraws) (poolState : PoolState)
               (bot : Bot) : Bot * Output :=
  let tokenMint := baseMint poolState in
  (recordBuy config d tokenMint bot,
   {| logs := [LogWouldBuy tokenMint; LogBuyExecuted tokenMint];
      armed :=
        if BotConfig.autoSell config then
          [ {| timerMint := tokenMint;
               timerBuyPrice := priceRandom d * 0.001;
               timerDelay := 5000 |} ]
        else [] |}).

Definition simulateBuy (config : BotConfig.t) (d : BuyDraws) (poolState : PoolState)
                       (bot : Bot) : Bot * Output :=
  let tokenMint := baseMint poolState in
  (recordBuy config d tokenMint bot,
   {| logs := [LogSimulatingBuy tokenMint; LogBuyExecuted tokenMint];
      armed :=
        if BotConfig.autoSell config then
          [ {| timerMint := tokenMint;
               timerBuyPrice := priceRandom d * 0.001;
               timerDelay := 5000 + holdRandom d * 10000 |} ]
        else [] |}).

Definition simulateSell (d : SellDraws) (tokenMint : string) (buyPrice : number)
                        (bot : Bot) : Bot * Output :=
  let priceMultiplier := 0.5 + multiplierRandom d * 2.5 in
  let sellPrice := buyPrice * priceMultiplier in
  let profit := sellPrice - buyPrice in
  let profitPercent := ((sellPrice - buyPrice) / buyPrice) * 100 in
  ({| tradingResults :=
        tradingResults bot ++
        [ {| action := sell_action;
             token := tokenMint;
             amount := sellPrice;
             price := sellPrice;
             timestamp := sellStamp d;
             profit := Some profitPercent |} ];
      totalProfit := totalProfit bot + profit;
      totalTrades := totalTrades bot;
      successfulTrades := successfulTrades bot;
      simulationMode := simulationMode bot |},
   {| logs := [LogSellExecuted tokenMint;
               LogSellOutcome (ToFixed buyPrice 6) (ToFixed sellPrice 6)
                              (ToFixed profitPercent 2)];
      armed := [] |}).

(** [r => r.token === mint && r.action === 'buy'] *)
Definition isBuyOf (tokenMint : string) (r : Result) : bool :=
  String.eqb (token r) tokenMint && Action_eqb (action r) buy_action.

Definition sell (d : SellDraws) (rawAccount : RawAccount) (bot : Bot)
  : Bot * Output :=
  let tokenMint := mint rawAccount in
  match find (isBuyOf tokenMint) (tradingResults bot) with
  | Some buyRecord =>
      let '(bot', out) := simulateSell d tokenMint (price buyRecord) bot in
      (bot', {| logs := LogWouldSell tokenMint :: logs out; armed := armed out |})
  | None => (bot, {| logs := [LogWouldSell tokenMint]; armed := [] |})
  end.

(** [simulateTokenLaunch]; [suffix] is the text of
    [Math.random().toString(36).substring(2, 15)]. *)
Definition simulateTokenLaunch (config : BotConfig.t) (suffix : string)
                               (d : BuyDraws) (bot : Bot) : Bot * Output :=
  let fakeTokenMint := ("FAKE" ++ suffix)%string in
  let '(bot', out) := simulateBuy config d {| baseMint := fakeTokenMint |} bot in
  (bot', {| logs := LogNewToken fakeTokenMint :: logs out; armed := armed out |}).

(** One firing of the interval installed by [startTradingSimulation]. *)
Definition simulationTick (config : BotConfig.t) (chance : number)
                          (suffix : string) (d : BuyDraws) (bot : Bot)
  : Bot * Output :=
  if num_lt chance 0.3
  then simulateTokenLaunch config suffix d bot
  else (bot, {| logs := []; armed := [] |}).

(** [r => r.profit && r.profit > 0] *)
Definition isWinning (r : Result) : bool :=
  match profit r with
  | Some p => num_gt p 0
  | None => false
  end.

Definition isSell (r : Result) : bool := Action_eqb (action r) sell_action.
Definition isBuy (r : Result) : bool := Action_eqb (action r) buy_action.

Record Results := mkResults {
  resultTotalTrades : N;
  resultSuccessfulTrades : N;
  resultTotalProfit : number;
  results : list Result;
  winRate : number;
  completedTrades : nat
}.

Definition getResults (bot : Bot) : Results :=
  let winningTrades := length (filter isWinning (tradingResults bot)) in
  let totalCompletedTrades := length (filter isSell (tradingResults bot)) in
  {| resultTotalTrades := totalTrades bot;
     resultSuccessfulTrades := successfulTrades bot;
     resultTotalProfit := totalProfit bot;
     results := tradingResults bot;
     winRate :=
       if (0 <? totalCompletedTrades)%nat
       then (inject_Z (Z.of_nat winningTrades)
             / inject_Z (Z.of_nat totalCompletedTrades)) * 100
       else 0;
     completedTrades := totalCompletedTrades |}.

(** The callbacks of the bot as a run: pool and account events, armed
    timers, ticks of the simulation interval. *)
Record World := mkWorld {
  theBot : Bot;
  pending : list Timer
}.

Inductive Event :=
| PoolDetected (poolState : PoolState) (d : BuyDraws)
| AccountObserved (rawAccount : RawAccount) (d : SellDraws)
| TimerFired (n : nat) (d : SellDraws)
| IntervalTick (chance : number) (suffix : string) (d : BuyDraws).

Definition absorb (left : list Timer) (r : Bot * Output) : World :=
  {| theBot := fst r; pending := left ++ armed (snd r) |}.

Definition step (config : BotConfig.t) (w : World) (e : Event) : World :=
  match e with
  | PoolDetected poolState d => absorb (pending w) (buy config d poolState (theBot w))
  | AccountObserved rawAccount d => absorb (pending w) (sell d rawAccount (theBot w))
  | TimerFired n d =>
      match nth_error (pending w) n with
      | Some t =>
          absorb (removeNth n (pending w))
                 (simulateSell d (timerMint t) (timerBuyPrice t) (theBot w))
      | None => w
      end
  | IntervalTick chance suffix d =>
      absorb (pending w) (simulationTick config chance suffix d (theBot w))
  end.

Definition run (config : BotConfig.t) (w : World) (events : list Event) : World :=
  fold_left (step config) events w.

Definition start : World :=
  absorb [] (startTradingSimulation initial).

(** [sell] called once per element of [draws], in order. *)
Definition sellRepeatedly (draws : list SellDraws) (rawAccount : RawAccount)
                          (bot : Bot) : Bot :=
  fold_left (fun b d => fst (sell d rawAccount b)) draws bot.

End DryRun.

(** A state of the exported bot in which the first buy of [mintA] has been
    settled by [sell] and the mint has been bought again. *)
Definition exportedRebought : Bot :=
  fst (ExportedBot.executePaperBuy exampleConfig (buyAt001 1700000012000) poolA
         (fst (ExportedBot.sell exampleConfig (sellAt15 1700000010000) accountA
                 (fst (ExportedBot.executePaperBuy exampleConfig
                         (buyAt0005 1700000000000) poolA
                         (fst (ExportedBot.initializePaperBalances exampleConfig))))))).

(** Inputs of the dry-run examples. *)
Definition dryBuy : DryRun.BuyDraws :=
  {| DryRun.priceRandom := 0.5; DryRun.buyStamp := 1700000000000;
     DryRun.holdRandom := 0.5 |}.

Definition drySell (r : number) : DryRun.SellDraws :=
  {| DryRun.multiplierRandom := r; DryRun.sellStamp := 1700000005000 |}.

Definition dryBought : DryRun.Bot :=
  fst (DryRun.buy exampleConfig dryBuy poolA DryRun.initial).

(** Records with a profit are sell records. *)
Definition profitOnSells (bot : DryRun.Bot) : Prop :=
  Forall (fun r => DryRun.isWinning r = true -> DryRun.isSell r = true)
         (DryRun.tradingResults bot).

(** Both counters equal the number of buy records. *)
Definition buysCounted (bot : DryRun.Bot) : Prop :=
  DryRun.totalTrades bot = DryRun.successfulTrades bot
  /\ DryRun.totalTrades bot
     = N.of_nat (length (filter DryRun.isBuy (DryRun.tradingResults bot))).

(** ** Settlement when no asset is bought twice *)

(** The mints of the pool events of a run, in order. *)
Definition poolMints (events : list Event) : list string :=
  flat_map (fun e => match e with
                     | PoolDetected poolState _ => [baseMint poolState]
                     | _ => []
                     end) events.

(** A Sell record stems from a Buy of the same mint in the ledger, and the
    mint has no balance entry. *)
Definition sellIsClosed (bot : Bot) (s : PaperTrade.t) : Prop :=
  isSell s = true ->
  (exists b, In b (paperTrades bot) /\ isBuy b = true
             /\ PaperTrade.id s = ("sell_" ++ PaperTrade.id b)%string
             /\ PaperTrade.token s = PaperTrade.token b)
  /\ JsMap.get (PaperTrade.token s) (paperBalances bot) = None.

(** No Buy of the ledger is for the mint [m]. *)
Definition neverBought (bot : Bot) (m : string) : Prop :=
  Forall (fun b => isBuy b = true -> PaperTrade.token b <> m) (paperTrades bot).

(** Sell ids occur once, every Sell is closed, and the mints of the pool
    events still to come have not been bought. *)
Definition singleSettlement (remaining : list Event) (w : World) : Prop :=
  wellNumbered w
  /\ NoDup (sellIds (paperTrades (theBot w)))
  /\ Forall (sellIsClosed (theBot w)) (paperTrades (theBot w))
  /\ Forall (neverBought (theBot w)) (poolMints remaining).

(** A pool event, an account event for the same mint, and the timer. *)
Definition singleBuyRun : list Event :=
  [ PoolDetected poolA (buyAt0005 1700000000000);
    AccountObserved accountA (sellAt15 1700000010000);
    TimerFired 0 (sellAt15 1700000025000) ].

(** ** The class of [paper-trading.ts] in binary64 arithmetic

    A JavaScript [number] is an IEEE 754 binary64 value and every
    operator rounds its exact result to the nearest such value, ties to
    even.  Here a finite binary64 value is the rational it denotes and
    [add], [sub], [mul] and [div] round the exact result with [round];
    a decimal literal of the source is the rounding [lit] of its decimal
    value.  Subnormal numbers are part of the format; results beyond the
    largest finite value ([Infinity]) and [NaN] are not, and a division by
    zero is [0] as in the exact rendition.  Comparisons are exact.  The
    definitions below repeat the methods of the class with these
    operators; the constructor computes nothing and is shared. *)

Module Binary64.

(** Exponent of the smallest normal number. *)
Definition emin : Z := (-1022)%Z.

(** [floor (log2 q)] of a positive rational. *)
Definition ilog2 (q : Q) : Z :=
  let k := (Z.log2 (Qnum q) - Z.log2 (Zpos (Qden q)))%Z in
  if Qle_bool (2 ^ k) q then k else (k - 1)%Z.

(** The nearest integer, the even one of two nearest. *)
Definition rne (x : Q) : Z :=
  let f := Qfloor x in
  match Qcompare (x - inject_Z f) (1 # 2) with
  | Lt => f
  | Gt => (f + 1)%Z
  | Eq => if Z.even f then f else (f + 1)%Z
  end.

(** The spacing of binary64 values around [q]: 53 significant bits. *)
Definition ulp (q : Q) : Q := 2 ^ (Z.max (ilog2 q) emin - 52).

Definition roundPos (q : Q) : Q := inject_Z (rne (q / ulp q)) * ulp q.

Definition round (q : Q) : number :=
  Qred (if Qle_bool 0 q then roundPos q else - roundPos (- q)).

(** A decimal literal of the source. *)
Definition lit (q : Q) : number := round q.

Definition add (x y : number) : number := round (x + y).
Definition sub (x y : number) : number := round (x - y).
Definition mul (x y : number) : number := round (x * y).
Definition div (x y : number) : number := round (x / y).

Declare Scope b64_scope.
Delimit Scope b64_scope with b64.
Infix "+" := add : b64_scope.
Infix "-" := sub : b64_scope.
Infix "*" := mul : b64_scope.
Infix "/" := div : b64_scope.

Local Open Scope b64_scope.

(** *** Price movement simulator *)

Definition scenarios : list Scenario :=
  [ {| probability := lit 0.4; multiplier := fun r => lit 0.1 + r * lit 0.4 |};
    {| probability := lit 0.3; multiplier := fun r => lit 0.7 + r * lit 0.6 |};
    {| probability := lit 0.2; multiplier := fun r => lit 1.3 + r * lit 1.7 |};
    {| probability := lit 0.1; multiplier := fun r => 3 + r * 12 |} ].

Fixpoint scenarioLoop (rows : list Scenario) (cumulativeProbability : number)
                      (random sample : number) : number :=
  match rows with
  | [] => 1
  | scenario :: rest =>
      let cumulativeProbability := cumulativeProbability + probability scenario in
      if num_le random cumulativeProbability
      then multiplier scenario sample
      else scenarioLoop rest cumulativeProbability random sample
  end.

Definition simulatePriceMovement (random sample : number) : number :=
  scenarioLoop scenarios 0 random sample.

(** The simulator of the exported class. *)
Module ExportedBot.

Definition scenarios : list Scenario :=
  [ {| probability := lit 0.4; multiplier := fun r => lit 0.3 + r * lit 0.4 |};
    {| probability := lit 0.3; multiplier := fun r => lit 0.8 + r * lit 0.4 |};
    {| probability := lit 0.2; multiplier := fun r => lit 1.2 + r * lit 0.8 |};
    {| probability := lit 0.1; multiplier := fun r => 2 + r * 8 |} ].

Definition simulatePriceMovement (random sample : number) : number :=
  scenarioLoop scenarios 0 random sample.

End ExportedBot.

(** *** The bot *)

Definition executePaperBuy (config : BotConfig.t) (d : BuyDraws)
                           (poolState : PoolState) (bot : Bot) : Bot * Output :=
  let symbol := quoteSymbol config in
  let quoteAmount := BotConfig.quoteAmount config in
  match JsMap.get symbol (paperBalances bot) with
  | None =>
      (bot, say [LogInsufficient symbol (Raw 0) (Raw quoteAmount)])
  | Some quoteBalance =>
      if num_lt (PaperBalance.amount quoteBalance) quoteAmount then
        (bot, say [LogInsufficient symbol (Raw (PaperBalance.amount quoteBalance))
                                   (Raw quoteAmount)])
      else
        let estimatedTokenPrice := priceRandom d * lit 0.001 + lit 0.0001 in
        let tokenAmount := quoteAmount / estimatedTokenPrice in
        let counter := (tradeCounter bot + 1)%N in
        let tradeId := ("trade_" ++ decimal counter ++ "_" ++ decimal (now d))%string in
        (* quoteBalance.amount -= quoteAmount *)
        let debited :=
          JsMap.set symbol
            (PaperBalance.withAmount quoteBalance
               (PaperBalance.amount quoteBalance - quoteAmount))
            (paperBalances bot) in
        let tokenMint := baseMint poolState in
        let balances :=
          JsMap.set tokenMint
            {| PaperBalance.token := tokenMint;
               PaperBalance.amount := tokenAmount;
               PaperBalance.symbol := tokenSymbolOf tokenMint |}
            debited in
        let trade :=
          {| PaperTrade.id := tradeId;
             PaperTrade.action := buy_action;
             PaperTrade.token := tokenMint;
             PaperTrade.tokenSymbol := tokenSymbolOf tokenMint;
             PaperTrade.quoteAmount := quoteAmount;
             PaperTrade.tokenAmount := tokenAmount;
             PaperTrade.price := estimatedTokenPrice;
             PaperTrade.timestamp := buyStamp d;
             PaperTrade.profit := None;
             PaperTrade.profitPercent := None |} in
        ({| paperBalances := balances;
            paperTrades := paperTrades bot ++ [trade];
            totalPaperProfit := totalPaperProfit bot;
            tradeCounter := counter;
            initialBalance := initialBalance bot |},
         {| logs := [LogBuyExecuted tokenMint tradeId quoteAmount
                       (ToFixed tokenAmount 6) (ToFixed estimatedTokenPrice 8)];
            armed :=
              if BotConfig.autoSell config then
                [ {| timerMint := tokenMint;
                     timerTradeId := tradeId;
                     timerDelay := BotConfig.autoSellDelay config
                                   + jitterRandom d * 10000 |} ]
              else [] |})
  end.

Definition buy (config : BotConfig.t) (d : BuyDraws)
               (poolState : PoolState) (bot : Bot) : Bot * Output :=
  let '(bot', out) := executePaperBuy config d poolState bot in
  (bot', {| logs := LogProcessingPool (baseMint poolState) :: logs out;
            armed := armed out |}).

Definition settle (config : BotConfig.t) (d : SellDraws)
                  (tokenMint buyTradeId : string)
                  (tokenBalance : PaperBalance.t) (buyTrade : PaperTrade.t)
                  (bot : Bot) : Thrown + Bot * Output :=
  let priceMultiplier := simulatePriceMovement (scenarioRandom d) (multiplierRandom d) in
  let newPrice := PaperTrade.price buyTrade * priceMultiplier in
  let quoteAmountReceived := PaperBalance.amount tokenBalance * newPrice in
  let slippageMultiplier := 1 - BotConfig.sellSlippage config / 100 in
  let finalQuoteAmount := quoteAmountReceived * slippageMultiplier in
  let symbol := quoteSymbol config in
  match JsMap.get symbol (paperBalances bot) with
  | None => inl TypeError
  | Some quoteBalance =>
      (* quoteBalance.amount += finalQuoteAmount *)
      let credited :=
        JsMap.set symbol
          (PaperBalance.withAmount quoteBalance
             (PaperBalance.amount quoteBalance + finalQuoteAmount))
          (paperBalances bot) in
      let tokenBalanceAmount :=
        match JsMap.get tokenMint credited with
        | Some b => PaperBalance.amount b
        | None => PaperBalance.amount tokenBalance
        end in
      let balances := JsMap.delete tokenMint credited in
      let profit := finalQuoteAmount - PaperTrade.quoteAmount buyTrade in
      let profitPercent := (profit / PaperTrade.quoteAmount buyTrade) * 100 in
      let sellTrade :=
        {| PaperTrade.id := ("sell_" ++ buyTradeId)%string;
           PaperTrade.action := sell_action;
           PaperTrade.token := tokenMint;
           PaperTrade.tokenSymbol := PaperTrade.tokenSymbol buyTrade;
           PaperTrade.quoteAmount := finalQuoteAmount;
           PaperTrade.tokenAmount := tokenBalanceAmount;
           PaperTrade.price := newPrice;
           PaperTrade.timestamp := sellStamp d;
           PaperTrade.profit := Some profit;
           PaperTrade.profitPercent := Some profitPercent |} in
      inr ({| paperBalances := balances;
              paperTrades := paperTrades bot ++ [sellTrade];
              totalPaperProfit := totalPaperProfit bot + profit;
              tradeCounter := tradeCounter bot;
              initialBalance := initialBalance bot |},
           say [LogSellExecuted tokenMint
                  (ToFixed (PaperTrade.price buyTrade) 8) (ToFixed newPrice 8)
                  (ToFixed profit 6) (ToFixed profitPercent 2)
                  (num_gt profit 0)])
  end.

Definition executePaperSell (config : BotConfig.t) (d : SellDraws)
                            (tokenMint buyTradeId : string) (bot : Bot)
  : Bot * Output :=
  match JsMap.get tokenMint (paperBalances bot),
        find (isBuyWithId buyTradeId) (paperTrades bot) with
  | Some tokenBalance, Some buyTrade =>
      match settle config d tokenMint buyTradeId tokenBalance buyTrade bot with
      | inr result => result
      | inl _ => (bot, say [LogSellFailed])
      end
  | _, _ => (bot, say [LogCannotSell])
  end.

Definition sell (config : BotConfig.t) (d : SellDraws)
                (rawAccount : RawAccount) (bot : Bot) : Bot * Output :=
  let tokenMint := mint rawAccount in
  let entered := LogProcessingSell tokenMint in
  match JsMap.get tokenMint (paperBalances bot) with
  | Some _ =>
      match find (isUnsettledBuyOf (paperTrades bot) tokenMint) (paperTrades bot) with
      | Some buyTrade =>
          let '(bot', out) :=
            executePaperSell config d tokenMint (PaperTrade.id buyTrade) bot in
          (bot', {| logs := entered :: logs out; armed := armed out |})
      | None => (bot, say [entered])
      end
  | None => (bot, say [entered])
  end.

Definition winRateLine (completedTrades winningTrades : list PaperTrade.t) : Rendered :=
  if (0 <? length completedTrades)%nat
  then ToFixed ((lengthNumber winningTrades / lengthNumber completedTrades) * 100) 2
  else Lit "0.00".

Definition printSummary (config : BotConfig.t) (bot : Bot) : Bot * Output :=
  let symbol := quoteSymbol config in
  let completedTrades := filter isSell (paperTrades bot) in
  let winningTrades := filter isWinning completedTrades in
  let currentBalance := currentQuoteBalance config bot in
  let totalReturn :=
    ((currentBalance - initialBalance bot) / initialBalance bot) * 100 in
  let openPositions :=
    filter (fun b => negb (String.eqb (PaperBalance.symbol b) symbol))
           (JsMap.values (paperBalances bot)) in
  let recentTrades := sliceLast 3 (paperTrades bot) in
  (bot,
   say ([ LogSummaryHeader;
          LogCurrentBalance (ToFixed currentBalance 6) symbol;
          LogTotalReturn (ToFixed totalReturn 2);
          LogTotalOpportunities (length (filter isBuy (paperTrades bot)));
          LogCompletedTrades (length completedTrades);
          LogWinRate (winRateLine completedTrades winningTrades);
          LogTotalProfit (ToFixed (totalPaperProfit bot) 6) symbol ]
        ++ (if (0 <? length openPositions)%nat
            then LogOpenPositions (length openPositions)
                 :: map (fun pos => LogOpenPosition (PaperBalance.symbol pos)
                                      (ToFixed (PaperBalance.amount pos) 6))
                        openPositions
            else [])
        ++ (if (0 <? length recentTrades)%nat
            then LogRecentActivity :: fst (recentLines symbol recentTrades)
            else [])
        ++ (if snd (recentLines symbol recentTrades)
            then [LogSummaryFooter]
            else []))).

(** *** The bot under its event sources *)

Definition step (config : BotConfig.t) (w : World) (e : Event) : World :=
  match e with
  | PoolDetected poolState d =>
      absorb w (pending w) (buy config d poolState (theBot w))
  | AccountObserved rawAccount d =>
      absorb w (pending w) (sell config d rawAccount (theBot w))
  | TimerFired n d =>
      match nth_error (pending w) n with
      | Some t =>
          absorb w (removeNth n (pending w))
                 (executePaperSell config d (timerMint t) (timerTradeId t) (theBot w))
      | None => w
      end
  | SummaryTick =>
      absorb w (pending w) (printSummary config (theBot w))
  end.

Definition run (config : BotConfig.t) (w : World) (events : list Event) : World :=
  fold_left (step config) events w.

(** *** The ledger replayed

    The quote balance that the ledger accounts for: from the initial
    balance, a Buy subtracts its quote amount and a Sell adds its quote
    amount (the net proceeds), in ledger order and with the rounding of
    each step. *)
Definition replayTrade (balance : number) (t : PaperTrade.t) : number :=
  match PaperTrade.action t with
  | buy_action => balance - PaperTrade.quoteAmount t
  | sell_action => balance + PaperTrade.quoteAmount t
  end.

Definition replay (initial : number) (trades : list PaperTrade.t) : number :=
  fold_left replayTrade trades initial.

(** What one rounding can move a balance by: half a unit in the last place
    of the rounded balance, which is at most [2^-53] times that balance, or
    [2^-1075] for a subnormal one. *)
Definition slack (balance : number) : Q :=
  (2 ^ (-53) * Qabs balance + 2 ^ (-1075))%Q.

(** The roundings accumulated along the ledger, one for the balance after
    each trade. *)
Fixpoint allowance (balance : number) (trades : list PaperTrade.t) : Q :=
  match trades with
  | [] => 0
  | t :: rest =>
      (slack (replayTrade balance t) + allowance (replayTrade balance t) rest)%Q
  end.

(** *** Inputs of the examples, as binary64 values *)

(** Buy amount [0.05], slippage [2]. *)
Definition exampleConfig : BotConfig.t := solConfig (lit 0.05) 2.

(** A buy whose synthetic price is the binary64 value [0.0005]. *)
Definition buyAt0005 (clock : N) : BuyDraws :=
  {| priceRandom := lit 0.4; now := clock; buyStamp := clock;
     jitterRandom := lit 0.5 |}.

(** A sell that lands in the third scenario; the sample is the binary64
    value nearest to [2/17], for which [1.3 + sample * 1.7] is [1.5]. *)
Definition sellAt15 (clock : N) : SellDraws :=
  {| scenarioRandom := lit 0.8; multiplierRandom := lit (2 # 17);
     sellStamp := clock |}.

Definition afterOpen : World :=
  run exampleConfig (start exampleConfig)
      [ PoolDetected poolA (buyAt0005 1700000000000) ].

Definition afterClose : World :=
  run exampleConfig afterOpen [ TimerFired 0 (sellAt15 1700000025000) ].

Definition exampleRun : list Event :=
  [ PoolDetected poolA (buyAt0005 1700000000000);
    SummaryTick;
    TimerFired 0 (sellAt15 1700000025000);
    AccountObserved accountA (sellAt15 1700000026000);
    PoolDetected poolA (buyAt0005 1700000030000) ].

End Binary64.

(** A closed range of multipliers. *)
Definition within (lo hi x : number) : Prop := lo <= x /\ x <= hi.

(** The constructor created the entry of the configured quote symbol. *)
Definition funded (config : BotConfig.t) : Prop :=
  JsMap.get (quoteSymbol config) (paperBalances (theBot (start config))) <> None.

(** The quote balance is what the ledger replays to. *)
Definition replays (config : BotConfig.t) (bot : Bot) : Prop :=
  JsMap.get (quoteSymbol config) (paperBalances bot) <> None
  /\ currentQuoteBalance config bot
     = Binary64.replay (initialBalance bot) (paperTrades bot).

(** ** The machine's binary64, for comparison

    Rocq's primitive floating-point numbers are binary64 values with the
    IEEE 754 operations.  [ofFloat] reads a finite one back as the rational
    it denotes; [sameOnMachine] compares an operator of [Binary64] with the
    primitive operator on a pair of operands, whenever the machine's result
    is finite. *)

Module Machine.
Import PrimFloat.

Definition ofFloat (f : float) : option number :=
  match FloatOps.Prim2SF f with
  | SpecFloat.S754_zero _ => Some 0
  | SpecFloat.S754_finite s m e =>
      Some (Qred ((if s then - (1) else 1) * inject_Z (Zpos m) * 2 ^ e))
  | _ => None
  end.

Definition sameOnMachine (op : number -> number -> number)
                         (machineOp : float -> float -> float)
                         (operands : float * float) : bool :=
  let '(x, y) := operands in
  match ofFloat x, ofFloat y, ofFloat (machineOp x y) with
  | Some a, Some b, Some c => Qeq_bool (op a b) c
  | Some _, Some _, None => true
  | _, _, _ => false
  end.

(** Operands at the corners of the format: ties, subnormal numbers, the
    largest values of a binade, both signs. *)
Definition corners : list (float * float) :=
  [ (0x1p-1074, 0x1p-1);
    (0x1p-1074, 0x1.8p+0);
    (0x3p-1074, 0x1p-1);
    (0x1p-1022, 0x1.fffffffffffffp-1);
    (0x1.fffffffffffffp-1, 0x1.999999999999ap-2);
    (0x1.fffffffffffffp-1, 0x1.fffffffffffffp-1);
    (0x1p+53, 0x1p+0);
    (0x1.0000000000001p+53, 0x1p+0);
    (0x1.0000000000001p+53, 0x1.8p+1);
    (- 0x1.999999999999ap-4, 0x1.999999999999ap-3);
    (0x1.6666666666666p-1, 0x1.999999999999ap-3);
    (0x1p+0, 0x1.e666666666666p-1);
    (0x1.999999999999ap-5, 0x1.0624dd2f1a9fcp-11);
    (0x1.fffffffffffffp+1023, 0x1p-1);
    (0x1.8p+1, 0x1.cp+2);
    (- 0x1.cp+2, 0x1.8p+1);
    (0x1.5555555555555p-2, 0x1.8p+1);
    (- 0x1.5555555555555p-2, - 0x1.999999999999ap-4) ]%float.

End Machine.

(** ** Lemmas on [JsMap] *)

Module JsMapFacts.
Import JsMap.

Lemma get_set_eq {V} (k : string) (v : V) (m : t V) :
  get k (set k v m) = Some v.
Proof.
  induction m as [|[k' v'] rest IH]; simpl.
  - now rewrite String.eqb_refl.
  - destruct (String.eqb k' k) eqn:E; simpl; rewrite E; auto.
Qed.

Lemma get_set_ne {V} (k k' : string) (v : V) (m : t V) :
  k <> k' -> get k' (set k v m) = get k' m.
Proof.
  intros Hne. induction m as [|[k0 v0] rest IH]; simpl.
  - destruct (String.eqb_spec k k'); [contradiction | reflexivity].
  - destruct (String.eqb_spec k0 k) as [->|Hk]; simpl.
    + destruct (String.eqb_spec k k'); [contradiction | reflexivity].
    + destruct (String.eqb k0 k'); auto.
Qed.

Lemma get_delete_eq {V} (k : string) (m : t V) :
  get k (delete k m) = None.
Proof.
  induction m as [|[k' v'] rest IH]; simpl; auto.
  destruct (String.eqb k' k) eqn:E; simpl; auto.
  now rewrite E.
Qed.

Lemma get_delete_ne {V} (k k' : string) (m : t V) :
  k <> k' -> get k' (delete k m) = get k' m.
Proof.
  intros Hne. induction m as [|[k0 v0] rest IH]; simpl; auto.
  destruct (String.eqb_spec k0 k) as [->|Hk]; simpl.
  - destruct (String.eqb_spec k k'); [contradiction | exact IH].
  - now rewrite IH.
Qed.

End JsMapFacts.

(** ** Comparisons *)

Lemma num_lt_true (x y : number) : x < y -> num_lt x y = true.
Proof.
  intros H. unfold num_lt. destruct (Qle_bool y x) eqn:E; auto.
  apply Qle_bool_iff in E. exfalso. exact (Qlt_not_le _ _ H E).
Qed.

Lemma num_lt_false (x y : number) : y <= x -> num_lt x y = false.
Proof.
  intros H. unfold num_lt. apply Qle_bool_iff in H. now rewrite H.
Qed.

Lemma num_lt_spec (x y : number) : num_lt x y = true <-> x < y.
Proof.
  split; [|apply num_lt_true].
  unfold num_lt. intros H. apply Qnot_le_lt. intros Hle.
  apply Qle_bool_iff in Hle. rewrite Hle in H. discriminate.
Qed.

(** ** Open: [executePaperBuy] *)

Section Open.

Variable config : BotConfig.t.
Variable d : BuyDraws.
Variable poolState : PoolState.
Variable bot : Bot.

Let symbol := quoteSymbol config.
Let quoteAmount := BotConfig.quoteAmount config.
Let tokenMint := baseMint poolState.
Let estimatedTokenPrice := priceRandom d * 0.001 + 0.0001.

Lemma executePaperBuy_rejected quoteBalance :
  JsMap.get symbol (paperBalances bot) = Some quoteBalance ->
  PaperBalance.amount quoteBalance < quoteAmount ->
  executePaperBuy config d poolState bot =
    (bot, say [LogInsufficient symbol (Raw (PaperBalance.amount quoteBalance))
                               (Raw quoteAmount)]).
Proof.
  unfold symbol, quoteAmount. intros Hget Hlt.
  unfold executePaperBuy. rewrite Hget.
  now rewrite (num_lt_true _ _ Hlt).
Qed.

Lemma executePaperBuy_no_entry :
  JsMap.get symbol (paperBalances bot) = None ->
  executePaperBuy config d poolState bot =
    (bot, say [LogInsufficient symbol (Raw 0) (Raw quoteAmount)]).
Proof.
  unfold symbol. intros Hget. unfold executePaperBuy. now rewrite Hget.
Qed.

(** The state written by an Open that passes the balance check. *)
Lemma executePaperBuy_accepted quoteBalance :
  JsMap.get symbol (paperBalances bot) = Some quoteBalance ->
  quoteAmount <= PaperBalance.amount quoteBalance ->
  let bot' := fst (executePaperBuy config d poolState bot) in
  paperBalances bot' =
    JsMap.set tokenMint
      {| PaperBalance.token := tokenMint;
         PaperBalance.amount := quoteAmount / estimatedTokenPrice;
         PaperBalance.symbol := tokenSymbolOf tokenMint |}
      (JsMap.set symbol
         (PaperBalance.withAmount quoteBalance
            (PaperBalance.amount quoteBalance - quoteAmount))
         (paperBalances bot))
  /\ (exists trade,
        paperTrades bot' = paperTrades bot ++ [trade]
        /\ PaperTrade.action trade = buy_action
        /\ PaperTrade.token trade = tokenMint
        /\ PaperTrade.quoteAmount trade = quoteAmount
        /\ PaperTrade.tokenAmount trade = quoteAmount / estimatedTokenPrice
        /\ PaperTrade.price trade = estimatedTokenPrice)
  /\ totalPaperProfit bot' = totalPaperProfit bot
  /\ tradeCounter bot' = (tradeCounter bot + 1)%N
  /\ initialBalance bot' = initialBalance bot
  /\ Forall (fun t => timerMint t = tokenMint)
            (armed (snd (executePaperBuy config d poolState bot))).
Proof.
  unfold symbol, quoteAmount, tokenMint, estimatedTokenPrice.
  intros Hget Hle. unfold executePaperBuy. rewrite Hget.
  rewrite (num_lt_false _ _ Hle). simpl.
  repeat split; auto.
  - eexists. repeat split.
  - destruct (BotConfig.autoSell config); repeat constructor.
Qed.

End Open.

(** ** Close: [executePaperSell] *)

Section Close.

Variable config : BotConfig.t.
Variable tokenMint buyTradeId : string.
Variable bot : Bot.

Let symbol := quoteSymbol config.

Lemma executePaperSell_no_balance d :
  JsMap.get tokenMint (paperBalances bot) = None ->
  executePaperSell config d tokenMint buyTradeId bot = (bot, say [LogCannotSell]).
Proof.
  intros H. unfold executePaperSell. now rewrite H.
Qed.

Lemma executePaperSell_no_buy d :
  find (isBuyWithId buyTradeId) (paperTrades bot) = None ->
  executePaperSell config d tokenMint buyTradeId bot = (bot, say [LogCannotSell]).
Proof.
  intros H. unfold executePaperSell. rewrite H.
  now destruct (JsMap.get tokenMint (paperBalances bot)).
Qed.

Lemma executePaperSell_no_quote d tokenBalance buyTrade :
  JsMap.get tokenMint (paperBalances bot) = Some tokenBalance ->
  find (isBuyWithId buyTradeId) (paperTrades bot) = Some buyTrade ->
  JsMap.get symbol (paperBalances bot) = None ->
  executePaperSell config d tokenMint buyTradeId bot = (bot, say [LogSellFailed]).
Proof.
  unfold symbol. intros Hb Ht Hq. unfold executePaperSell, settle.
  now rewrite Hb, Ht, Hq.
Qed.

(** The state written by a Close that passes its guard. *)
Lemma executePaperSell_settled d tokenBalance buyTrade quoteBalance :
  JsMap.get tokenMint (paperBalances bot) = Some tokenBalance ->
  find (isBuyWithId buyTradeId) (paperTrades bot) = Some buyTrade ->
  JsMap.get symbol (paperBalances bot) = Some quoteBalance ->
  let quantity := PaperBalance.amount tokenBalance in
  let net := netProceeds config d quantity buyTrade in
  let credited :=
    JsMap.set symbol
      (PaperBalance.withAmount quoteBalance
         (PaperBalance.amount quoteBalance + net))
      (paperBalances bot) in
  executePaperSell config d tokenMint buyTradeId bot =
    ({| paperBalances := JsMap.delete tokenMint credited;
        paperTrades :=
          paperTrades bot ++
          [ {| PaperTrade.id := ("sell_" ++ buyTradeId)%string;
               PaperTrade.action := sell_action;
               PaperTrade.token := tokenMint;
               PaperTrade.tokenSymbol := PaperTrade.tokenSymbol buyTrade;
               PaperTrade.quoteAmount := net;
               PaperTrade.tokenAmount :=
                 match JsMap.get tokenMint credited with
                 | Some b => PaperBalance.amount b
                 | None => quantity
                 end;
               PaperTrade.price := exitPrice d buyTrade;
               PaperTrade.timestamp := sellStamp d;
               PaperTrade.profit := Some (profitOf config d quantity buyTrade);
               PaperTrade.profitPercent :=
                 Some (profitPercentOf config d quantity buyTrade) |} ];
        totalPaperProfit :=
          totalPaperProfit bot + profitOf config d quantity buyTrade;
        tradeCounter := tradeCounter bot;
        initialBalance := initialBalance bot |},
     say [LogSellExecuted tokenMint
            (ToFixed (PaperTrade.price buyTrade) 8)
            (ToFixed (exitPrice d buyTrade) 8)
            (ToFixed (profitOf config d quantity buyTrade) 6)
            (ToFixed (profitPercentOf config d quantity buyTrade) 2)
            (num_gt (profitOf config d quantity buyTrade) 0)]).
Proof.
  unfold symbol. intros Hb Ht Hq. unfold executePaperSell, settle.
  rewrite Hb, Ht, Hq. reflexivity.
Qed.

(** A second call with the same arguments leaves the bot as the first call
    left it, whatever the first call did. *)
Lemma executePaperSell_idempotent d1 d2 :
  fst (executePaperSell config d2 tokenMint buyTradeId
         (fst (executePaperSell config d1 tokenMint buyTradeId bot)))
  = fst (executePaperSell config d1 tokenMint buyTradeId bot).
Proof.
  destruct (JsMap.get tokenMint (paperBalances bot)) as [tb|] eqn:Hb.
  2:{ now rewrite !executePaperSell_no_balance. }
  destruct (find (isBuyWithId buyTradeId) (paperTrades bot)) as [bt|] eqn:Ht.
  2:{ now rewrite !executePaperSell_no_buy. }
  destruct (JsMap.get symbol (paperBalances bot)) as [qb|] eqn:Hq.
  2:{ now rewrite !(executePaperSell_no_quote _ tb bt). }
  rewrite (executePaperSell_settled d1 tb bt qb Hb Ht Hq).
  cbv zeta. cbn [fst].
  unfold executePaperSell at 1. cbn [paperBalances].
  now rewrite JsMapFacts.get_delete_eq.
Qed.

End Close.

(** ** Properties of Open *)

(** C3. An Open whose quote amount exceeds the current quote balance is
    rejected: the bot is returned unchanged (balance map, trade list, trade
    counter and total profit), the only record emitted besides the entry
    trace is one insufficient-funds warning, and no timer is armed. *)
Theorem insufficient_funds_is_noop config d poolState bot :
  currentQuoteBalance config bot < BotConfig.quoteAmount config ->
  let rejection :=
    LogInsufficient (quoteSymbol config)
                    (Raw (currentQuoteBalance config bot))
                    (Raw (BotConfig.quoteAmount config)) in
  executePaperBuy config d poolState bot = (bot, say [rejection])
  /\ buy config d poolState bot =
       (bot, {| logs := [LogProcessingPool (baseMint poolState); rejection];
                armed := [] |})
  /\ filter isWarn (logs (snd (buy config d poolState bot))) = [rejection].
Proof.
  intros Hlt rejection.
  assert (E : executePaperBuy config d poolState bot = (bot, say [rejection])).
  { subst rejection. unfold currentQuoteBalance in *.
    destruct (JsMap.get (quoteSymbol config) (paperBalances bot))
      as [quoteBalance|] eqn:Hget.
    - exact (executePaperBuy_rejected config d poolState bot _ Hget Hlt).
    - exact (executePaperBuy_no_entry config d poolState bot Hget). }
  unfold buy. rewrite E. repeat split.
Qed.

Lemma insufficient_funds_is_noop_witness :
  buy (solConfig 0.05 2) (buyAt0005 1700000000000) poolA poorBot =
    (poorBot,
     {| logs := [LogProcessingPool mintA;
                 LogInsufficient "SOL" (Raw 0.02) (Raw 0.05)];
        armed := [] |}).
Proof.
  refine (proj1 (proj2 (insufficient_funds_is_noop
                          (solConfig 0.05 2) (buyAt0005 1700000000000)
                          poolA poorBot _))).
  reflexivity.
Defined.

(** C4 does not hold of [executePaperBuy]: an Open that spends the whole
    quote balance ([1 SOL] out of [1 SOL]) leaves the quote entry in the
    map, with quantity zero. *)
Lemma full_spend_keeps_zero_entry :
  let bot' := fst (buy (solConfig 1 2) (buyAt0005 1700000000000) poolA
                       (theBot (start (solConfig 1 2)))) in
  JsMap.get "SOL" (paperBalances bot') <> None
  /\ currentQuoteBalance (solConfig 1 2) bot' == 0
  /\ exists b, JsMap.get "SOL" (paperBalances bot') = Some b
               /\ PaperBalance.amount b == 0.
Proof.
  vm_compute. repeat split; try discriminate.
  eexists. split; reflexivity.
Qed.

(** C4, amended. The debit of an accepted Open never removes the quote
    entry: the entry stays in the balance map with the previous quantity
    minus the quote amount, also when that difference is exactly zero. *)
Theorem debit_keeps_quote_entry config d poolState bot quoteBalance :
  baseMint poolState <> quoteSymbol config ->
  JsMap.get (quoteSymbol config) (paperBalances bot) = Some quoteBalance ->
  BotConfig.quoteAmount config <= PaperBalance.amount quoteBalance ->
  let bot' := fst (executePaperBuy config d poolState bot) in
  JsMap.get (quoteSymbol config) (paperBalances bot') =
    Some (PaperBalance.withAmount quoteBalance
            (PaperBalance.amount quoteBalance - BotConfig.quoteAmount config))
  /\ (PaperBalance.amount quoteBalance == BotConfig.quoteAmount config ->
      exists b, JsMap.get (quoteSymbol config) (paperBalances bot') = Some b
                /\ PaperBalance.amount b == 0).
Proof.
  intros Hne Hget Hle bot'.
  destruct (executePaperBuy_accepted config d poolState bot _ Hget Hle)
    as (Hbal & _).
  assert (E : JsMap.get (quoteSymbol config) (paperBalances bot') =
              Some (PaperBalance.withAmount quoteBalance
                      (PaperBalance.amount quoteBalance
                       - BotConfig.quoteAmount config))).
  { unfold bot'. rewrite Hbal.
    rewrite JsMapFacts.get_set_ne by exact Hne.
    apply JsMapFacts.get_set_eq. }
  split; [exact E|].
  intros Heq. eexists. split; [exact E|]. simpl.
  rewrite Heq. ring.
Qed.

Lemma debit_keeps_quote_entry_witness :
  JsMap.get "SOL"
    (paperBalances
       (fst (executePaperBuy (solConfig 1 2) (buyAt0005 1700000000000) poolA
                             (theBot (start (solConfig 1 2)))))) =
  Some {| PaperBalance.token := "So11111111111111111111111111111111111111112";
          PaperBalance.amount := 1 - 1;
          PaperBalance.symbol := "SOL" |}.
Proof.
  refine (proj1 (debit_keeps_quote_entry
                   (solConfig 1 2) (buyAt0005 1700000000000) poolA
                   (theBot (start (solConfig 1 2)))
                   {| PaperBalance.token := "So11111111111111111111111111111111111111112";
                      PaperBalance.amount := 1;
                      PaperBalance.symbol := "SOL" |} _ _ _)).
  - discriminate.
  - reflexivity.
  - discriminate.
Defined.

(** The balance entries after an accepted Open of a mint other than the
    quote symbol, whether or not the mint had an entry before. *)
Lemma executePaperBuy_entries config d poolState bot quoteBalance :
  baseMint poolState <> quoteSymbol config ->
  JsMap.get (quoteSymbol config) (paperBalances bot) = Some quoteBalance ->
  BotConfig.quoteAmount config <= PaperBalance.amount quoteBalance ->
  let bot' := fst (executePaperBuy config d poolState bot) in
  JsMap.get (baseMint poolState) (paperBalances bot') =
    Some {| PaperBalance.token := baseMint poolState;
            PaperBalance.amount :=
              BotConfig.quoteAmount config / (priceRandom d * 0.001 + 0.0001);
            PaperBalance.symbol := tokenSymbolOf (baseMint poolState) |}
  /\ JsMap.get (quoteSymbol config) (paperBalances bot') =
       Some (PaperBalance.withAmount quoteBalance
               (PaperBalance.amount quoteBalance - BotConfig.quoteAmount config)).
Proof.
  intros Hne Hget Hle bot'.
  destruct (executePaperBuy_accepted config d poolState bot _ Hget Hle)
    as (Hbal & _).
  unfold bot'. rewrite Hbal. split.
  - apply JsMapFacts.get_set_eq.
  - rewrite JsMapFacts.get_set_ne by exact Hne.
    apply JsMapFacts.get_set_eq.
Qed.

(** C9. Two Opens of the same asset, the second while the entry written by
    the first is still in the balance map: the entry after the second Open
    holds only the quantity computed by the second Open, and the quote
    balance has been debited the quote amount twice; both buys are in the
    trade list. *)
Theorem second_buy_replaces_position config d1 d2 poolState bot quoteBalance :
  baseMint poolState <> quoteSymbol config ->
  JsMap.get (quoteSymbol config) (paperBalances bot) = Some quoteBalance ->
  BotConfig.quoteAmount config <= PaperBalance.amount quoteBalance ->
  BotConfig.quoteAmount config
    <= PaperBalance.amount quoteBalance - BotConfig.quoteAmount config ->
  let tokenMint := baseMint poolState in
  let quoteAmount := BotConfig.quoteAmount config in
  let quantity1 := quoteAmount / (priceRandom d1 * 0.001 + 0.0001) in
  let quantity2 := quoteAmount / (priceRandom d2 * 0.001 + 0.0001) in
  let bot1 := fst (executePaperBuy config d1 poolState bot) in
  let bot2 := fst (executePaperBuy config d2 poolState bot1) in
  JsMap.get tokenMint (paperBalances bot1) =
    Some {| PaperBalance.token := tokenMint;
            PaperBalance.amount := quantity1;
            PaperBalance.symbol := tokenSymbolOf tokenMint |}
  /\ JsMap.get tokenMint (paperBalances bot2) =
       Some {| PaperBalance.token := tokenMint;
               PaperBalance.amount := quantity2;
               PaperBalance.symbol := tokenSymbolOf tokenMint |}
  /\ JsMap.get (quoteSymbol config) (paperBalances bot2) =
       Some (PaperBalance.withAmount quoteBalance
               (PaperBalance.amount quoteBalance - quoteAmount - quoteAmount))
  /\ exists buy1 buy2,
       paperTrades bot2 = paperTrades bot ++ [buy1; buy2]
       /\ PaperTrade.quoteAmount buy1 = quoteAmount
       /\ PaperTrade.tokenAmount buy1 = quantity1
       /\ PaperTrade.quoteAmount buy2 = quoteAmount
       /\ PaperTrade.tokenAmount buy2 = quantity2.
Proof.
  intros Hne Hget Hle1 Hle2 tokenMint quoteAmount quantity1 quantity2 bot1 bot2.
  destruct (executePaperBuy_entries config d1 poolState bot _ Hne Hget Hle1)
    as (Hmint1 & Hquote1).
  fold bot1 in Hmint1, Hquote1.
  destruct (executePaperBuy_entries config d2 poolState bot1 _ Hne Hquote1 Hle2)
    as (Hmint2 & Hquote2).
  fold bot2 in Hmint2, Hquote2.
  destruct (executePaperBuy_accepted config d1 poolState bot _ Hget Hle1)
    as (_ & (t1 & Ht1 & _ & _ & Hq1 & Ha1 & _) & _).
  destruct (executePaperBuy_accepted config d2 poolState bot1 _ Hquote1 Hle2)
    as (_ & (t2 & Ht2 & _ & _ & Hq2 & Ha2 & _) & _).
  fold bot1 in Ht1. fold bot2 in Ht2.
  repeat split; try assumption.
  exists t1, t2. rewrite Ht2, Ht1, <- app_assoc. repeat split; assumption.
Qed.

Lemma second_buy_replaces_position_witness :
  let bot2 :=
    fst (executePaperBuy exampleConfig (buyAt001 1700000012000) poolA
           (fst (executePaperBuy exampleConfig (buyAt0005 1700000000000) poolA
                   (theBot (start exampleConfig))))) in
  JsMap.get mintA (paperBalances bot2) =
    Some {| PaperBalance.token := mintA;
            PaperBalance.amount := 0.05 / (0.9 * 0.001 + 0.0001);
            PaperBalance.symbol := tokenSymbolOf mintA |}
  /\ JsMap.get "SOL" (paperBalances bot2) =
       Some {| PaperBalance.token := "So11111111111111111111111111111111111111112";
               PaperBalance.amount := 1 - 0.05 - 0.05;
               PaperBalance.symbol := "SOL" |}.
Proof.
  pose proof (second_buy_replaces_position
                exampleConfig (buyAt0005 1700000000000) (buyAt001 1700000012000)
                poolA (theBot (start exampleConfig))
                {| PaperBalance.token := "So11111111111111111111111111111111111111112";
                   PaperBalance.amount := 1;
                   PaperBalance.symbol := "SOL" |}) as H.
  destruct H as (_ & H2 & H3 & _).
  - discriminate.
  - reflexivity.
  - discriminate.
  - discriminate.
  - split; [exact H2 | exact H3].
Defined.

(** ** Properties of Close *)

(** C5. Two Closes in succession for the same asset and buy id, starting
    from an open position: the first appends one Sell record with the
    derived id and adds its profit to the running total once; the second
    finds no balance entry for the asset, leaves the bot as it is and only
    emits the cannot-sell warning. *)
Theorem close_twice_settles_once
        config d1 d2 tokenMint buyTradeId bot tokenBalance buyTrade quoteBalance :
  JsMap.get tokenMint (paperBalances bot) = Some tokenBalance ->
  find (isBuyWithId buyTradeId) (paperTrades bot) = Some buyTrade ->
  JsMap.get (quoteSymbol config) (paperBalances bot) = Some quoteBalance ->
  let first := executePaperSell config d1 tokenMint buyTradeId bot in
  let second := executePaperSell config d2 tokenMint buyTradeId (fst first) in
  let gain := profitOf config d1 (PaperBalance.amount tokenBalance) buyTrade in
  (exists sellTrade,
      paperTrades (fst second) = paperTrades bot ++ [sellTrade]
      /\ PaperTrade.id sellTrade = ("sell_" ++ buyTradeId)%string
      /\ PaperTrade.action sellTrade = sell_action
      /\ PaperTrade.profit sellTrade = Some gain)
  /\ totalPaperProfit (fst second) = totalPaperProfit bot + gain
  /\ JsMap.get tokenMint (paperBalances (fst first)) = None
  /\ second = (fst first, say [LogCannotSell]).
Proof.
  intros Hb Ht Hq first second gain.
  assert (Hgone : JsMap.get tokenMint (paperBalances (fst first)) = None).
  { unfold first. rewrite (executePaperSell_settled _ _ _ _ d1 _ _ _ Hb Ht Hq).
    apply JsMapFacts.get_delete_eq. }
  assert (Hsecond : second = (fst first, say [LogCannotSell])).
  { unfold second. now apply executePaperSell_no_balance. }
  rewrite Hsecond. simpl fst.
  unfold first. rewrite (executePaperSell_settled _ _ _ _ d1 _ _ _ Hb Ht Hq).
  simpl. repeat split.
  - eexists. repeat split.
  - apply JsMapFacts.get_delete_eq.
Qed.

Lemma close_twice_settles_once_witness :
  let first :=
    executePaperSell exampleConfig (sellAt15 1700000025000) mintA
                     "trade_1_1700000000000" (theBot afterOpen) in
  executePaperSell exampleConfig (sellAt15 1700000025001) mintA
                   "trade_1_1700000000000" (fst first)
  = (fst first, say [LogCannotSell]).
Proof.
  pose proof (close_twice_settles_once
                exampleConfig (sellAt15 1700000025000) (sellAt15 1700000025001)
                mintA "trade_1_1700000000000" (theBot afterOpen)) as H.
  edestruct H as (_ & _ & _ & H4).
  - vm_compute. reflexivity.
  - vm_compute. reflexivity.
  - vm_compute. reflexivity.
  - exact H4.
Defined.

(** C10. A Close settles the quantity held in the asset's balance entry at
    close time: the Sell record's token amount and the net proceeds are
    computed from that entry and not from the token amount recorded in the
    paired Buy.  After the entry has been overwritten by a later Open the
    two differ: in [overwriteRun] the Buy acquired [100] and its Sell
    settles [50].  Without an overwrite, as in [afterClose], they are the
    same. *)
Theorem close_settles_balance_quantity :
  (forall config d tokenMint buyTradeId bot tokenBalance buyTrade quoteBalance,
      tokenMint <> quoteSymbol config ->
      JsMap.get tokenMint (paperBalances bot) = Some tokenBalance ->
      find (isBuyWithId buyTradeId) (paperTrades bot) = Some buyTrade ->
      JsMap.get (quoteSymbol config) (paperBalances bot) = Some quoteBalance ->
      exists sellTrade,
        paperTrades (fst (executePaperSell config d tokenMint buyTradeId bot))
          = paperTrades bot ++ [sellTrade]
        /\ PaperTrade.id sellTrade = ("sell_" ++ buyTradeId)%string
        /\ PaperTrade.tokenAmount sellTrade = PaperBalance.amount tokenBalance
        /\ PaperTrade.quoteAmount sellTrade =
             PaperBalance.amount tokenBalance
             * (PaperTrade.price buyTrade
                * simulatePriceMovement (scenarioRandom d) (multiplierRandom d))
             * (1 - BotConfig.sellSlippage config / 100))
  /\ (exists buyTrade sellTrade,
        let ledger :=
          paperTrades (theBot (run exampleConfig (start exampleConfig) overwriteRun)) in
        nth_error ledger 0 = Some buyTrade
        /\ nth_error ledger 2 = Some sellTrade
        /\ length ledger = 3%nat
        /\ PaperTrade.action buyTrade = buy_action
        /\ PaperTrade.action sellTrade = sell_action
        /\ PaperTrade.id sellTrade = ("sell_" ++ PaperTrade.id buyTrade)%string
        /\ PaperTrade.tokenAmount buyTrade == 100
        /\ PaperTrade.tokenAmount sellTrade == 50)
  /\ (exists buyTrade sellTrade,
        paperTrades (theBot afterClose) = [buyTrade; sellTrade]
        /\ PaperTrade.id sellTrade = ("sell_" ++ PaperTrade.id buyTrade)%string
        /\ PaperTrade.tokenAmount sellTrade = PaperTrade.tokenAmount buyTrade).
Proof.
  split.
  - intros config d tokenMint buyTradeId bot tb bt qb Hne Hb Ht Hq.
    rewrite (executePaperSell_settled _ _ _ _ d _ _ _ Hb Ht Hq). simpl.
    eexists. split; [reflexivity|]. simpl.
    rewrite JsMapFacts.get_set_ne by (intros E; apply Hne; now symmetry).
    rewrite Hb. repeat split.
  - split.
    + vm_compute. do 2 eexists. repeat split.
    + vm_compute. do 2 eexists. repeat split.
Qed.

Lemma close_settles_balance_quantity_witness :
  exists sellTrade,
    paperTrades (fst (executePaperSell exampleConfig (sellAt15 1700000025000) mintA
                                       "trade_1_1700000000000" (theBot afterOpen)))
      = paperTrades (theBot afterOpen) ++ [sellTrade]
    /\ PaperTrade.id sellTrade = "sell_trade_1_1700000000000"%string
    /\ PaperTrade.tokenAmount sellTrade = 0.05 / (0.4 * 0.001 + 0.0001)
    /\ PaperTrade.quoteAmount sellTrade =
         0.05 / (0.4 * 0.001 + 0.0001)
         * ((0.4 * 0.001 + 0.0001) * simulatePriceMovement 0.8 (2 # 17))
         * (1 - 2 / 100).
Proof.
  refine (proj1 close_settles_balance_quantity
                exampleConfig (sellAt15 1700000025000) mintA
                "trade_1_1700000000000"%string (theBot afterOpen)
                {| PaperBalance.token := mintA;
                   PaperBalance.amount := 0.05 / (0.4 * 0.001 + 0.0001);
                   PaperBalance.symbol := tokenSymbolOf mintA |}
                {| PaperTrade.id := "trade_1_1700000000000";
                   PaperTrade.action := buy_action;
                   PaperTrade.token := mintA;
                   PaperTrade.tokenSymbol := tokenSymbolOf mintA;
                   PaperTrade.quoteAmount := 0.05;
                   PaperTrade.tokenAmount := 0.05 / (0.4 * 0.001 + 0.0001);
                   PaperTrade.price := 0.4 * 0.001 + 0.0001;
                   PaperTrade.timestamp := 1700000000000;
                   PaperTrade.profit := None;
                   PaperTrade.profitPercent := None |}
                {| PaperBalance.token := "So11111111111111111111111111111111111111112";
                   PaperBalance.amount := 1 - 0.05;
                   PaperBalance.symbol := "SOL" |} _ _ _ _).
  - discriminate.
  - reflexivity.
  - reflexivity.
  - reflexivity.
Defined.

(** The buy chosen by [sell] has no Sell record with its derived id. *)
Lemma sell_picks_unsettled_buy trades tokenMint buyTrade :
  find (isUnsettledBuyOf trades tokenMint) trades = Some buyTrade ->
  countWithId ("sell_" ++ PaperTrade.id buyTrade) (fun _ => true) trades = 0%nat.
Proof.
  intros H. apply find_some in H. destruct H as (_ & H).
  unfold isUnsettledBuyOf in H.
  apply andb_prop in H. destruct H as (_ & H).
  apply negb_true_iff in H.
  unfold countWithId.
  induction trades as [|t rest IH]; simpl in *; auto.
  apply orb_false_elim in H. destruct H as (Ht & Hrest).
  rewrite Ht. simpl. auto.
Qed.

(** C1, evaluated on [staleTimerRun]. The account event settles the first
    buy; the second pool event re-creates the balance entry of the mint; the
    timer armed by the first buy then passes the guard of
    [executePaperSell] and appends a second Sell record with the same
    derived id. *)
Theorem stale_timer_settles_twice :
  let ledger :=
    paperTrades (theBot (run exampleConfig (start exampleConfig) staleTimerRun)) in
  countWithId "trade_1_1700000000000" isBuy ledger = 1%nat
  /\ countWithId "sell_trade_1_1700000000000" isSell ledger = 2%nat
  /\ map PaperTrade.id ledger =
       [ "trade_1_1700000000000"; "sell_trade_1_1700000000000";
         "trade_2_1700000012000"; "sell_trade_1_1700000000000" ]%string.
Proof.
  vm_compute. repeat split.
Qed.

(** ** Price movement simulator *)

Lemma num_le_true (x y : number) : num_le x y = true -> x <= y.
Proof. apply Qle_bool_iff. Qed.

Lemma num_le_false (x y : number) : num_le x y = false -> y < x.
Proof.
  unfold num_le. intros H. apply Qnot_le_lt. intros Hle.
  apply Qle_bool_iff in Hle. congruence.
Qed.

(** Any table whose multipliers are positive at [sample] yields a positive
    multiplier, matched or not. *)
Lemma scenarioLoop_positive rows acc random sample :
  Forall (fun s => 0 < multiplier s sample) rows ->
  0 < scenarioLoop rows acc random sample.
Proof.
  intros H. revert acc. induction H as [|s rest Hs _ IH]; intros acc; simpl.
  - reflexivity.
  - destruct (num_le random (acc + probability s)); auto.
Qed.

(** ** Reporting *)

Lemma length_filter_isSell trades :
  length (filter isSell trades) = countSells trades.
Proof.
  induction trades as [|t rest IH]; simpl; auto.
  unfold isSell at 1. destruct (PaperTrade.action t); simpl; auto.
Qed.

Lemma length_filter_isWinning trades :
  length (filter isWinning (filter isSell trades)) = countWinningSells trades.
Proof.
  induction trades as [|t rest IH]; simpl; auto.
  unfold isSell at 1. destruct (PaperTrade.action t); simpl; auto.
  unfold isWinning at 1. destruct (PaperTrade.profit t) as [p|]; auto.
  destruct (Qlt_le_dec 0 p) as [Hlt|Hle].
  - unfold num_gt. rewrite (num_lt_true _ _ Hlt). simpl. auto.
  - unfold num_gt. rewrite (num_lt_false _ _ Hle). auto.
Qed.

Lemma winRateLine_counts trades :
  winRateLine (filter isSell trades) (filter isWinning (filter isSell trades))
  = winRateOf trades.
Proof.
  unfold winRateLine, winRateOf, lengthNumber.
  rewrite length_filter_isWinning, length_filter_isSell.
  now destruct (countSells trades).
Qed.

Lemma winRatesIn_app xs ys :
  winRatesIn (xs ++ ys) = winRatesIn xs ++ winRatesIn ys.
Proof. apply flat_map_app. Qed.

Lemma no_win_rate_in_positions (xs : list PaperBalance.t) :
  winRatesIn
    (map (fun pos => LogOpenPosition (PaperBalance.symbol pos)
                       (ToFixed (PaperBalance.amount pos) 6)) xs) = [].
Proof.
  induction xs as [|x rest IH]; simpl; auto.
Qed.

Lemma no_win_rate_in_recent symbol trades :
  winRatesIn (fst (recentLines symbol trades)) = [].
Proof.
  induction trades as [|t rest IH]; simpl; auto.
  destruct (PaperTrade.action t).
  - destruct (recentLines symbol rest). simpl in *. exact IH.
  - destruct (PaperTrade.profitPercent t); auto.
    destruct (recentLines symbol rest). simpl in *. exact IH.
Qed.

(** C8. The win rate reported by [printSummary] is the number of Sell
    trades with positive profit divided by the number of Sell trades, times
    100 (rendered with two decimals), and [0.00] when the ledger has no Sell
    trade; the summary returns the bot unchanged and arms no timer. *)
Theorem win_rate_consistent config bot :
  reportedWinRate (snd (printSummary config bot)) =
    [ match countSells (paperTrades bot) with
      | O => Lit "0.00"
      | S _ =>
          ToFixed (inject_Z (Z.of_nat (countWinningSells (paperTrades bot)))
                   / inject_Z (Z.of_nat (countSells (paperTrades bot))) * 100) 2
      end ]
  /\ fst (printSummary config bot) = bot
  /\ armed (snd (printSummary config bot)) = [].
Proof.
  change (reportedWinRate (snd (printSummary config bot))
          = [winRateOf (paperTrades bot)]
          /\ fst (printSummary config bot) = bot
          /\ armed (snd (printSummary config bot)) = []).
  repeat split.
  unfold printSummary, reportedWinRate. cbn [snd say logs].
  rewrite !winRatesIn_app. unfold winRatesIn at 1. cbn [app flat_map].
  rewrite winRateLine_counts.
  match goal with
  | |- _ :: (?a ++ ?b ++ ?c) = _ =>
      assert (Ha : a = []); [|assert (Hb : b = []); [|assert (Hc : c = [])]]
  end.
  - destruct (0 <? _)%nat; auto.
    apply (no_win_rate_in_positions _).
  - clear Ha. destruct (0 <? _)%nat; auto.
    apply (no_win_rate_in_recent _ _).
  - clear Ha Hb. destruct (snd _); auto.
  - now rewrite Ha, Hb, Hc.
Qed.

(** ** Conservation of the quote asset *)

Lemma sumQuote_snoc p trades t :
  sumQuote p (trades ++ [t])
  == sumQuote p trades + (if p t then PaperTrade.quoteAmount t else 0).
Proof.
  unfold sumQuote. rewrite filter_app. simpl.
  induction (filter p trades) as [|x rest IH]; simpl.
  - destruct (p t); simpl; ring.
  - rewrite IH. ring.
Qed.

Section Conservation.

Variable config : BotConfig.t.

Let symbol := quoteSymbol config.

Lemma executePaperBuy_balanced d poolState bot :
  baseMint poolState <> symbol ->
  balanced config bot ->
  balanced config (fst (executePaperBuy config d poolState bot)).
Proof.
  unfold symbol. intros Hne (Hsome & Heq).
  destruct (JsMap.get (quoteSymbol config) (paperBalances bot))
    as [qb|] eqn:Hget; [clear Hsome | contradiction].
  destruct (Qlt_le_dec (PaperBalance.amount qb) (BotConfig.quoteAmount config))
    as [Hlt|Hle].
  - rewrite (executePaperBuy_rejected config d poolState bot _ Hget Hlt). simpl.
    split; [congruence | exact Heq].
  - destruct (executePaperBuy_entries config d poolState bot _ Hne Hget Hle) as (_ & Hq).
    destruct (executePaperBuy_accepted config d poolState bot _ Hget Hle)
      as (_ & (t & Ht & Hact & _ & Hamt & _) & _ & _ & Hinit & _).
    split; [congruence|].
    unfold conserves, currentQuoteBalance in *.
    rewrite Hq, Ht, Hinit, Hget in *. simpl PaperBalance.amount.
    rewrite !sumQuote_snoc.
    assert (Hs : isSell t = false) by (unfold isSell; now rewrite Hact).
    assert (Hb : isBuy t = true) by (unfold isBuy; now rewrite Hact).
    rewrite Hs, Hb, Hamt. lra.
Qed.

Lemma executePaperSell_balanced d tokenMint buyTradeId bot :
  tokenMint <> symbol ->
  balanced config bot ->
  balanced config (fst (executePaperSell config d tokenMint buyTradeId bot)).
Proof.
  unfold symbol. intros Hne (Hsome & Heq).
  destruct (JsMap.get tokenMint (paperBalances bot)) as [tb|] eqn:Hb.
  2:{ rewrite executePaperSell_no_balance by assumption. now split. }
  destruct (find (isBuyWithId buyTradeId) (paperTrades bot)) as [bt|] eqn:Ht.
  2:{ rewrite executePaperSell_no_buy by assumption. now split. }
  destruct (JsMap.get (quoteSymbol config) (paperBalances bot))
    as [qb|] eqn:Hq; [clear Hsome | contradiction].
  rewrite (executePaperSell_settled _ _ _ _ d _ _ _ Hb Ht Hq).
  unfold balanced, conserves, currentQuoteBalance in *. simpl.
  rewrite JsMapFacts.get_delete_ne by exact Hne.
  rewrite JsMapFacts.get_set_eq. rewrite Hq in Heq.
  split; [discriminate|]. simpl.
  rewrite !sumQuote_snoc. simpl. lra.
Qed.

Lemma sell_balanced d rawAccount bot :
  mint rawAccount <> symbol ->
  balanced config bot ->
  balanced config (fst (sell config d rawAccount bot)).
Proof.
  intros Hne Hbal. unfold sell.
  destruct (JsMap.get (mint rawAccount) (paperBalances bot)); auto.
  destruct (find _ (paperTrades bot)) as [bt|]; auto.
  pose proof (executePaperSell_balanced d (mint rawAccount) (PaperTrade.id bt)
                bot Hne Hbal) as H.
  destruct (executePaperSell config d (mint rawAccount) (PaperTrade.id bt) bot).
  exact H.
Qed.

Lemma armed_by_buy d poolState bot :
  Forall (fun t => timerMint t = baseMint poolState)
         (armed (snd (buy config d poolState bot))).
Proof.
  unfold buy, executePaperBuy.
  destruct (JsMap.get _ _) as [qb|]; [|constructor].
  destruct (num_lt _ _); [constructor|]. simpl.
  destruct (BotConfig.autoSell config); repeat constructor.
Qed.

Lemma armed_by_sell d tokenMint buyTradeId bot :
  armed (snd (executePaperSell config d tokenMint buyTradeId bot)) = [].
Proof.
  unfold executePaperSell, settle.
  destruct (JsMap.get tokenMint _); auto.
  destruct (find _ _); auto.
  destruct (JsMap.get (quoteSymbol config) _); auto.
Qed.

Lemma removeNth_Forall {A} (P : A -> Prop) n xs :
  Forall P xs -> Forall P (removeNth n xs).
Proof.
  intros H. revert n. unfold removeNth.
  induction H as [|x rest Hx Hrest IH]; intros [|n]; simpl; auto.
Qed.

Lemma step_settled w e :
  eventMint e <> Some symbol ->
  settled config w -> settled config (step config w e).
Proof.
  intros Hev (Hbal & Htimers).
  destruct e as [poolState d | rawAccount d | n d |]; simpl in *.
  - assert (Hne : baseMint poolState <> symbol) by congruence.
    split; simpl.
    + unfold buy.
      pose proof (executePaperBuy_balanced d poolState _ Hne Hbal) as H.
      destruct (executePaperBuy config d poolState (theBot w)). exact H.
    + apply Forall_app. split; [exact Htimers|].
      eapply Forall_impl; [|apply armed_by_buy].
      intros t Ht E. apply Hne. unfold symbol. congruence.
  - assert (Hne : mint rawAccount <> symbol) by congruence.
    split; simpl.
    + now apply sell_balanced.
    + apply Forall_app. split; [exact Htimers|].
      unfold sell.
      destruct (JsMap.get _ _); [|constructor].
      destruct (find _ _) as [bt|]; [|constructor].
      pose proof (armed_by_sell d (mint rawAccount) (PaperTrade.id bt) (theBot w)) as H.
      destruct (executePaperSell _ _ _ _ _). simpl in *. rewrite H. constructor.
  - destruct (nth_error (pending w) n) as [t|] eqn:Hn; [|now split].
    assert (Hne : timerMint t <> symbol).
    { apply nth_error_In in Hn. rewrite Forall_forall in Htimers. auto. }
    split; simpl.
    + now apply executePaperSell_balanced.
    + apply Forall_app. split.
      * now apply removeNth_Forall.
      * rewrite armed_by_sell. constructor.
  - split; simpl; [exact Hbal|].
    rewrite app_nil_r. exact Htimers.
Qed.

Lemma run_settled events : forall w,
  mintsApart config events ->
  settled config w -> settled config (run config w events).
Proof.
  induction events as [|e rest IH]; intros w Hev Hw; simpl; auto.
  inversion Hev as [|? ? He Hrest]; subst.
  apply IH; [exact Hrest|]. now apply step_settled.
Qed.

Lemma start_settled :
  JsMap.get symbol (paperBalances (theBot (start config))) <> None ->
  settled config (start config).
Proof.
  unfold symbol. intros Hfunded. split; [|constructor].
  split; [exact Hfunded|].
  unfold conserves, currentQuoteBalance.
  revert Hfunded. unfold start, absorb, initializePaperBalances.
  cbn -[String.eqb quoteSymbol].
  destruct (String.eqb_spec (quoteSymbol config) "USDC") as [->|Hne];
    cbn -[String.eqb quoteSymbol].
  - intros _. reflexivity.
  - destruct (String.eqb_spec "SOL" (quoteSymbol config)) as [Hsol|Hsol];
      cbn -[String.eqb quoteSymbol].
    + intros _. reflexivity.
    + intros H. now contradiction H.
Qed.

End Conservation.

(** With exact arithmetic the conservation equation holds in every state
    reached from the constructor by pool events, account events, timer
    firings and summaries: the initial quote balance minus the current
    quote balance plus the net proceeds of all Sells equals the quote
    amounts of all Buys.  The constructor must have funded the configured
    quote symbol, and mints are addresses, never the quote symbol itself.
    In binary64 every debit and credit is rounded and the equation is kept
    only up to that rounding; what holds there is stated on
    [Binary64.replay] below. *)
Lemma ledger_conservation config events :
  JsMap.get (quoteSymbol config) (paperBalances (theBot (start config))) <> None ->
  mintsApart config events ->
  let bot := theBot (run config (start config) events) in
  initialBalance bot - currentQuoteBalance config bot
  + sumQuote isSell (paperTrades bot)
  == sumQuote isBuy (paperTrades bot).
Proof.
  intros Hfunded Hev bot.
  destruct (run_settled config events (start config) Hev
              (start_settled config Hfunded)) as ((_ & H) & _).
  exact H.
Qed.


(** ** At most one settlement when only timers close positions *)

Lemma append_cancel_l (p a b : string) :
  (p ++ a)%string = (p ++ b)%string -> a = b.
Proof.
  induction p as [|c p IH]; simpl; auto.
  intros H. injection H as H. auto.
Qed.

(** Decimal digits followed by an underscore determine the digits. *)
Lemma digits_then_underscore_inj (d d' : Decimal.uint) (x y : string) :
  (NilEmpty.string_of_uint d ++ String "_" x)%string
  = (NilEmpty.string_of_uint d' ++ String "_" y)%string ->
  d = d'.
Proof.
  revert d'. induction d as [|d IH|d IH|d IH|d IH|d IH|d IH|d IH|d IH|d IH|d IH];
    intros [|d'|d'|d'|d'|d'|d'|d'|d'|d'|d']; simpl; intros H;
    try discriminate; try reflexivity;
    injection H as H; f_equal; exact (IH _ H).
Qed.

Lemma tradeIdOf_counter_inj c1 t1 c2 t2 :
  tradeIdOf c1 t1 = tradeIdOf c2 t2 -> c1 = c2.
Proof.
  unfold tradeIdOf, decimal. intros H.
  apply (append_cancel_l "trade_") in H.
  apply digits_then_underscore_inj in H.
  now apply Unsigned.to_uint_inj.
Qed.

Lemma countWithId_sellIds i trades :
  countWithId i isSell trades = count_occ string_dec (sellIds trades) i.
Proof.
  unfold countWithId, sellIds.
  induction trades as [|t rest IH]; simpl; auto.
  destruct (isSell t) eqn:Es; simpl.
  - rewrite andb_true_r.
    destruct (String.eqb_spec (PaperTrade.id t) i) as [E|E];
      destruct (string_dec (PaperTrade.id t) i); try contradiction; simpl; auto.
  - rewrite andb_false_r. exact IH.
Qed.

Lemma sellIds_snoc trades t :
  sellIds (trades ++ [t])
  = sellIds trades ++ (if isSell t then [PaperTrade.id t] else []).
Proof.
  unfold sellIds. rewrite filter_app, map_app. simpl.
  now destruct (isSell t).
Qed.

(** What [executePaperBuy] does to the ledger, the counter and the timers. *)
Lemma executePaperBuy_bookkeeping config d poolState bot :
  let r := executePaperBuy config d poolState bot in
  (fst r = bot /\ armed (snd r) = [])
  \/ (sellIds (paperTrades (fst r)) = sellIds (paperTrades bot)
      /\ tradeCounter (fst r) = (tradeCounter bot + 1)%N
      /\ pendingSellIds (armed (snd r)) =
           if BotConfig.autoSell config
           then [("sell_" ++ tradeIdOf (tradeCounter bot + 1) (now d))%string]
           else []).
Proof.
  unfold executePaperBuy.
  destruct (JsMap.get _ _) as [qb|]; [|left; now split].
  destruct (num_lt _ _); [left; now split|].
  right. cbn [fst snd paperTrades tradeCounter armed].
  rewrite sellIds_snoc. cbn [isSell PaperTrade.action Action_eqb].
  rewrite app_nil_r. repeat split.
  now destruct (BotConfig.autoSell config).
Qed.

(** What [executePaperSell] does to the ledger, the counter and the timers. *)
Lemma executePaperSell_bookkeeping config d tokenMint buyTradeId bot :
  let r := executePaperSell config d tokenMint buyTradeId bot in
  armed (snd r) = []
  /\ tradeCounter (fst r) = tradeCounter bot
  /\ (sellIds (paperTrades (fst r)) = sellIds (paperTrades bot)
      \/ sellIds (paperTrades (fst r))
         = sellIds (paperTrades bot) ++ [("sell_" ++ buyTradeId)%string]).
Proof.
  unfold executePaperSell, settle.
  destruct (JsMap.get tokenMint _); [|repeat split; now left].
  destruct (find _ _); [|repeat split; now left].
  destruct (JsMap.get (quoteSymbol config) _); [|repeat split; now left].
  cbn [fst snd paperTrades tradeCounter armed say].
  repeat split. right. now rewrite sellIds_snoc.
Qed.

Lemma removeNth_split {A} (n : nat) (xs : list A) (x : A) :
  nth_error xs n = Some x ->
  xs = firstn n xs ++ x :: skipn (S n) xs.
Proof.
  revert n. induction xs as [|y rest IH]; intros [|n]; simpl; try discriminate.
  - now intros [= ->].
  - intros H. f_equal. now apply IH.
Qed.

Lemma step_settlesOnce config w e :
  match e with AccountObserved _ _ => False | _ => True end ->
  settlesOnce w -> settlesOnce (step config w e).
Proof.
  intros He (Hnodup & Hbound).
  destruct e as [poolState d | rawAccount d | n d |]; [| contradiction | |].
  - (* a pool event *)
    unfold step, buy, settlesOnce.
    pose proof (executePaperBuy_bookkeeping config d poolState (theBot w)) as H.
    destruct (executePaperBuy config d poolState (theBot w)) as [bot' out].
    cbn [fst snd] in H. cbn [absorb theBot pending fst snd armed logs].
    destruct H as [(-> & ->) | (Hs & Hc & Ht)].
    + rewrite app_nil_r. now split.
    + rewrite Hs, Hc. unfold pendingSellIds in *.
      rewrite map_app, Ht, app_assoc.
      assert (Hold : Forall (fun x => exists counter clock,
                        (counter <= tradeCounter (theBot w) + 1)%N
                        /\ x = ("sell_" ++ tradeIdOf counter clock)%string)
                      (sellIds (paperTrades (theBot w))
                       ++ map (fun t => ("sell_" ++ timerTradeId t)%string)
                              (pending w))).
      { eapply Forall_impl; [|exact Hbound].
        intros x (c & clock & Hle & ->). exists c, clock. split; [lia | auto]. }
      destruct (BotConfig.autoSell config).
      * split.
        -- apply (Permutation_NoDup (Permutation_cons_append _ _)).
           constructor; [|exact Hnodup].
           intros Hin. rewrite Forall_forall in Hbound.
           destruct (Hbound _ Hin) as (c & clock & Hle & E).
           apply (append_cancel_l "sell_") in E.
           apply tradeIdOf_counter_inj in E. lia.
        -- apply Forall_app. split; [exact Hold|].
           constructor; [|constructor].
           exists (tradeCounter (theBot w) + 1)%N, (now d). split; [lia | auto].
      * rewrite app_nil_r. split; [exact Hnodup | exact Hold].
  - (* a timer fires *)
    unfold step.
    destruct (nth_error (pending w) n) as [t|] eqn:Hn; [|now split].
    pose proof (executePaperSell_bookkeeping config d (timerMint t)
                  (timerTradeId t) (theBot w)) as H.
    destruct (executePaperSell config d (timerMint t) (timerTradeId t) (theBot w))
      as [bot' out].
    cbn [fst snd] in H. destruct H as (Harmed & Hc & Hs).
    unfold settlesOnce. cbn [absorb theBot pending fst snd].
    rewrite Harmed, app_nil_r, Hc.
    rewrite (removeNth_split n (pending w) t Hn) in Hnodup, Hbound.
    unfold removeNth, pendingSellIds in *.
    rewrite map_app in *. cbn [map] in Hnodup, Hbound.
    set (S0 := sellIds (paperTrades (theBot w))) in *.
    set (P1 := map (fun t => ("sell_" ++ timerTradeId t)%string)
                   (firstn n (pending w))) in *.
    set (P2 := map (fun t => ("sell_" ++ timerTradeId t)%string)
                   (skipn (S n) (pending w))) in *.
    set (x := ("sell_" ++ timerTradeId t)%string) in *.
    assert (Hperm : Permutation (S0 ++ P1 ++ x :: P2) ((S0 ++ [x]) ++ P1 ++ P2)).
    { rewrite <- app_assoc. apply Permutation_app_head. simpl.
      symmetry. apply Permutation_middle. }
    destruct Hs as [-> | ->]; fold S0.
    + split.
      * rewrite app_assoc in Hnodup |- *. now apply NoDup_remove_1 in Hnodup.
      * rewrite app_assoc in Hbound |- *.
        apply Forall_app in Hbound. destruct Hbound as (H1 & H2).
        inversion H2; subst. apply Forall_app. now split.
    + split.
      * exact (Permutation_NoDup Hperm Hnodup).
      * exact (Permutation_Forall Hperm Hbound).
  - (* a summary *)
    unfold step, settlesOnce. cbn [absorb theBot pending printSummary fst snd say armed].
    now rewrite app_nil_r.
Qed.

Lemma run_settlesOnce config events : forall w,
  closedByTimersOnly events ->
  settlesOnce w -> settlesOnce (run config w events).
Proof.
  induction events as [|e rest IH]; intros w Hev Hw; simpl; auto.
  inversion Hev as [|? ? He Hrest]; subst.
  apply IH; [exact Hrest|]. now apply step_settlesOnce.
Qed.

Lemma start_settlesOnce config : settlesOnce (start config).
Proof.
  unfold settlesOnce, start, absorb, initializePaperBalances. simpl.
  destruct (String.eqb _ _); simpl; split; constructor.
Qed.

(** X14. In every run made of pool events, timer firings and summaries, also
    with repeated buys of one asset, each derived Sell id occurs at most once
    in the ledger. *)
Lemma timers_settle_at_most_once config events i :
  closedByTimersOnly events ->
  (countWithId i isSell (paperTrades (theBot (run config (start config) events)))
   <= 1)%nat.
Proof.
  intros Hev.
  destruct (run_settlesOnce config events (start config) Hev
              (start_settlesOnce config)) as (Hnodup & _).
  rewrite countWithId_sellIds.
  apply NoDup_app_remove_r in Hnodup.
  now apply (proj1 (NoDup_count_occ string_dec _)).
Qed.


(** * Further properties of the paper bot *)

(** ** The three ways a call changes the bot *)

(** The result of an accepted Open, in full. *)
Lemma executePaperBuy_bought config d poolState bot quoteBalance :
  JsMap.get (quoteSymbol config) (paperBalances bot) = Some quoteBalance ->
  BotConfig.quoteAmount config <= PaperBalance.amount quoteBalance ->
  let quoteAmount := BotConfig.quoteAmount config in
  let tokenMint := baseMint poolState in
  let estimatedTokenPrice := priceRandom d * 0.001 + 0.0001 in
  let tradeId := tradeIdOf (tradeCounter bot + 1) (now d) in
  executePaperBuy config d poolState bot =
    ({| paperBalances :=
          JsMap.set tokenMint
            {| PaperBalance.token := tokenMint;
               PaperBalance.amount := quoteAmount / estimatedTokenPrice;
               PaperBalance.symbol := tokenSymbolOf tokenMint |}
            (JsMap.set (quoteSymbol config)
               (PaperBalance.withAmount quoteBalance
                  (PaperBalance.amount quoteBalance - quoteAmount))
               (paperBalances bot));
        paperTrades :=
          paperTrades bot ++
          [ {| PaperTrade.id := tradeId;
               PaperTrade.action := buy_action;
               PaperTrade.token := tokenMint;
               PaperTrade.tokenSymbol := tokenSymbolOf tokenMint;
               PaperTrade.quoteAmount := quoteAmount;
               PaperTrade.tokenAmount := quoteAmount / estimatedTokenPrice;
               PaperTrade.price := estimatedTokenPrice;
               PaperTrade.timestamp := buyStamp d;
               PaperTrade.profit := None;
               PaperTrade.profitPercent := None |} ];
        totalPaperProfit := totalPaperProfit bot;
        tradeCounter := (tradeCounter bot + 1)%N;
        initialBalance := initialBalance bot |},
     {| logs := [LogBuyExecuted tokenMint tradeId quoteAmount
                   (ToFixed (quoteAmount / estimatedTokenPrice) 6)
                   (ToFixed estimatedTokenPrice 8)];
        armed :=
          if BotConfig.autoSell config then
            [ {| timerMint := tokenMint;
                 timerTradeId := tradeId;
                 timerDelay := BotConfig.autoSellDelay config
                               + jitterRandom d * 10000 |} ]
          else [] |}).
Proof.
  intros Hget Hle. unfold executePaperBuy. rewrite Hget.
  now rewrite (num_lt_false _ _ Hle).
Qed.

(** An Open either changes nothing and arms nothing, or is accepted. *)
Lemma executePaperBuy_cases config d poolState bot :
  (fst (executePaperBuy config d poolState bot) = bot
   /\ armed (snd (executePaperBuy config d poolState bot)) = [])
  \/ (exists quoteBalance,
        JsMap.get (quoteSymbol config) (paperBalances bot) = Some quoteBalance
        /\ BotConfig.quoteAmount config <= PaperBalance.amount quoteBalance).
Proof.
  destruct (JsMap.get (quoteSymbol config) (paperBalances bot)) as [qb|] eqn:Hget.
  - destruct (Qlt_le_dec (PaperBalance.amount qb) (BotConfig.quoteAmount config))
      as [Hlt|Hle].
    + left. now rewrite (executePaperBuy_rejected config d poolState bot _ Hget Hlt).
    + right. now exists qb.
  - left. now rewrite (executePaperBuy_no_entry config d poolState bot Hget).
Qed.

(** A Close either changes nothing, or passes its guard and finds the quote
    entry. *)
Lemma executePaperSell_cases config d tokenMint buyTradeId bot :
  fst (executePaperSell config d tokenMint buyTradeId bot) = bot
  \/ (exists tokenBalance buyTrade quoteBalance,
        JsMap.get tokenMint (paperBalances bot) = Some tokenBalance
        /\ find (isBuyWithId buyTradeId) (paperTrades bot) = Some buyTrade
        /\ JsMap.get (quoteSymbol config) (paperBalances bot) = Some quoteBalance).
Proof.
  destruct (JsMap.get tokenMint (paperBalances bot)) as [tb|] eqn:Hb.
  2:{ left. now rewrite executePaperSell_no_balance. }
  destruct (find (isBuyWithId buyTradeId) (paperTrades bot)) as [bt|] eqn:Ht.
  2:{ left. now rewrite executePaperSell_no_buy. }
  destruct (JsMap.get (quoteSymbol config) (paperBalances bot)) as [qb|] eqn:Hq.
  2:{ left. now rewrite (executePaperSell_no_quote config tokenMint buyTradeId bot d tb bt). }
  right. now exists tb, bt, qb.
Qed.

(** [sell] either changes nothing or is the Close of the first buy of the
    mint that has no Sell record yet. *)
Lemma sell_cases config d rawAccount bot :
  fst (sell config d rawAccount bot) = bot
  \/ (exists buyTrade,
        find (isUnsettledBuyOf (paperTrades bot) (mint rawAccount)) (paperTrades bot)
          = Some buyTrade
        /\ fst (sell config d rawAccount bot)
           = fst (executePaperSell config d (mint rawAccount)
                                   (PaperTrade.id buyTrade) bot)).
Proof.
  unfold sell.
  destruct (JsMap.get (mint rawAccount) (paperBalances bot)); [|now left].
  destruct (find _ (paperTrades bot)) as [bt|] eqn:Hf; [|now left].
  right. exists bt. split; [reflexivity|].
  now destruct (executePaperSell config d (mint rawAccount) (PaperTrade.id bt) bot).
Qed.

Lemma sell_arms_nothing config d rawAccount bot :
  armed (snd (sell config d rawAccount bot)) = [].
Proof.
  unfold sell.
  destruct (JsMap.get _ _); auto.
  destruct (find _ _) as [bt|]; auto.
  pose proof (armed_by_sell config d (mint rawAccount) (PaperTrade.id bt) bot) as H.
  now destruct (executePaperSell _ _ _ _ _).
Qed.

(** Induction over a run. *)
Lemma run_invariant config (ok : Event -> Prop) (P : World -> Prop) :
  (forall w e, ok e -> P w -> P (step config w e)) ->
  forall events w, Forall ok events -> P w -> P (run config w events).
Proof.
  intros Hstep. induction events as [|e rest IH]; intros w Hev Hw; simpl; auto.
  inversion Hev; subst. apply IH; auto.
Qed.

(** ** Trade ids, the trade counter and pending timers *)

Lemma buyIds_snoc trades t :
  buyIds (trades ++ [t])
  = buyIds trades ++ (if isBuy t then [PaperTrade.id t] else []).
Proof.
  unfold buyIds. rewrite filter_app, map_app. simpl.
  now destruct (isBuy t).
Qed.

Lemma count_buys_snoc trades t :
  length (filter isBuy (trades ++ [t]))
  = (length (filter isBuy trades) + (if isBuy t then 1 else 0))%nat.
Proof.
  rewrite filter_app, length_app. simpl. now destruct (isBuy t).
Qed.

Lemma timerHasBuy_snoc trades x t :
  timerHasBuy trades t -> timerHasBuy (trades ++ [x]) t.
Proof.
  intros (b & Hin & Hb). exists b. split; [|exact Hb].
  apply in_or_app. now left.
Qed.

(** A Close keeps the numbering, whatever list of timers is left. *)
Lemma wellNumbered_after_close config d tokenMint buyTradeId w left log :
  wellNumbered w ->
  Forall (timerHasBuy (paperTrades (theBot w))) left ->
  wellNumbered
    {| theBot := fst (executePaperSell config d tokenMint buyTradeId (theBot w));
       pending := left;
       journal := log |}.
Proof.
  intros (Hcount & Hnodup & Hbound & Htimers & Hsells) Hleft.
  destruct (executePaperSell_cases config d tokenMint buyTradeId (theBot w))
    as [E | (tb & bt & qb & Hb & Ht & Hq)].
  - unfold wellNumbered. cbn [theBot pending]. rewrite E. repeat split; assumption.
  - unfold wellNumbered. cbn [theBot pending].
    rewrite (executePaperSell_settled config tokenMint buyTradeId (theBot w)
               d tb bt qb Hb Ht Hq).
    cbn [fst paperTrades tradeCounter].
    rewrite count_buys_snoc, buyIds_snoc. cbn [isBuy PaperTrade.action Action_eqb].
    rewrite Nat.add_0_r, app_nil_r. repeat split; try assumption.
    + eapply Forall_impl; [|exact Hleft]. intros t. apply timerHasBuy_snoc.
    + apply Forall_app. split; [exact Hsells|].
      constructor; [|constructor]. intros _. cbn. split; discriminate.
Qed.

Lemma step_wellNumbered config w e :
  wellNumbered w -> wellNumbered (step config w e).
Proof.
  intros Hw.
  destruct e as [poolState d | rawAccount d | n d |].
  - (* a pool event *)
    unfold step, buy, absorb.
    pose proof (executePaperBuy_cases config d poolState (theBot w)) as Hcases.
    destruct Hcases as [(E & Ea) | (qb & Hget & Hle)].
    + destruct (executePaperBuy config d poolState (theBot w)) as [bot' out].
      cbn [fst snd armed logs] in *. subst bot'. rewrite Ea, app_nil_r.
      exact Hw.
    + rewrite (executePaperBuy_bought config d poolState (theBot w) qb Hget Hle).
      destruct Hw as (Hcount & Hnodup & Hbound & Htimers & Hsells).
      unfold wellNumbered. cbn [fst snd theBot pending paperTrades tradeCounter armed].
      rewrite count_buys_snoc, buyIds_snoc.
      cbn [isBuy PaperTrade.action Action_eqb PaperTrade.id].
      repeat split.
      * rewrite Nat.add_1_r, Nat2N.inj_succ, Hcount. lia.
      * apply (Permutation_NoDup (Permutation_cons_append _ _)).
        constructor; [|exact Hnodup].
        intros Hin. rewrite Forall_forall in Hbound.
        destruct (Hbound _ Hin) as (c & clock & Hc & E).
        apply tradeIdOf_counter_inj in E. lia.
      * apply Forall_app. split.
        -- eapply Forall_impl; [|exact Hbound].
           intros x (c & clock & Hc & ->). exists c, clock. split; [lia|auto].
        -- constructor; [|constructor].
           exists (tradeCounter (theBot w) + 1)%N, (now d). split; [lia|auto].
      * apply Forall_app. split.
        -- eapply Forall_impl; [|exact Htimers]. intros t. apply timerHasBuy_snoc.
        -- destruct (BotConfig.autoSell config); constructor; [|constructor].
           eexists. split; [apply in_or_app; right; left; reflexivity|].
           repeat split.
      * apply Forall_app. split; [exact Hsells|].
        constructor; [|constructor]. cbn. discriminate.
  - (* an account event *)
    unfold step, absorb. rewrite sell_arms_nothing, app_nil_r.
    destruct (sell_cases config d rawAccount (theBot w)) as [E | (bt & _ & E)];
      rewrite E.
    + destruct Hw as (H1 & H2 & H3 & H4 & H5). repeat split; assumption.
    + apply wellNumbered_after_close; [exact Hw|].
      now destruct Hw as (_ & _ & _ & H4 & _).
  - (* a timer fires *)
    unfold step.
    destruct (nth_error (pending w) n) as [t|]; [|exact Hw].
    unfold absorb. rewrite armed_by_sell, app_nil_r.
    apply wellNumbered_after_close; [exact Hw|].
    apply removeNth_Forall. now destruct Hw as (_ & _ & _ & H4 & _).
  - (* a summary *)
    unfold step, absorb, printSummary. cbn [fst snd say armed].
    rewrite app_nil_r.
    destruct Hw as (H1 & H2 & H3 & H4 & H5). repeat split; assumption.
Qed.

Lemma start_wellNumbered config : wellNumbered (start config).
Proof.
  unfold wellNumbered, start, absorb, initializePaperBalances.
  cbn -[String.eqb quoteSymbol].
  destruct (String.eqb _ _); cbn; repeat split; constructor.
Qed.

Lemma run_wellNumbered config events :
  wellNumbered (run config (start config) events).
Proof.
  apply (run_invariant config (fun _ => True) wellNumbered).
  - intros w e _. apply step_wellNumbered.
  - now apply Forall_forall.
  - apply start_wellNumbered.
Qed.

(** X1. In every state reached from the constructor the ids of the Buy
    records are pairwise distinct. *)
Theorem buy_ids_are_unique config events :
  NoDup (buyIds (paperTrades (theBot (run config (start config) events)))).
Proof.
  pose proof (run_wellNumbered config events) as H.
  destruct H as (_ & Hnodup & _).
  exact Hnodup.
Qed.

(** X2. In every state reached from the constructor the trade counter is
    the number of Buy records in the ledger, which is the number reported as
    total opportunities by [printSummary]. *)
Theorem trade_counter_counts_buys config events :
  let bot := theBot (run config (start config) events) in
  tradeCounter bot = N.of_nat (length (filter isBuy (paperTrades bot)))
  /\ In (LogTotalOpportunities (N.to_nat (tradeCounter bot)))
        (logs (snd (printSummary config bot))).
Proof.
  destruct (run_wellNumbered config events) as (H & _).
  cbv zeta. split; [now symmetry|].
  rewrite <- H, Nat2N.id. unfold printSummary. cbn [snd say logs].
  apply in_or_app. left. cbn. auto.
Qed.

(** X3. In every state reached from the constructor each pending timer was
    armed for a Buy that is in the ledger, so a firing timer always finds
    its buy trade: the lookup of [executePaperSell] returns a Buy of the
    timer's mint. *)
Theorem pending_timers_find_their_buy config events t :
  In t (pending (run config (start config) events)) ->
  exists buyTrade,
    find (isBuyWithId (timerTradeId t))
         (paperTrades (theBot (run config (start config) events))) = Some buyTrade
    /\ PaperTrade.token buyTrade = timerMint t.
Proof.
  intros Hin.
  destruct (run_wellNumbered config events) as (_ & Hnodup & _ & Htimers & _).
  rewrite Forall_forall in Htimers.
  destruct (Htimers t Hin) as (b & Hb & Hbuy & Hid & Htok).
  revert Hnodup Hb.
  generalize (paperTrades (theBot (run config (start config) events))).
  intros trades. induction trades as [|x rest IH]; intros Hnodup Hb; [contradiction|].
  simpl. unfold isBuyWithId at 1. fold (isBuy x).
  destruct (String.eqb_spec (PaperTrade.id x) (timerTradeId t)) as [Ex|Ex];
    destruct (isBuy x) eqn:Bx; cbn [andb].
  - exists x. split; [reflexivity|].
    destruct Hb as [-> | Hb]; [exact Htok|].
    exfalso. unfold buyIds in Hnodup. simpl in Hnodup. rewrite Bx in Hnodup.
    simpl in Hnodup. inversion Hnodup as [|? ? Hnotin _]; subst.
    apply Hnotin. rewrite Ex, <- Hid.
    apply in_map. apply filter_In. now split.
  - destruct Hb as [-> | Hb]; [congruence|].
    apply IH; [|exact Hb].
    unfold buyIds in *. simpl in Hnodup. now rewrite Bx in Hnodup.
  - destruct Hb as [-> | Hb]; [congruence|].
    apply IH; [|exact Hb].
    unfold buyIds in *. simpl in Hnodup. rewrite Bx in Hnodup.
    now inversion Hnodup.
  - destruct Hb as [-> | Hb]; [congruence|].
    apply IH; [|exact Hb].
    unfold buyIds in *. simpl in Hnodup. now rewrite Bx in Hnodup.
Qed.

Lemma pending_timers_find_their_buy_witness :
  exists buyTrade,
    find (isBuyWithId "trade_1_1700000000000") (paperTrades (theBot afterOpen))
      = Some buyTrade
    /\ PaperTrade.token buyTrade = mintA.
Proof.
  refine (pending_timers_find_their_buy exampleConfig
            [ PoolDetected poolA (buyAt0005 1700000000000) ]
            {| timerMint := mintA;
               timerTradeId := "trade_1_1700000000000";
               timerDelay := 20000 + 0.5 * 10000 |} _).
  left. reflexivity.
Defined.

(** ** The cached total profit *)






(** ** A quote symbol the constructor does not fund *)

(** X5. When the configured quote symbol is neither [USDC] nor [SOL], the
    constructor funds the key [SOL] while every lookup uses the configured
    symbol: every Open is rejected, no timer is ever armed and the bot
    never leaves its initial state, in every run. *)
Theorem unfunded_symbol_never_trades config events :
  quoteSymbol config <> "USDC"%string ->
  quoteSymbol config <> "SOL"%string ->
  let w := run config (start config) events in
  theBot w = theBot (start config)
  /\ pending w = []
  /\ paperTrades (theBot w) = []
  /\ currentQuoteBalance config (theBot w) = 0.
Proof.
  intros Husdc Hsol.
  assert (Hstart : paperBalances (theBot (start config))
                   = [("SOL"%string,
                       {| PaperBalance.token := BotConfig.quoteTokenMint config;
                          PaperBalance.amount := 1;
                          PaperBalance.symbol := "SOL" |})]
                   /\ paperTrades (theBot (start config)) = []).
  { unfold start, absorb, initializePaperBalances.
    cbn -[String.eqb quoteSymbol].
    destruct (String.eqb_spec (quoteSymbol config) "USDC"); [contradiction|].
    now split. }
  destruct Hstart as (Hbal & Hled).
  assert (Hget : JsMap.get (quoteSymbol config)
                           (paperBalances (theBot (start config))) = None).
  { rewrite Hbal. cbn -[String.eqb].
    destruct (String.eqb_spec "SOL" (quoteSymbol config)); [|reflexivity].
    now contradiction Hsol. }
  assert (Hrun : theBot (run config (start config) events) = theBot (start config)
                 /\ pending (run config (start config) events) = []).
  { apply (run_invariant config (fun _ => True)
             (fun w => theBot w = theBot (start config) /\ pending w = [])).
    - intros w e _ (Hb & Hp).
      destruct e as [poolState d | rawAccount d | n d |]; cbn [step].
      + unfold absorb, buy. rewrite Hb, Hp.
        rewrite (executePaperBuy_no_entry config d poolState _ Hget).
        now split.
      + unfold absorb. rewrite sell_arms_nothing, Hp.
        destruct (sell_cases config d rawAccount (theBot w))
          as [E | (bt & Hf & _)].
        * cbn [theBot pending]. rewrite E. now split.
        * rewrite Hb, Hled in Hf. discriminate.
      + rewrite Hp. now destruct n.
      + unfold absorb, printSummary. cbn. rewrite Hp. now split.
    - now apply Forall_forall.
    - split; reflexivity. }
  destruct Hrun as (Hb & Hp). cbv zeta. rewrite Hb. repeat split; auto.
  unfold currentQuoteBalance. now rewrite Hget.
Qed.

Lemma unfunded_symbol_never_trades_witness :
  theBot (run wsolConfig (start wsolConfig)
              [ PoolDetected poolA (buyAt0005 1700000000000);
                AccountObserved accountA (sellAt15 1700000010000) ])
  = theBot (start wsolConfig).
Proof.
  refine (proj1 (unfunded_symbol_never_trades wsolConfig _ _ _));
    discriminate.
Defined.

(** ** The account-event path *)

(** X6. [sell] never writes a Sell id that is already in the ledger: it
    either leaves the ledger as it is or appends one Sell record whose id
    was carried by no trade before the call. *)
Theorem sell_never_reuses_an_id config d rawAccount bot :
  let ledger := paperTrades (fst (sell config d rawAccount bot)) in
  ledger = paperTrades bot
  \/ exists sellTrade,
       ledger = paperTrades bot ++ [sellTrade]
       /\ PaperTrade.action sellTrade = sell_action
       /\ PaperTrade.token sellTrade = mint rawAccount
       /\ countWithId (PaperTrade.id sellTrade) (fun _ => true) (paperTrades bot)
          = 0%nat.
Proof.
  cbv zeta.
  destruct (sell_cases config d rawAccount bot) as [E | (bt & Hf & E)];
    rewrite E; [now left|].
  destruct (executePaperSell_cases config d (mint rawAccount) (PaperTrade.id bt) bot)
    as [E' | (tb & bt' & qb & Hb & Ht & Hq)]; [rewrite E'; now left|].
  right.
  rewrite (executePaperSell_settled config _ _ bot d tb bt' qb Hb Ht Hq).
  cbn [fst paperTrades]. eexists. split; [reflexivity|].
  cbn [PaperTrade.action PaperTrade.token PaperTrade.id]. repeat split.
  exact (sell_picks_unsettled_buy _ _ _ Hf).
Qed.

(** ** Balances are never negative *)

Lemma values_set {V} (P : V -> Prop) k v (m : JsMap.t V) :
  Forall P (JsMap.values m) -> P v -> Forall P (JsMap.values (JsMap.set k v m)).
Proof.
  unfold JsMap.values. intros H Hv.
  induction m as [|[k' v'] rest IH]; simpl.
  - now constructor.
  - inversion H; subst. destruct (String.eqb k' k); simpl; constructor; auto.
Qed.

Lemma values_delete {V} (P : V -> Prop) k (m : JsMap.t V) :
  Forall P (JsMap.values m) -> Forall P (JsMap.values (JsMap.delete k m)).
Proof.
  unfold JsMap.values, JsMap.delete. intros H.
  induction m as [|[k' v'] rest IH]; simpl; auto.
  inversion H; subst. destruct (String.eqb k' k); simpl; auto.
Qed.

Lemma get_values {V} k v (m : JsMap.t V) :
  JsMap.get k m = Some v -> In v (JsMap.values m).
Proof.
  unfold JsMap.values.
  induction m as [|[k' v'] rest IH]; simpl; [discriminate|].
  destruct (String.eqb k' k); [intros [= ->]; now left | auto].
Qed.

Lemma simulatePriceMovement_positive random sample :
  0 <= sample -> 0 < simulatePriceMovement random sample.
Proof.
  intros H. apply scenarioLoop_positive.
  repeat constructor; cbn [multiplier]; lra.
Qed.

Lemma netProceeds_nonneg config d quantity buyTrade :
  0 <= multiplierRandom d -> BotConfig.sellSlippage config <= 100 ->
  0 <= quantity -> 0 <= PaperTrade.price buyTrade ->
  0 <= exitPrice d buyTrade /\ 0 <= netProceeds config d quantity buyTrade.
Proof.
  intros Hd Hslip Hq Hp.
  assert (Hm := simulatePriceMovement_positive (scenarioRandom d) _ Hd).
  assert (He : 0 <= exitPrice d buyTrade).
  { unfold exitPrice. apply Qmult_le_0_compat; [exact Hp | now apply Qlt_le_weak]. }
  split; [exact He|].
  unfold netProceeds, grossProceeds.
  apply Qmult_le_0_compat; [now apply Qmult_le_0_compat|].
  assert (BotConfig.sellSlippage config / 100 <= 1)
    by (apply Qle_shift_div_r; lra).
  lra.
Qed.

Lemma executePaperBuy_nonNegative config d poolState bot :
  0 <= BotConfig.quoteAmount config -> 0 <= priceRandom d ->
  nonNegative bot -> nonNegative (fst (executePaperBuy config d poolState bot)).
Proof.
  intros Hqa Hd (Hbal & Hprice).
  destruct (executePaperBuy_cases config d poolState bot)
    as [(E & _) | (qb & Hget & Hle)]; [rewrite E; now split|].
  rewrite (executePaperBuy_bought config d poolState bot qb Hget Hle).
  unfold nonNegative. cbn [fst paperBalances paperTrades].
  assert (Hp : 0 < priceRandom d * 0.001 + 0.0001) by lra.
  split.
  - apply values_set; [apply values_set; [exact Hbal|]|]; cbn.
    + lra.
    + apply Qle_shift_div_l; [exact Hp | lra].
  - apply Forall_app. split; [exact Hprice|].
    constructor; [|constructor]. cbn. lra.
Qed.

Lemma executePaperSell_nonNegative config d tokenMint buyTradeId bot :
  BotConfig.sellSlippage config <= 100 -> 0 <= multiplierRandom d ->
  nonNegative bot ->
  nonNegative (fst (executePaperSell config d tokenMint buyTradeId bot)).
Proof.
  intros Hslip Hd (Hbal & Hprice).
  destruct (executePaperSell_cases config d tokenMint buyTradeId bot)
    as [E | (tb & bt & qb & Hb & Ht & Hq)]; [rewrite E; now split|].
  rewrite (executePaperSell_settled config tokenMint buyTradeId bot d tb bt qb Hb Ht Hq).
  unfold nonNegative. cbn [fst paperBalances paperTrades].
  rewrite Forall_forall in Hbal, Hprice.
  assert (Htb : 0 <= PaperBalance.amount tb) by (apply Hbal; eapply get_values; eauto).
  assert (Hqb : 0 <= PaperBalance.amount qb) by (apply Hbal; eapply get_values; eauto).
  assert (Hbt : 0 <= PaperTrade.price bt).
  { apply Hprice. apply find_some in Ht. tauto. }
  destruct (netProceeds_nonneg config d _ bt Hd Hslip Htb Hbt) as (He & Hn).
  split.
  - apply values_delete, values_set.
    + now apply Forall_forall.
    + cbn. lra.
  - apply Forall_app. split; [now apply Forall_forall|].
    constructor; [|constructor]. exact He.
Qed.

(** X7. With a non-negative quote amount, a slippage of at most 100 percent
    and non-negative random draws, no balance entry is ever negative: an
    Open is only accepted when the quote balance covers it, and a Close
    credits non-negative proceeds. *)
Theorem balances_never_negative config events :
  0 <= BotConfig.quoteAmount config ->
  BotConfig.sellSlippage config <= 100 ->
  Forall drawsNonNegative events ->
  let bot := theBot (run config (start config) events) in
  Forall (fun b => 0 <= PaperBalance.amount b) (JsMap.values (paperBalances bot))
  /\ 0 <= currentQuoteBalance config bot.
Proof.
  intros Hqa Hslip Hev.
  assert (H : nonNegative (theBot (run config (start config) events))).
  { apply (run_invariant config drawsNonNegative
             (fun w => nonNegative (theBot w))); [|exact Hev|].
    - intros w e He Hw.
      destruct e as [poolState d | rawAccount d | n d |]; cbn [step].
      + unfold absorb, buy. cbn [theBot].
        pose proof (executePaperBuy_nonNegative config d poolState _ Hqa He Hw) as H'.
        now destruct (executePaperBuy config d poolState (theBot w)).
      + unfold absorb. cbn [theBot].
        destruct (sell_cases config d rawAccount (theBot w)) as [E | (bt & _ & E)];
          rewrite E; [exact Hw|].
        now apply executePaperSell_nonNegative.
      + destruct (nth_error (pending w) n); [|exact Hw].
        unfold absorb. cbn [theBot]. now apply executePaperSell_nonNegative.
      + exact Hw.
    - unfold nonNegative, start, absorb, initializePaperBalances.
      cbn -[String.eqb quoteSymbol].
      destruct (String.eqb _ _); cbn; split; repeat constructor; discriminate. }
  destruct H as (Hbal & _). cbv zeta. split; [exact Hbal|].
  unfold currentQuoteBalance.
  destruct (JsMap.get _ _) as [qb|] eqn:Hget; [|lra].
  rewrite Forall_forall in Hbal. apply Hbal. eapply get_values; eauto.
Qed.

Lemma balances_never_negative_witness :
  0 <= currentQuoteBalance exampleConfig
         (theBot (run exampleConfig (start exampleConfig) staleTimerRun)).
Proof.
  refine (proj2 (balances_never_negative exampleConfig staleTimerRun _ _ _)).
  - discriminate.
  - discriminate.
  - repeat constructor; discriminate.
Defined.

(** ** The summary *)

Lemma printSummary_winRate config bot :
  reportedWinRate (snd (printSummary config bot)) = [winRateOf (paperTrades bot)].
Proof.
  unfold printSummary, reportedWinRate. cbn [snd say logs].
  rewrite !winRatesIn_app. unfold winRatesIn at 1. cbn [app flat_map].
  rewrite winRateLine_counts. f_equal.
  replace (winRatesIn (if (0 <? length (sliceLast 3 (paperTrades bot)))%nat
                       then LogRecentActivity
                            :: fst (recentLines (quoteSymbol config)
                                      (sliceLast 3 (paperTrades bot)))
                       else [])) with (@nil Rendered).
  2:{ destruct (0 <? _)%nat; auto. symmetry.
      apply (no_win_rate_in_recent _ _). }
  replace (winRatesIn (if snd (recentLines (quoteSymbol config)
                                 (sliceLast 3 (paperTrades bot)))
                       then [LogSummaryFooter] else [])) with (@nil Rendered).
  2:{ now destruct (snd _). }
  rewrite !app_nil_r.
  destruct (0 <? _)%nat; auto.
  apply (no_win_rate_in_positions _).
Qed.

Lemma countWinningSells_le trades :
  (countWinningSells trades <= countSells trades)%nat.
Proof.
  induction trades as [|t rest IH]; simpl; auto.
  destruct (PaperTrade.action t); auto.
  destruct (PaperTrade.profit t) as [p|]; [|lia].
  destruct (Qlt_le_dec 0 p); lia.
Qed.

Lemma percentage_in_range (wins total : nat) :
  (wins <= total)%nat -> (0 < total)%nat ->
  let v := inject_Z (Z.of_nat wins) / inject_Z (Z.of_nat total) * 100 in
  0 <= v /\ v <= 100.
Proof.
  intros Hle Hpos v.
  assert (Hw : 0 <= inject_Z (Z.of_nat wins))
    by (change 0 with (inject_Z 0); rewrite <- Zle_Qle; lia).
  assert (Ht : 0 < inject_Z (Z.of_nat total))
    by (change 0 with (inject_Z 0); rewrite <- Zlt_Qlt; lia).
  assert (Hwt : inject_Z (Z.of_nat wins) <= inject_Z (Z.of_nat total))
    by (rewrite <- Zle_Qle; lia).
  assert (H0 : 0 <= inject_Z (Z.of_nat wins) / inject_Z (Z.of_nat total))
    by (apply Qle_shift_div_l; [exact Ht | lra]).
  assert (H1 : inject_Z (Z.of_nat wins) / inject_Z (Z.of_nat total) <= 1)
    by (apply Qle_shift_div_r; [exact Ht | lra]).
  unfold v. split; lra.
Qed.

(** X8. The win rate printed by [printSummary] is either the text [0.00]
    or a percentage between 0 and 100, whatever the ledger holds. *)
Theorem reported_win_rate_is_a_percentage config bot :
  reportedWinRate (snd (printSummary config bot)) = [Lit "0.00"]
  \/ exists v, reportedWinRate (snd (printSummary config bot)) = [ToFixed v 2]
               /\ 0 <= v /\ v <= 100.
Proof.
  rewrite printSummary_winRate. unfold winRateOf.
  pose proof (countWinningSells_le (paperTrades bot)) as Hle.
  destruct (countSells (paperTrades bot)) as [|n]; [now left|].
  right. eexists. split; [reflexivity|].
  apply percentage_in_range; lia.
Qed.

Lemma recentLines_complete symbol trades :
  Forall (fun t => isSell t = true ->
                   PaperTrade.profit t <> None
                   /\ PaperTrade.profitPercent t <> None) trades ->
  snd (recentLines symbol trades) = true.
Proof.
  induction 1 as [|t rest Ht _ IH]; simpl; auto.
  unfold isSell in Ht.
  destruct (PaperTrade.action t).
  - now destruct (recentLines symbol rest).
  - destruct (PaperTrade.profitPercent t).
    + now destruct (recentLines symbol rest).
    + now destruct (Ht eq_refl) as (_ & H).
Qed.

Lemma Forall_skipn_keeps {A} (P : A -> Prop) n (xs : list A) :
  Forall P xs -> Forall P (skipn n xs).
Proof.
  intros H. revert n. induction H; intros [|n]; simpl; auto.
Qed.

(** X9. In every state reached from the constructor [printSummary] runs to
    its last line: every Sell record of the ledger carries [profitPercent],
    so the recent-activity loop does not throw and the summary starts with
    its header and ends with its footer. *)
Theorem summary_runs_to_the_footer config events :
  let bot := theBot (run config (start config) events) in
  exists body,
    logs (snd (printSummary config bot))
    = LogSummaryHeader :: body ++ [LogSummaryFooter].
Proof.
  cbv zeta.
  destruct (run_wellNumbered config events) as (_ & _ & _ & _ & Hsells).
  unfold printSummary. cbn [snd say logs].
  rewrite recentLines_complete
    by (unfold sliceLast; now apply Forall_skipn_keeps).
  cbn [app].
  match goal with
  | |- exists body, _ :: ?x1 :: ?x2 :: ?x3 :: ?x4 :: ?x5 :: ?x6 :: ?A ++ ?B ++ _ = _ =>
      exists (x1 :: x2 :: x3 :: x4 :: x5 :: x6 :: A ++ B)
  end.
  cbn [app]. now rewrite <- app_assoc.
Qed.

(** ** Outcome of a Close *)






(** ** Repeated and unrelated calls *)

(** X12. A Close repeated with the same mint and buy id never settles
    again, in any state and for any draws: the second call returns the bot
    of the first, arms nothing, and only logs the cannot-sell warning or,
    when the quote entry is missing, the failure. *)
Theorem repeated_close_never_settles config d1 d2 tokenMint buyTradeId bot :
  let first := executePaperSell config d1 tokenMint buyTradeId bot in
  let second := executePaperSell config d2 tokenMint buyTradeId (fst first) in
  fst second = fst first
  /\ armed (snd second) = []
  /\ (logs (snd second) = [LogCannotSell] \/ logs (snd second) = [LogSellFailed]).
Proof.
  cbv zeta.
  destruct (JsMap.get tokenMint (paperBalances bot)) as [tb|] eqn:Hb.
  2:{ rewrite (executePaperSell_no_balance config tokenMint buyTradeId bot d1 Hb).
      cbn [fst].
      rewrite (executePaperSell_no_balance config tokenMint buyTradeId bot d2 Hb).
      cbn. auto. }
  destruct (find (isBuyWithId buyTradeId) (paperTrades bot)) as [bt|] eqn:Ht.
  2:{ rewrite (executePaperSell_no_buy config tokenMint buyTradeId bot d1 Ht).
      cbn [fst].
      rewrite (executePaperSell_no_buy config tokenMint buyTradeId bot d2 Ht).
      cbn. auto. }
  destruct (JsMap.get (quoteSymbol config) (paperBalances bot)) as [qb|] eqn:Hq.
  2:{ rewrite (executePaperSell_no_quote config tokenMint buyTradeId bot d1 tb bt
                 Hb Ht Hq).
      cbn [fst].
      rewrite (executePaperSell_no_quote config tokenMint buyTradeId bot d2 tb bt
                 Hb Ht Hq).
      cbn. auto. }
  rewrite (executePaperSell_settled config tokenMint buyTradeId bot d1 tb bt qb Hb Ht Hq).
  cbn [fst].
  rewrite executePaperSell_no_balance
    by (cbn [paperBalances]; apply JsMapFacts.get_delete_eq).
  cbn. auto.
Qed.

(** X13. Opens and Closes of one mint leave the balance entries of every
    other key as they are: an entry that is neither the quote entry nor the
    entry of the traded mint is read back unchanged. *)
Theorem other_entries_are_untouched
        config key dBuy poolState dSell tokenMint buyTradeId bot :
  key <> quoteSymbol config ->
  key <> baseMint poolState ->
  key <> tokenMint ->
  JsMap.get key (paperBalances (fst (executePaperBuy config dBuy poolState bot)))
    = JsMap.get key (paperBalances bot)
  /\ JsMap.get key
       (paperBalances (fst (executePaperSell config dSell tokenMint buyTradeId bot)))
     = JsMap.get key (paperBalances bot).
Proof.
  intros Hsym Hpool Hmint. split.
  - destruct (executePaperBuy_cases config dBuy poolState bot)
      as [(E & _) | (qb & Hget & Hle)]; [now rewrite E|].
    rewrite (executePaperBuy_bought config dBuy poolState bot qb Hget Hle).
    cbn [fst paperBalances].
    rewrite !JsMapFacts.get_set_ne by congruence. reflexivity.
  - destruct (executePaperSell_cases config dSell tokenMint buyTradeId bot)
      as [E | (tb & bt & qb & Hb & Ht & Hq)]; [now rewrite E|].
    rewrite (executePaperSell_settled config tokenMint buyTradeId bot dSell
               tb bt qb Hb Ht Hq).
    cbn [fst paperBalances].
    rewrite JsMapFacts.get_delete_ne by congruence.
    rewrite JsMapFacts.get_set_ne by congruence. reflexivity.
Qed.

Lemma other_entries_are_untouched_witness :
  JsMap.get mintA
    (paperBalances
       (fst (executePaperBuy exampleConfig (buyAt001 1700000012000)
               {| baseMint := "9zQyLmC4rT8vWb2XnK5sHd7FpGj3UaEe6RYkMtNqBcDf" |}
               (theBot afterOpen))))
  = JsMap.get mintA (paperBalances (theBot afterOpen)).
Proof.
  refine (proj1 (other_entries_are_untouched
                   exampleConfig mintA (buyAt001 1700000012000)
                   {| baseMint := "9zQyLmC4rT8vWb2XnK5sHd7FpGj3UaEe6RYkMtNqBcDf" |}
                   (sellAt15 1700000025000)
                   "9zQyLmC4rT8vWb2XnK5sHd7FpGj3UaEe6RYkMtNqBcDf"%string
                   "trade_2_1700000012000"%string
                   (theBot afterOpen) _ _ _)); discriminate.
Defined.

Lemma timers_settle_at_most_once_witness :
  (countWithId "sell_trade_1_1700000000000" isSell
     (paperTrades (theBot (run exampleConfig (start exampleConfig) overwriteRun)))
   <= 1)%nat.
Proof.
  apply (timers_settle_at_most_once exampleConfig overwriteRun).
  repeat constructor.
Defined.

(** * The exported [PaperTradingBot] *)

Lemma find_finds {A} (f : A -> bool) (xs : list A) (x : A) :
  In x xs -> f x = true -> exists y, find f xs = Some y.
Proof.
  induction xs as [|a rest IH]; simpl; [contradiction|].
  intros [-> | Hin] Hx.
  - rewrite Hx. eauto.
  - destruct (f a); eauto.
Qed.

Lemma countWithId_snoc i p trades t :
  countWithId i p (trades ++ [t])
  = (countWithId i p trades
     + (if String.eqb (PaperTrade.id t) i && p t then 1 else 0))%nat.
Proof.
  unfold countWithId. rewrite filter_app, length_app. simpl.
  now destruct (String.eqb (PaperTrade.id t) i && p t).
Qed.

(** X16. [sell] of the exported class settles the first buy of the mint
    each time it is called with the balance entry present, without looking
    for an earlier Sell: it appends a Sell record with the derived id, so
    the number of Sell records with that id grows by one. *)
Theorem exported_sell_settles_first_buy_again
        config d rawAccount bot buyTrade tokenBalance symbol quoteBalance :
  find (ExportedBot.isBuyOf (mint rawAccount)) (paperTrades bot) = Some buyTrade ->
  PaperTrade.id buyTrade <> ""%string ->
  JsMap.get (mint rawAccount) (paperBalances bot) = Some tokenBalance ->
  BotConfig.quoteTokenSymbol config = Some symbol ->
  JsMap.get symbol (paperBalances bot) = Some quoteBalance ->
  let derived := ("sell_" ++ PaperTrade.id buyTrade)%string in
  let ledger := paperTrades (fst (ExportedBot.sell config d rawAccount bot)) in
  (exists sellTrade,
      ledger = paperTrades bot ++ [sellTrade]
      /\ PaperTrade.id sellTrade = derived
      /\ PaperTrade.action sellTrade = sell_action)
  /\ countWithId derived isSell ledger
     = S (countWithId derived isSell (paperTrades bot)).
Proof.
  intros Hfind Hid Hb Hsym Hq derived ledger.
  assert (Hbuy : exists bt, find (isBuyWithId (PaperTrade.id buyTrade))
                                 (paperTrades bot) = Some bt).
  { apply find_some in Hfind. destruct Hfind as (Hin & Hp).
    apply (find_finds _ _ buyTrade Hin).
    unfold ExportedBot.isBuyOf in Hp. apply andb_prop in Hp.
    unfold isBuyWithId. rewrite String.eqb_refl. now destruct Hp as (_ & ->). }
  destruct Hbuy as (bt & Hbt).
  assert (E : exists sellTrade,
            ledger = paperTrades bot ++ [sellTrade]
            /\ PaperTrade.id sellTrade = derived
            /\ PaperTrade.action sellTrade = sell_action).
  { unfold ledger, ExportedBot.sell. rewrite Hfind.
    destruct (PaperTrade.id buyTrade) as [|c rest] eqn:Eid; [contradiction|].
    unfold ExportedBot.executePaperSell, ExportedBot.getQuote.
    rewrite Hb, Hbt, Hsym, Hq. cbn [fst paperTrades].
    eexists. split; [reflexivity|]. split; reflexivity. }
  split; [exact E|].
  destruct E as (s & -> & Hs & Ha).
  rewrite countWithId_snoc. unfold isSell at 2.
  rewrite Hs, Ha, String.eqb_refl. cbn. lia.
Qed.

Lemma exported_sell_settles_first_buy_again_witness :
  countWithId "sell_trade_1_1700000000000" isSell
    (paperTrades (fst (ExportedBot.sell exampleConfig (sellAt15 1700000020000)
                                        accountA exportedRebought)))
  = 2%nat.
Proof.
  pose proof (exported_sell_settles_first_buy_again
                exampleConfig (sellAt15 1700000020000) accountA exportedRebought)
    as H.
  edestruct H as (_ & H2).
  - vm_compute. reflexivity.
  - discriminate.
  - vm_compute. reflexivity.
  - reflexivity.
  - vm_compute. reflexivity.
  - exact H2.
Defined.

Lemma buys_and_sells_partition trades :
  (length (filter isBuy trades) + length (filter isSell trades))%nat
  = length trades.
Proof.
  induction trades as [|t rest IH]; simpl; auto.
  unfold isBuy at 1, isSell at 1.
  destruct (PaperTrade.action t); simpl; lia.
Qed.

(** X17. The results returned by [getPaperTradingResults] are consistent
    for every ledger: winning trades are among the completed ones, buys and
    completed trades together are all the trades, and the win rate is a
    percentage between 0 and 100. *)
Theorem exported_results_are_consistent config bot :
  let r := ExportedBot.getPaperTradingResults config bot in
  (ExportedBot.winningTrades r <= ExportedBot.completedTrades r)%nat
  /\ (ExportedBot.totalTrades r + ExportedBot.completedTrades r)%nat
     = length (ExportedBot.trades r)
  /\ 0 <= ExportedBot.winRate r
  /\ ExportedBot.winRate r <= 100
  /\ ExportedBot.trades r = paperTrades bot.
Proof.
  cbv zeta. unfold ExportedBot.getPaperTradingResults.
  cbn [ExportedBot.winningTrades ExportedBot.completedTrades ExportedBot.totalTrades
       ExportedBot.trades ExportedBot.winRate].
  pose proof (filter_length_le isWinning (filter isSell (paperTrades bot))) as Hle.
  repeat split.
  - exact Hle.
  - apply buys_and_sells_partition.
  - unfold lengthNumber.
    destruct (Nat.ltb_spec 0 (length (filter isSell (paperTrades bot))));
      [|lra].
    now apply percentage_in_range.
  - unfold lengthNumber.
    destruct (Nat.ltb_spec 0 (length (filter isSell (paperTrades bot))));
      [|lra].
    now apply percentage_in_range.
Qed.

(** * [DryRunBot] *)

Lemma dry_find_snoc f (xs : list DryRun.Result) x r :
  find f xs = Some x -> find f (xs ++ [r]) = Some x.
Proof.
  induction xs as [|a rest IH]; simpl; [discriminate|].
  destruct (f a); auto.
Qed.

(** X18. [DryRunBot.sell] has no settlement guard: each call for a mint
    that has a buy record appends one more sell record and the next call
    finds the same buy record again, so [n] calls in a row leave [n] more
    sell records; the buy counter is not touched. *)
Theorem dry_sell_settles_on_every_call draws rawAccount bot buyRecord :
  find (DryRun.isBuyOf (mint rawAccount)) (DryRun.tradingResults bot)
    = Some buyRecord ->
  let bot' := DryRun.sellRepeatedly draws rawAccount bot in
  length (filter DryRun.isSell (DryRun.tradingResults bot'))
    = (length (filter DryRun.isSell (DryRun.tradingResults bot)) + length draws)%nat
  /\ find (DryRun.isBuyOf (mint rawAccount)) (DryRun.tradingResults bot')
     = Some buyRecord
  /\ DryRun.totalTrades bot' = DryRun.totalTrades bot.
Proof.
  revert bot. induction draws as [|d rest IH]; intros bot Hfind; cbn.
  - repeat split; auto.
  - set (next := fst (DryRun.sell d rawAccount bot)).
    assert (Hnext : exists r,
               DryRun.tradingResults next = DryRun.tradingResults bot ++ [r]
               /\ DryRun.isSell r = true
               /\ DryRun.totalTrades next = DryRun.totalTrades bot).
    { unfold next, DryRun.sell. rewrite Hfind. cbn.
      eexists. repeat split. }
    destruct Hnext as (r & Hres & Hr & Htot).
    assert (Hfind' : find (DryRun.isBuyOf (mint rawAccount))
                          (DryRun.tradingResults next) = Some buyRecord)
      by (rewrite Hres; now apply dry_find_snoc).
    destruct (IH next Hfind') as (H1 & H2 & H3).
    unfold DryRun.sellRepeatedly in *. fold next.
    repeat split; [|exact H2 | congruence].
    rewrite H1, Hres, filter_app, length_app. cbn. rewrite Hr. cbn. lia.
Qed.

Lemma dry_sell_settles_on_every_call_witness :
  length (filter DryRun.isSell
            (DryRun.tradingResults
               (DryRun.sellRepeatedly [drySell 0.1; drySell 0.2; drySell 0.3]
                                      accountA dryBought)))
  = 3%nat.
Proof.
  pose proof (dry_sell_settles_on_every_call
                [drySell 0.1; drySell 0.2; drySell 0.3] accountA dryBought) as H.
  edestruct H as (H1 & _).
  - vm_compute. reflexivity.
  - exact H1.
Defined.

(** X19. A simulated sell of a position bought at a positive price, with
    its random draw in [[0,1)], records a sell price between 0.5 and 3 times
    the buy price and a profit percent between -50 and 200, and adds the
    price difference to the total profit. *)
Theorem dry_sell_outcome_range d tokenMint buyPrice bot :
  0 < buyPrice ->
  0 <= DryRun.multiplierRandom d -> DryRun.multiplierRandom d < 1 ->
  exists record percent,
    DryRun.tradingResults (fst (DryRun.simulateSell d tokenMint buyPrice bot))
      = DryRun.tradingResults bot ++ [record]
    /\ DryRun.action record = sell_action
    /\ 0.5 * buyPrice <= DryRun.price record
    /\ DryRun.price record < 3 * buyPrice
    /\ DryRun.profit record = Some percent
    /\ -50 <= percent /\ percent < 200
    /\ DryRun.totalProfit (fst (DryRun.simulateSell d tokenMint buyPrice bot))
       == DryRun.totalProfit bot + (DryRun.price record - buyPrice).
Proof.
  intros Hp H0 H1. unfold DryRun.simulateSell. cbn [fst DryRun.tradingResults
    DryRun.totalProfit].
  set (m := 0.5 + DryRun.multiplierRandom d * 2.5).
  assert (Hm : 0.5 <= m /\ m < 3) by (unfold m; split; lra).
  assert (Hpercent : (buyPrice * m - buyPrice) / buyPrice * 100 == (m - 1) * 100).
  { field. intros E. rewrite E in Hp. now apply Qlt_irrefl in Hp. }
  do 2 eexists. split; [reflexivity|].
  cbn [DryRun.action DryRun.price DryRun.profit].
  split; [reflexivity|].
  split.
  { rewrite (Qmult_comm buyPrice).
    apply Qmult_le_compat_r; [tauto | now apply Qlt_le_weak]. }
  split.
  { rewrite (Qmult_comm buyPrice).
    apply Qmult_lt_compat_r; tauto. }
  split; [reflexivity|].
  split; [rewrite Hpercent; lra|].
  split; [rewrite Hpercent; lra|].
  reflexivity.
Qed.

Lemma dry_sell_outcome_range_witness :
  exists record percent,
    DryRun.tradingResults (fst (DryRun.simulateSell (drySell 0.2) mintA 0.0005 dryBought))
      = DryRun.tradingResults dryBought ++ [record]
    /\ DryRun.action record = sell_action
    /\ 0.5 * 0.0005 <= DryRun.price record
    /\ DryRun.price record < 3 * 0.0005
    /\ DryRun.profit record = Some percent
    /\ -50 <= percent /\ percent < 200
    /\ DryRun.totalProfit (fst (DryRun.simulateSell (drySell 0.2) mintA 0.0005 dryBought))
       == DryRun.totalProfit dryBought + (DryRun.price record - 0.0005).
Proof.
  refine (dry_sell_outcome_range (drySell 0.2) mintA 0.0005 dryBought _ _ _);
    [reflexivity | discriminate | reflexivity].
Defined.

Lemma dry_run_invariant config (P : DryRun.World -> Prop) :
  (forall w e, P w -> P (DryRun.step config w e)) ->
  forall events w, P w -> P (DryRun.run config w events).
Proof.
  intros Hstep. induction events as [|e rest IH]; intros w Hw; simpl; auto.
Qed.

Lemma dry_recordBuy_keeps config d tokenMint bot :
  profitOnSells bot /\ buysCounted bot ->
  profitOnSells (DryRun.recordBuy config d tokenMint bot)
  /\ buysCounted (DryRun.recordBuy config d tokenMint bot).
Proof.
  intros (Hp & Heq & Hcount). split.
  - unfold profitOnSells, DryRun.recordBuy. cbn [DryRun.tradingResults].
    apply Forall_app. split; [exact Hp|].
    constructor; [|constructor]. cbn. discriminate.
  - unfold buysCounted, DryRun.recordBuy.
    cbn [DryRun.tradingResults DryRun.totalTrades DryRun.successfulTrades].
    rewrite filter_app, length_app. cbn. split; lia.
Qed.

Lemma dry_simulateSell_keeps d tokenMint buyPrice bot :
  profitOnSells bot /\ buysCounted bot ->
  profitOnSells (fst (DryRun.simulateSell d tokenMint buyPrice bot))
  /\ buysCounted (fst (DryRun.simulateSell d tokenMint buyPrice bot)).
Proof.
  intros (Hp & Heq & Hcount). split.
  - unfold profitOnSells, DryRun.simulateSell. cbn [fst DryRun.tradingResults].
    apply Forall_app. split; [exact Hp|].
    constructor; [|constructor]. reflexivity.
  - unfold buysCounted, DryRun.simulateSell.
    cbn [fst DryRun.tradingResults DryRun.totalTrades DryRun.successfulTrades].
    rewrite filter_app, length_app. cbn. split; lia.
Qed.

Lemma dry_step_keeps config w e :
  profitOnSells (DryRun.theBot w) /\ buysCounted (DryRun.theBot w) ->
  profitOnSells (DryRun.theBot (DryRun.step config w e))
  /\ buysCounted (DryRun.theBot (DryRun.step config w e)).
Proof.
  intros H.
  destruct e as [poolState d | rawAccount d | n d | chance suffix d];
    cbn [DryRun.step].
  - unfold DryRun.absorb, DryRun.buy. cbn [DryRun.theBot fst].
    now apply dry_recordBuy_keeps.
  - unfold DryRun.absorb, DryRun.sell. cbn [DryRun.theBot].
    destruct (find _ _) as [r|]; [|exact H].
    pose proof (dry_simulateSell_keeps d (mint rawAccount) (DryRun.price r) _ H) as H'.
    now destruct (DryRun.simulateSell d (mint rawAccount) (DryRun.price r)
                    (DryRun.theBot w)).
  - destruct (nth_error (DryRun.pending w) n) as [t|]; [|exact H].
    unfold DryRun.absorb. cbn [DryRun.theBot].
    now apply dry_simulateSell_keeps.
  - unfold DryRun.absorb, DryRun.simulationTick, DryRun.simulateTokenLaunch,
      DryRun.simulateBuy. cbn [DryRun.theBot].
    destruct (num_lt chance 0.3); [|exact H].
    cbn [fst]. now apply dry_recordBuy_keeps.
Qed.

Lemma dry_reachable config events :
  profitOnSells (DryRun.theBot (DryRun.run config DryRun.start events))
  /\ buysCounted (DryRun.theBot (DryRun.run config DryRun.start events)).
Proof.
  apply (dry_run_invariant config
           (fun w => profitOnSells (DryRun.theBot w) /\ buysCounted (DryRun.theBot w))).
  - intros w e. apply dry_step_keeps.
  - split; [constructor | split; reflexivity].
Qed.

(** X20. In every state of the dry-run bot reached from its constructor
    the two counters [totalTrades] and [successfulTrades] are equal and
    count the buy records; sells never change them. *)
Theorem dry_counters_count_buys config events :
  let bot := DryRun.theBot (DryRun.run config DryRun.start events) in
  DryRun.totalTrades bot = DryRun.successfulTrades bot
  /\ DryRun.totalTrades bot
     = N.of_nat (length (filter DryRun.isBuy (DryRun.tradingResults bot))).
Proof.
  exact (proj2 (dry_reachable config events)).
Qed.

Lemma dry_wins_le_sells results :
  Forall (fun r => DryRun.isWinning r = true -> DryRun.isSell r = true) results ->
  (length (filter DryRun.isWinning results)
   <= length (filter DryRun.isSell results))%nat.
Proof.
  induction 1 as [|r rest Hr _ IH]; simpl; auto.
  destruct (DryRun.isWinning r) eqn:Ew.
  - rewrite (Hr eq_refl). simpl. lia.
  - destruct (DryRun.isSell r); simpl; lia.
Qed.

(** X21. In every state of the dry-run bot reached from its constructor
    the win rate returned by [getResults] is between 0 and 100: only sell
    records carry a profit, so the winning records are among the completed
    trades. *)
Theorem dry_win_rate_is_a_percentage config events :
  let r := DryRun.getResults (DryRun.theBot (DryRun.run config DryRun.start events)) in
  0 <= DryRun.winRate r /\ DryRun.winRate r <= 100.
Proof.
  cbv zeta. destruct (dry_reachable config events) as (Hp & _).
  apply dry_wins_le_sells in Hp.
  unfold DryRun.getResults. cbn [DryRun.winRate].
  destruct (Nat.ltb_spec 0
              (length (filter DryRun.isSell
                 (DryRun.tradingResults
                    (DryRun.theBot (DryRun.run config DryRun.start events))))));
    [|split; lra].
  now apply percentage_in_range.
Qed.

(** * Settlement when no asset is bought twice *)

Lemma buy_with_id_is_unique trades b b' :
  NoDup (buyIds trades) ->
  In b trades -> In b' trades ->
  isBuy b = true -> isBuy b' = true ->
  PaperTrade.id b = PaperTrade.id b' -> b = b'.
Proof.
  unfold buyIds. induction trades as [|x rest IH]; [contradiction|].
  intros Hnodup Hb Hb' Bb Bb' Hid. simpl in Hnodup.
  assert (Hin : forall y, In y rest -> isBuy y = true ->
                          In (PaperTrade.id y) (map PaperTrade.id (filter isBuy rest))).
  { intros y Hy By. apply in_map, filter_In. now split. }
  destruct Hb as [-> | Hb]; destruct Hb' as [-> | Hb']; auto.
  - rewrite Bb in Hnodup. inversion Hnodup as [|? ? Hnot _]; subst.
    exfalso. apply Hnot. rewrite Hid. now apply Hin.
  - rewrite Bb' in Hnodup. inversion Hnodup as [|? ? Hnot _]; subst.
    exfalso. apply Hnot. rewrite <- Hid. now apply Hin.
  - apply IH; auto. destruct (isBuy x); [now inversion Hnodup | exact Hnodup].
Qed.

Lemma isBuyWithId_found buyTradeId trades bt :
  find (isBuyWithId buyTradeId) trades = Some bt ->
  In bt trades /\ isBuy bt = true /\ PaperTrade.id bt = buyTradeId.
Proof.
  intros H. apply find_some in H. destruct H as (Hin & Hp).
  unfold isBuyWithId in Hp. apply andb_prop in Hp. destruct Hp as (Hid & Hb).
  repeat split; auto. now apply String.eqb_eq.
Qed.

Lemma sellIds_In trades s :
  In s trades -> isSell s = true -> In (PaperTrade.id s) (sellIds trades).
Proof.
  intros Hin Hs. unfold sellIds. apply in_map, filter_In. now split.
Qed.

Lemma In_sellIds trades i :
  In i (sellIds trades) ->
  exists s, In s trades /\ isSell s = true /\ PaperTrade.id s = i.
Proof.
  unfold sellIds. intros H. apply in_map_iff in H.
  destruct H as (s & Hid & Hin). apply filter_In in Hin.
  exists s. tauto.
Qed.

Lemma sellIsClosed_after_snoc bot bot' x s :
  paperTrades bot' = paperTrades bot ++ [x] ->
  (forall k, JsMap.get k (paperBalances bot) = None ->
             JsMap.get k (paperBalances bot') = None) ->
  sellIsClosed bot s -> sellIsClosed bot' s.
Proof.
  intros Hled Hbal H Hs. destruct (H Hs) as ((b & Hin & Hb) & Hnone).
  split; [|now apply Hbal].
  exists b. split; [|exact Hb]. rewrite Hled. apply in_or_app. now left.
Qed.

(** A Close for a mint and the id of a recorded Buy of that mint keeps the
    Sell ids distinct and every Sell closed. *)
Lemma close_keeps_single config d tokenMint buyTradeId bot b :
  NoDup (buyIds (paperTrades bot)) ->
  NoDup (sellIds (paperTrades bot)) ->
  Forall (sellIsClosed bot) (paperTrades bot) ->
  In b (paperTrades bot) -> isBuy b = true ->
  PaperTrade.id b = buyTradeId -> PaperTrade.token b = tokenMint ->
  let bot' := fst (executePaperSell config d tokenMint buyTradeId bot) in
  NoDup (sellIds (paperTrades bot'))
  /\ Forall (sellIsClosed bot') (paperTrades bot')
  /\ (forall m, neverBought bot m -> neverBought bot' m).
Proof.
  intros Hbuys Hsells Hclosed Hin Hb Hid Htok bot'.
  destruct (executePaperSell_cases config d tokenMint buyTradeId bot)
    as [E | (tb & bt & qb & Hget & Hfind & Hq)].
  { unfold bot'. rewrite E. auto. }
  destruct (isBuyWithId_found _ _ _ Hfind) as (Hbt_in & Hbt_buy & Hbt_id).
  assert (bt = b) by (apply (buy_with_id_is_unique (paperTrades bot)); congruence).
  subst bt.
  assert (Hbot' : exists x credit,
            paperTrades bot' = paperTrades bot ++ [x]
            /\ isSell x = true /\ isBuy x = false
            /\ PaperTrade.id x = ("sell_" ++ buyTradeId)%string
            /\ PaperTrade.token x = tokenMint
            /\ paperBalances bot'
               = JsMap.delete tokenMint
                   (JsMap.set (quoteSymbol config)
                      (PaperBalance.withAmount qb credit) (paperBalances bot))).
  { unfold bot'.
    rewrite (executePaperSell_settled config tokenMint buyTradeId bot d tb b qb
               Hget Hfind Hq).
    cbn [fst paperTrades paperBalances]. do 2 eexists.
    split; [reflexivity|]. repeat split. }
  destruct Hbot' as (x & credit & Hled & Hx_sell & Hx_buy & Hx_id & Hx_tok & Hbal).
  assert (Hnone : forall k, JsMap.get k (paperBalances bot) = None ->
                            JsMap.get k (paperBalances bot') = None).
  { intros k Hk. rewrite Hbal.
    destruct (String.eqb_spec tokenMint k) as [->|Hne];
      [apply JsMapFacts.get_delete_eq|].
    rewrite JsMapFacts.get_delete_ne by exact Hne.
    rewrite JsMapFacts.get_set_ne; [exact Hk|].
    intros E. rewrite E in Hq. congruence. }
  split; [|split].
  - rewrite Hled, sellIds_snoc, Hx_sell, Hx_id.
    apply (Permutation_NoDup (Permutation_cons_append _ _)).
    constructor; [|exact Hsells].
    intros Hdup. apply In_sellIds in Hdup.
    destruct Hdup as (s & Hs_in & Hs_sell & Hs_id).
    rewrite Forall_forall in Hclosed.
    destruct (Hclosed s Hs_in Hs_sell) as ((b' & Hb'_in & Hb'_buy & Hb'_id & Hb'_tok)
                                           & Hs_none).
    rewrite Hb'_id in Hs_id. apply append_cancel_l in Hs_id.
    assert (b' = b) by (apply (buy_with_id_is_unique (paperTrades bot)); congruence).
    subst b'. congruence.
  - rewrite Hled at 1. apply Forall_app. split.
    + eapply Forall_impl; [|exact Hclosed].
      intros s. now apply (sellIsClosed_after_snoc bot bot' _ s Hled Hnone).
    + constructor; [|constructor]. intros _. split.
      * exists b. split; [rewrite Hled; apply in_or_app; now left|].
        repeat split; congruence.
      * rewrite Hx_tok, Hbal. apply JsMapFacts.get_delete_eq.
  - intros m Hm. unfold neverBought in *. rewrite Hled.
    apply Forall_app. split; [exact Hm|].
    constructor; [|constructor]. congruence.
Qed.

Lemma step_singleSettlement config w e rest :
  NoDup (poolMints (e :: rest)) ->
  singleSettlement (e :: rest) w ->
  singleSettlement rest (step config w e).
Proof.
  intros Hmints (Hnum & Hsells & Hclosed & Hfresh).
  split; [now apply step_wellNumbered|].
  pose proof Hnum as (_ & Hbuys & _ & Htimers & _).
  destruct e as [poolState d | rawAccount d | n d |].
  - (* a pool event *)
    cbn [poolMints flat_map app] in Hmints, Hfresh.
    inversion Hmints as [|? ? Hnotin Hrest]; subst.
    inversion Hfresh as [|? ? Hmint Hfresh']; subst.
    unfold step, buy, absorb.
    destruct (executePaperBuy_cases config d poolState (theBot w))
      as [(E & _) | (qb & Hget & Hle)].
    + destruct (executePaperBuy config d poolState (theBot w)) as [bot' out].
      cbn [fst snd theBot] in *. subst bot'. auto.
    + rewrite (executePaperBuy_bought config d poolState (theBot w) qb Hget Hle).
      cbn [fst snd theBot paperTrades paperBalances].
      rewrite sellIds_snoc. cbn [isSell PaperTrade.action Action_eqb].
      rewrite app_nil_r. split; [exact Hsells|]. split.
      * apply Forall_app. split.
        -- rewrite Forall_forall in Hclosed |- *. intros s Hs_in Hs_sell.
           destruct (Hclosed s Hs_in Hs_sell) as ((b & Hb_in & Hb_buy & Hb_id & Hb_tok)
                                                  & Hnone).
           cbn [paperTrades paperBalances]. split.
           ++ exists b. split; [apply in_or_app; now left | auto].
           ++ unfold neverBought in Hmint. rewrite Forall_forall in Hmint.
              assert (PaperTrade.token s <> baseMint poolState)
                by (rewrite Hb_tok; now apply Hmint).
              rewrite JsMapFacts.get_set_ne by congruence.
              rewrite JsMapFacts.get_set_ne; [exact Hnone|].
              intros E. rewrite <- E in Hnone. congruence.
        -- constructor; [|constructor]. intros Hs. discriminate Hs.
      * rewrite Forall_forall in Hfresh' |- *. intros m Hm.
        unfold neverBought. cbn [paperTrades]. apply Forall_app. split.
        -- now apply Hfresh'.
        -- constructor; [|constructor]. cbn [PaperTrade.token]. intros _ E.
           apply Hnotin. now rewrite E.
  - (* an account event *)
    cbn [poolMints flat_map app] in Hmints, Hfresh.
    unfold step, absorb. cbn [theBot].
    destruct (sell_cases config d rawAccount (theBot w)) as [E | (bt & Hf & E)];
      rewrite E; [auto|].
    apply find_some in Hf. destruct Hf as (Hbt_in & Hp).
    unfold isUnsettledBuyOf in Hp.
    apply andb_prop in Hp. destruct Hp as (Hp & _).
    apply andb_prop in Hp. destruct Hp as (Htok & Hbuy).
    apply String.eqb_eq in Htok.
    destruct (close_keeps_single config d (mint rawAccount) (PaperTrade.id bt)
                (theBot w) bt Hbuys Hsells Hclosed Hbt_in Hbuy eq_refl Htok)
      as (H1 & H2 & H3).
    split; [exact H1|]. split; [exact H2|].
    eapply Forall_impl; [|exact Hfresh]. exact H3.
  - (* a timer fires *)
    cbn [poolMints flat_map app] in Hmints, Hfresh.
    unfold step.
    destruct (nth_error (pending w) n) as [t|] eqn:Hn; [|auto].
    unfold absorb. cbn [theBot].
    rewrite Forall_forall in Htimers.
    destruct (Htimers t (nth_error_In _ _ Hn)) as (b & Hb_in & Hb_buy & Hb_id & Hb_tok).
    destruct (close_keeps_single config d (timerMint t) (timerTradeId t)
                (theBot w) b Hbuys Hsells Hclosed Hb_in Hb_buy Hb_id Hb_tok)
      as (H1 & H2 & H3).
    split; [exact H1|]. split; [exact H2|].
    eapply Forall_impl; [|exact Hfresh]. exact H3.
  - (* a summary *)
    cbn [poolMints flat_map app] in Hmints, Hfresh.
    unfold step, absorb, printSummary. cbn [fst theBot]. auto.
Qed.

Lemma run_singleSettlement config events : forall w,
  NoDup (poolMints events) ->
  singleSettlement events w ->
  NoDup (sellIds (paperTrades (theBot (run config w events)))).
Proof.
  induction events as [|e rest IH]; intros w Hmints Hw; simpl.
  - now destruct Hw as (_ & H & _).
  - apply IH.
    + cbn [poolMints flat_map] in Hmints. now apply NoDup_app_remove_l in Hmints.
    + now apply step_singleSettlement.
Qed.

(** X22. When no mint occurs in two pool events, each Sell id occurs at
    most once in the ledger, in every run of pool events, account events,
    timer firings and summaries: a position is settled by whichever of the
    timer and [sell] comes first, and the other finds no balance entry. *)
Theorem single_buys_settle_at_most_once config events i :
  NoDup (poolMints events) ->
  (countWithId i isSell (paperTrades (theBot (run config (start config) events)))
   <= 1)%nat.
Proof.
  intros Hmints.
  assert (Hstart : singleSettlement events (start config)).
  { split; [apply start_wellNumbered|].
    assert (Hled : paperTrades (theBot (start config)) = []).
    { unfold start, absorb, initializePaperBalances.
      cbn -[String.eqb quoteSymbol]. now destruct (String.eqb _ _). }
    rewrite Hled. split; [constructor|]. split; [constructor|].
    apply Forall_forall. intros m _. unfold neverBought. rewrite Hled. constructor. }
  pose proof (run_singleSettlement config events (start config) Hmints Hstart) as H.
  rewrite countWithId_sellIds.
  now apply (proj1 (NoDup_count_occ string_dec _)).
Qed.

Lemma single_buys_settle_at_most_once_witness :
  (countWithId "sell_trade_1_1700000000000" isSell
     (paperTrades (theBot (run exampleConfig (start exampleConfig) singleBuyRun)))
   <= 1)%nat.
Proof.
  apply (single_buys_settle_at_most_once exampleConfig singleBuyRun).
  repeat constructor. intros [].
Defined.

(** * Binary64 arithmetic *)

(** ** Powers of two *)

Lemma pow2_pos (z : Z) : 0 < 2 ^ z.
Proof. apply Qpower_0_lt. reflexivity. Qed.

Lemma pow2_add (a b : Z) : 2 ^ (a + b) == 2 ^ a * 2 ^ b.
Proof. apply Qpower_plus. discriminate. Qed.

Lemma pow2_le (a b : Z) : (a <= b)%Z -> 2 ^ a <= 2 ^ b.
Proof. intros H. apply Qpower_le_compat_l; [exact H | discriminate]. Qed.

Lemma pow2_Z (n : Z) : (0 <= n)%Z -> inject_Z (2 ^ n) == 2 ^ n.
Proof. intros H. apply (Zpower_Qpower 2 n H). Qed.

Lemma pow2_succ (a : Z) : 2 ^ (a + 1) == 2 * 2 ^ a.
Proof. rewrite pow2_add. change (2 ^ 1) with 2. ring. Qed.

Lemma log2_bounds (a : Z) :
  (0 < a)%Z -> 2 ^ Z.log2 a <= inject_Z a /\ inject_Z a < 2 * 2 ^ Z.log2 a.
Proof.
  intros Ha.
  destruct (Z.log2_spec a Ha) as [Hlo Hhi].
  pose proof (Z.log2_nonneg a) as Hn.
  rewrite <- pow2_succ, <- !pow2_Z by lia.
  rewrite <- Zle_Qle, <- Zlt_Qlt.
  replace (Z.log2 a + 1)%Z with (Z.succ (Z.log2 a)) by lia.
  split; assumption.
Qed.

(** [ilog2] is the exponent of the binade of a positive rational. *)
Lemma ilog2_spec (q : Q) :
  0 < q -> 2 ^ Binary64.ilog2 q <= q /\ q < 2 ^ (Binary64.ilog2 q + 1).
Proof.
  intros Hq.
  destruct q as [a b].
  assert (Ha : (0 < a)%Z).
  { unfold Qlt in Hq. simpl in Hq. lia. }
  destruct (log2_bounds a Ha) as [Ha1 Ha2].
  destruct (log2_bounds (Zpos b) eq_refl) as [Hb1 Hb2].
  unfold Binary64.ilog2. cbn [Qnum Qden].
  set (la := Z.log2 a) in *. set (lb := Z.log2 (Zpos b)) in *.
  pose proof (pow2_pos la) as Pa. pose proof (pow2_pos lb) as Pb.
  assert (E : a # b == inject_Z a / inject_Z (Zpos b)) by apply Qmake_Qdiv.
  assert (Bpos : 0 < inject_Z (Zpos b)) by reflexivity.
  assert (Ek : 2 ^ (la - lb) * 2 ^ lb == 2 ^ la).
  { rewrite <- pow2_add. replace (la - lb + lb)%Z with la by lia. reflexivity. }
  assert (Eq : (a # b) * inject_Z (Zpos b) == inject_Z a).
  { rewrite E. field. intros H0. rewrite H0 in Bpos. discriminate. }
  set (q := a # b) in *. set (A := inject_Z a) in *. set (B := inject_Z (Zpos b)) in *.
  set (K := 2 ^ (la - lb)) in *.
  assert (Kpos : 0 < K) by apply pow2_pos.
  assert (Up : q < 2 * K).
  { apply Qmult_lt_r with (z := 2 ^ lb); [exact Pb|].
    apply Qle_lt_trans with (y := q * B).
    - apply Qmult_le_l; [exact Hq | exact Hb1].
    - rewrite Eq.
      setoid_replace (2 * K * 2 ^ lb) with (2 * 2 ^ la) by (rewrite <- Ek; ring).
      exact Ha2. }
  assert (Lo : K < 2 * q).
  { apply Qmult_lt_r with (z := 2 ^ lb); [exact Pb|].
    rewrite Ek.
    apply Qle_lt_trans with (y := A); [exact Ha1|].
    rewrite <- Eq.
    setoid_replace (2 * q * 2 ^ lb) with (q * (2 * 2 ^ lb)) by ring.
    apply Qmult_lt_l; [exact Hq | exact Hb2]. }
  destruct (Qle_bool K q) eqn:Hk.
  - apply Qle_bool_iff in Hk. split; [exact Hk|].
    rewrite pow2_succ. exact Up.
  - assert (Hlt : q < K).
    { apply Qnot_le_lt. intros H. apply Qle_bool_iff in H. congruence. }
    replace (la - lb - 1 + 1)%Z with (la - lb)%Z by lia.
    split; [|exact Hlt].
    assert (E2 : 2 * 2 ^ (la - lb - 1) == K).
    { rewrite <- pow2_succ. replace (la - lb - 1 + 1)%Z with (la - lb)%Z by lia.
      reflexivity. }
    lra.
Qed.

Lemma ilog2_unique (q : Q) (e : Z) :
  2 ^ e <= q -> q < 2 ^ (e + 1) -> Binary64.ilog2 q = e.
Proof.
  intros Hlo Hhi.
  assert (Hq : 0 < q) by (pose proof (pow2_pos e); lra).
  destruct (ilog2_spec q Hq) as [Slo Shi].
  destruct (Z.lt_trichotomy (Binary64.ilog2 q) e) as [H|[H|H]]; [|exact H|].
  - assert (2 ^ (Binary64.ilog2 q + 1) <= 2 ^ e) by (apply pow2_le; lia). lra.
  - assert (2 ^ (e + 1) <= 2 ^ Binary64.ilog2 q) by (apply pow2_le; lia). lra.
Qed.

Lemma ilog2_mono (x y : Q) :
  0 < x -> x <= y -> (Binary64.ilog2 x <= Binary64.ilog2 y)%Z.
Proof.
  intros Hx Hxy.
  destruct (ilog2_spec x Hx) as [Xlo Xhi].
  destruct (ilog2_spec y) as [Ylo Yhi]; [lra|].
  destruct (Z.le_gt_cases (Binary64.ilog2 x) (Binary64.ilog2 y)) as [H|H]; [exact H|].
  assert (2 ^ (Binary64.ilog2 y + 1) <= 2 ^ Binary64.ilog2 x) by (apply pow2_le; lia).
  lra.
Qed.

(** ** Rounding to the nearest integer *)

Lemma rne_floor (x : Q) : (Qfloor x <= Binary64.rne x <= Qfloor x + 1)%Z.
Proof.
  unfold Binary64.rne. destruct (Qcompare _ _); [destruct (Z.even _)| |]; lia.
Qed.

Lemma rne_mono (x y : Q) : x <= y -> (Binary64.rne x <= Binary64.rne y)%Z.
Proof.
  intros Hxy.
  pose proof (Qfloor_resp_le x y Hxy) as Hf.
  pose proof (rne_floor x) as Hx. pose proof (rne_floor y) as Hy.
  destruct (Z.eq_dec (Qfloor x) (Qfloor y)) as [E|NE]; [|lia].
  unfold Binary64.rne in *. rewrite E in *.
  destruct (Qcompare_spec (x - inject_Z (Qfloor y)) (1 # 2)) as [H1|H1|H1];
  destruct (Qcompare_spec (y - inject_Z (Qfloor y)) (1 # 2)) as [H2|H2|H2];
  try destruct (Z.even (Qfloor y)); try lia; lra.
Qed.

Lemma rne_integer (x : Q) (z : Z) : x == inject_Z z -> Binary64.rne x = z.
Proof.
  intros E. unfold Binary64.rne.
  assert (F : Qfloor x = z) by (rewrite E; apply Qfloor_Z).
  rewrite F.
  destruct (Qcompare_spec (x - inject_Z z) (1 # 2)) as [H|H|H];
    [lra | reflexivity | lra].
Qed.

(** ** Rounding to binary64 *)

Lemma ulp_pos (q : Q) : 0 < Binary64.ulp q.
Proof. apply pow2_pos. Qed.

Lemma roundPos_nonneg (x : Q) : 0 <= x -> 0 <= Binary64.roundPos x.
Proof.
  intros Hx. unfold Binary64.roundPos.
  pose proof (ulp_pos x) as Hu.
  assert (H0 : (0 <= Binary64.rne (x / Binary64.ulp x))%Z).
  { rewrite <- (rne_integer 0 0) by reflexivity. apply rne_mono.
    apply Qle_shift_div_l; [exact Hu | lra]. }
  apply Qmult_le_0_compat; [|lra].
  rewrite Zle_Qle in H0. exact H0.
Qed.

Lemma roundPos_zero (x : Q) : x == 0 -> Binary64.roundPos x == 0.
Proof.
  intros Hx. unfold Binary64.roundPos.
  rewrite (rne_integer (x / Binary64.ulp x) 0); [ring|].
  unfold Qdiv. rewrite (Qmult_comp _ _ Hx _ _ (Qeq_refl (/ Binary64.ulp x))). ring.
Qed.

(** A positive number is rounded into the closed binade it lies in. *)
Lemma roundPos_upper (x : Q) :
  0 < x ->
  Binary64.roundPos x <= 2 ^ (Z.max (Binary64.ilog2 x) Binary64.emin + 1).
Proof.
  intros Hx. unfold Binary64.roundPos, Binary64.ulp.
  set (e := Z.max (Binary64.ilog2 x) Binary64.emin).
  destruct (ilog2_spec x Hx) as [_ Hhi].
  assert (Hx' : x <= 2 ^ (e + 1)).
  { assert (2 ^ (Binary64.ilog2 x + 1) <= 2 ^ (e + 1)) by (apply pow2_le; lia).
    lra. }
  pose proof (pow2_pos (e - 52)) as Hu.
  assert (E : 2 ^ (e + 1) == inject_Z (2 ^ 53) * 2 ^ (e - 52)).
  { rewrite pow2_Z by lia. rewrite <- pow2_add.
    replace (53 + (e - 52))%Z with (e + 1)%Z by lia. reflexivity. }
  rewrite E. apply Qmult_le_compat_r; [|lra].
  rewrite <- Zle_Qle.
  assert (H : x / 2 ^ (e - 52) <= inject_Z (2 ^ 53)).
  { apply Qle_shift_div_r; [exact Hu|]. rewrite <- E. exact Hx'. }
  apply rne_mono in H.
  rewrite (rne_integer _ (2 ^ 53) (Qeq_refl _)) in H. exact H.
Qed.

Lemma roundPos_lower (x : Q) :
  0 < x -> (Binary64.emin <= Binary64.ilog2 x)%Z ->
  2 ^ Binary64.ilog2 x <= Binary64.roundPos x.
Proof.
  intros Hx He. unfold Binary64.roundPos, Binary64.ulp.
  rewrite Z.max_l by exact He.
  set (e := Binary64.ilog2 x).
  destruct (ilog2_spec x Hx) as [Hlo _]. fold e in Hlo.
  pose proof (pow2_pos (e - 52)) as Hu.
  assert (E : 2 ^ e == inject_Z (2 ^ 52) * 2 ^ (e - 52)).
  { rewrite pow2_Z by lia. rewrite <- pow2_add.
    replace (52 + (e - 52))%Z with e by lia. reflexivity. }
  rewrite E at 1. apply Qmult_le_compat_r; [|lra].
  rewrite <- Zle_Qle.
  assert (H : inject_Z (2 ^ 52) <= x / 2 ^ (e - 52)).
  { apply Qle_shift_div_l; [exact Hu|]. rewrite <- E. exact Hlo. }
  apply rne_mono in H.
  rewrite (rne_integer _ (2 ^ 52) (Qeq_refl _)) in H. exact H.
Qed.

Lemma roundPos_mono (x y : Q) :
  0 < x -> x <= y -> Binary64.roundPos x <= Binary64.roundPos y.
Proof.
  intros Hx Hxy.
  assert (Hy : 0 < y) by lra.
  pose proof (ilog2_mono x y Hx Hxy) as Hm.
  destruct (Z.eq_dec (Z.max (Binary64.ilog2 x) Binary64.emin)
                     (Z.max (Binary64.ilog2 y) Binary64.emin)) as [E|NE].
  - unfold Binary64.roundPos, Binary64.ulp. rewrite E.
    pose proof (pow2_pos (Z.max (Binary64.ilog2 y) Binary64.emin - 52)) as Hu.
    apply Qmult_le_compat_r; [|lra].
    rewrite <- Zle_Qle. apply rne_mono.
    apply Qmult_le_compat_r; [exact Hxy|].
    apply Qlt_le_weak, Qinv_lt_0_compat, Hu.
  - assert (He : (Binary64.emin <= Binary64.ilog2 y)%Z) by lia.
    apply Qle_trans with (y := 2 ^ (Z.max (Binary64.ilog2 x) Binary64.emin + 1)).
    + apply roundPos_upper, Hx.
    + apply Qle_trans with (y := 2 ^ Binary64.ilog2 y).
      * apply pow2_le. lia.
      * apply roundPos_lower; assumption.
Qed.

Lemma round_nonneg (x : Q) :
  0 <= x -> Binary64.round x == Binary64.roundPos x.
Proof.
  intros Hx. unfold Binary64.round. rewrite Qred_correct.
  apply Qle_bool_iff in Hx. rewrite Hx. reflexivity.
Qed.

Lemma round_negative (x : Q) :
  x < 0 -> Binary64.round x == - Binary64.roundPos (- x).
Proof.
  intros Hx. unfold Binary64.round. rewrite Qred_correct.
  destruct (Qle_bool 0 x) eqn:E; [|reflexivity].
  apply Qle_bool_iff in E. lra.
Qed.

(** Rounding is monotone. *)
Lemma round_le (x y : Q) : x <= y -> Binary64.round x <= Binary64.round y.
Proof.
  intros Hxy.
  destruct (Qlt_le_dec x 0) as [Hx|Hx]; destruct (Qlt_le_dec y 0) as [Hy|Hy].
  - rewrite !round_negative by assumption.
    assert (Binary64.roundPos (- y) <= Binary64.roundPos (- x))
      by (apply roundPos_mono; lra).
    lra.
  - rewrite round_negative, round_nonneg by assumption.
    pose proof (roundPos_nonneg (- x)). pose proof (roundPos_nonneg y).
    lra.
  - lra.
  - rewrite !round_nonneg by assumption.
    destruct (Qlt_le_dec 0 x) as [Hpos|Hzero].
    + apply roundPos_mono; assumption.
    + rewrite (roundPos_zero x) by lra. apply roundPos_nonneg. lra.
Qed.

(** A binary64 value below [1] is at most [1 - 2^-53]. *)
Lemma below_one (s : Q) :
  Binary64.round s == s -> s < 1 -> s <= 1 - 2 ^ (-53).
Proof.
  intros Hr H1.
  destruct (Qlt_le_dec (1 - 2 ^ (-53)) s) as [Hs|Hs]; [|exact Hs].
  exfalso.
  assert (He : Binary64.ilog2 s = (-1)%Z).
  { apply ilog2_unique.
    - apply Qle_trans with (y := 1 - 2 ^ (-53)); [discriminate | lra].
    - exact H1. }
  rewrite round_nonneg in Hr
    by (apply Qle_trans with (y := 1 - 2 ^ (-53)); [discriminate | lra]).
  unfold Binary64.roundPos, Binary64.ulp in Hr. rewrite He in Hr.
  change (2 ^ (Z.max (-1) Binary64.emin - 52)) with (2 ^ (-53)) in Hr.
  set (k := Binary64.rne (s / 2 ^ (-53))) in *.
  assert (Hk : (k < 2 ^ 53)%Z).
  { rewrite Zlt_Qlt.
    apply Qmult_lt_r with (z := 2 ^ (-53)); [reflexivity|].
    rewrite Hr.
    setoid_replace (inject_Z (2 ^ 53) * 2 ^ (-53)) with 1 by reflexivity.
    exact H1. }
  assert (Hk' : inject_Z k <= inject_Z (2 ^ 53 - 1)).
  { rewrite <- Zle_Qle. lia. }
  apply (Qmult_le_compat_r _ _ (2 ^ (-53))) in Hk'; [|discriminate].
  rewrite Hr in Hk'.
  assert (inject_Z (2 ^ 53 - 1) * 2 ^ (-53) == 1 - 2 ^ (-53)) by reflexivity.
  lra.
Qed.

(** ** The error of one rounding *)

Lemma rne_error (x : Q) :
  - (1 # 2) <= inject_Z (Binary64.rne x) - x <= 1 # 2.
Proof.
  pose proof (Qfloor_le x) as Hlo. pose proof (Qlt_floor x) as Hhi.
  rewrite inject_Z_plus in Hhi. change (inject_Z 1) with 1 in Hhi.
  unfold Binary64.rne.
  destruct (Qcompare_spec (x - inject_Z (Qfloor x)) (1 # 2)) as [H|H|H];
    [destruct (Z.even (Qfloor x))| |];
    rewrite ?inject_Z_plus; change (inject_Z 1) with 1; split; lra.
Qed.

Lemma roundPos_error (x : Q) :
  0 < x ->
  - Binary64.slack (Binary64.roundPos x) <= Binary64.roundPos x - x
  /\ Binary64.roundPos x - x <= Binary64.slack (Binary64.roundPos x).
Proof.
  intros Hx.
  pose proof (roundPos_nonneg x (Qlt_le_weak _ _ Hx)) as Hnn.
  assert (Half : - ((1 # 2) * Binary64.ulp x) <= Binary64.roundPos x - x
                 /\ Binary64.roundPos x - x <= (1 # 2) * Binary64.ulp x).
  { pose proof (ulp_pos x) as Hu.
    pose proof (rne_error (x / Binary64.ulp x)) as [E1 E2].
    unfold Binary64.roundPos.
    set (k := inject_Z (Binary64.rne (x / Binary64.ulp x))) in *.
    set (u := Binary64.ulp x) in *.
    assert (Ed : k * u - x == (k - x / u) * u) by (field; lra).
    rewrite Ed.
    apply (Qmult_le_compat_r _ _ u) in E1; [|lra].
    apply (Qmult_le_compat_r _ _ u) in E2; [|lra].
    set (d := (k - x / u) * u) in *. clearbody d k u.
    split; lra. }
  assert (Hs : (1 # 2) * Binary64.ulp x <= Binary64.slack (Binary64.roundPos x)).
  { unfold Binary64.slack. rewrite (Qabs_pos _ Hnn).
    unfold Binary64.ulp.
    destruct (Z.le_gt_cases Binary64.emin (Binary64.ilog2 x)) as [He|He].
    - rewrite Z.max_l by exact He.
      pose proof (roundPos_lower x Hx He) as Hl.
      assert (E : (1 # 2) * 2 ^ (Binary64.ilog2 x - 52)
                  == 2 ^ (-53) * 2 ^ Binary64.ilog2 x).
      { rewrite <- pow2_add.
        replace (-53 + Binary64.ilog2 x)%Z with ((Binary64.ilog2 x - 52 - 1) )%Z by lia.
        assert (E2 : 2 * 2 ^ (Binary64.ilog2 x - 52 - 1) == 2 ^ (Binary64.ilog2 x - 52)).
        { rewrite <- pow2_succ.
          replace (Binary64.ilog2 x - 52 - 1 + 1)%Z with (Binary64.ilog2 x - 52)%Z by lia.
          reflexivity. }
        rewrite <- E2. ring. }
      rewrite E.
      assert (P : 0 < 2 ^ (-53)) by apply pow2_pos.
      assert (0 <= 2 ^ (-1075)) by (apply Qlt_le_weak, pow2_pos).
      assert (2 ^ (-53) * 2 ^ Binary64.ilog2 x <= 2 ^ (-53) * Binary64.roundPos x)
        by (apply Qmult_le_l; assumption).
      lra.
    - rewrite Z.max_r by lia.
      assert (E : (1 # 2) * 2 ^ (Binary64.emin - 52) == 2 ^ (-1075)) by reflexivity.
      rewrite E.
      assert (P : 0 < 2 ^ (-53)) by apply pow2_pos.
      assert (0 <= 2 ^ (-53) * Binary64.roundPos x) by (apply Qmult_le_0_compat; lra).
      lra. }
  lra.
Qed.

Lemma slack_opp (b : Q) : Binary64.slack (- b) == Binary64.slack b.
Proof. unfold Binary64.slack. rewrite Qabs_opp. reflexivity. Qed.

Lemma slack_comp (a b : Q) : a == b -> Binary64.slack a == Binary64.slack b.
Proof. intros E. unfold Binary64.slack. rewrite E. reflexivity. Qed.

(** Rounding moves a number by at most the slack of the result. *)
Lemma round_error (x : Q) :
  Qabs (Binary64.round x - x) <= Binary64.slack (Binary64.round x).
Proof.
  apply Qabs_Qle_condition.
  assert (S0 : 0 <= Binary64.slack (Binary64.round x)).
  { unfold Binary64.slack.
    pose proof (Qabs_nonneg (Binary64.round x)).
    assert (0 < 2 ^ (-53)) by apply pow2_pos.
    assert (0 < 2 ^ (-1075)) by apply pow2_pos.
    assert (0 <= 2 ^ (-53) * Qabs (Binary64.round x)) by (apply Qmult_le_0_compat; lra).
    lra. }
  destruct (Qlt_le_dec 0 x) as [Hpos|Hle].
  - pose proof (round_nonneg x (Qlt_le_weak _ _ Hpos)) as E.
    rewrite (slack_comp _ _ E), E.
    apply roundPos_error, Hpos.
  - destruct (Qlt_le_dec x 0) as [Hneg|Hge].
    + pose proof (round_negative x Hneg) as E.
      rewrite (slack_comp _ _ E), E, slack_opp.
      destruct (roundPos_error (- x)) as [E1 E2]; [lra|].
      split; lra.
    + assert (Hz : x == 0) by lra.
      pose proof (round_nonneg x Hge) as E.
      pose proof (roundPos_zero x Hz) as E0.
      assert (R0 : Binary64.round x == 0) by (rewrite E; exact E0).
      split; lra.
Qed.

(** ** Agreement with the machine's binary64

    The rounding function is compared with the primitive binary64
    operations on corner cases of the format and on the computations that
    the statements below evaluate.  A decimal of the source is written
    here as a quotient of integers, which the machine rounds to the
    nearest binary64 value. *)

Module MachineCheck.
Import PrimFloat.

(** The four operators on the corner cases. *)
Example operators_on_the_machine :
  forallb (Machine.sameOnMachine Binary64.add PrimFloat.add) Machine.corners = true
  /\ forallb (Machine.sameOnMachine Binary64.sub PrimFloat.sub) Machine.corners = true
  /\ forallb (Machine.sameOnMachine Binary64.mul PrimFloat.mul) Machine.corners = true
  /\ forallb (Machine.sameOnMachine Binary64.div PrimFloat.div) Machine.corners = true.
Proof. repeat split; vm_compute; reflexivity. Qed.

(** The running sums of the scenario table. *)
Example running_sums_on_the_machine :
  Machine.ofFloat (0 + 4 / 10)%float = Some (Binary64.add 0 (Binary64.lit 0.4))
  /\ Machine.ofFloat (0 + 4 / 10 + 3 / 10)%float
     = Some (Binary64.add (Binary64.add 0 (Binary64.lit 0.4)) (Binary64.lit 0.3))
  /\ Machine.ofFloat (0 + 4 / 10 + 3 / 10 + 2 / 10)%float
     = Some (Binary64.add (Binary64.add (Binary64.add 0 (Binary64.lit 0.4))
                                        (Binary64.lit 0.3)) (Binary64.lit 0.2))
  /\ Machine.ofFloat (0 + 4 / 10 + 3 / 10 + 2 / 10 + 1 / 10)%float
     = Some (Binary64.add
               (Binary64.add (Binary64.add (Binary64.add 0 (Binary64.lit 0.4))
                                           (Binary64.lit 0.3)) (Binary64.lit 0.2))
               (Binary64.lit 0.1)).
Proof. repeat split; vm_compute; reflexivity. Qed.

(** The largest multipliers: a sample of [1 - 2^-53] reaches the upper end
    of the first and third range. *)
Example largest_sample_on_the_machine :
  Machine.ofFloat (1 / 10 + (1 - 1 / 9007199254740992) * (4 / 10))%float
  = Some (Binary64.add (Binary64.lit 0.1)
            (Binary64.mul (1 - 2 ^ (-53)) (Binary64.lit 0.4)))
  /\ Machine.ofFloat (13 / 10 + (1 - 1 / 9007199254740992) * (17 / 10))%float
     = Some (Binary64.add (Binary64.lit 1.3)
               (Binary64.mul (1 - 2 ^ (-53)) (Binary64.lit 1.7)))
  /\ Binary64.add (Binary64.lit 0.1)
       (Binary64.mul (1 - 2 ^ (-53)) (Binary64.lit 0.4)) = Binary64.lit 0.5
  /\ Binary64.add (Binary64.lit 1.3)
       (Binary64.mul (1 - 2 ^ (-53)) (Binary64.lit 1.7)) = 3.
Proof. repeat split; vm_compute; reflexivity. Qed.

(** The arithmetic of one Open at price draw [0.4] and of its Close at
    multiplier [1.5], buy amount [0.05] and slippage [2]. *)
Example end_to_end_on_the_machine :
  let price := (4 / 10 * (1 / 1000) + 1 / 10000)%float in
  let quantity := (5 / 100 / price)%float in
  let exit := (price * (13 / 10 + 2 / 17 * (17 / 10)))%float in
  let net := (quantity * exit * (1 - 2 / 100))%float in
  let gain := (net - 5 / 100)%float in
  Machine.ofFloat price = Some (Binary64.lit 0.0005)
  /\ Machine.ofFloat quantity = Some 100
  /\ Machine.ofFloat (1 - 5 / 100)%float = Some (Binary64.lit 0.95)
  /\ Machine.ofFloat exit = Some (Binary64.lit 0.00075)
  /\ Machine.ofFloat net = Some (Binary64.lit 0.0735)
  /\ Machine.ofFloat gain = Some (Binary64.lit 0.023499999999999993)
  /\ Machine.ofFloat (gain / (5 / 100) * 100)%float = Some (Binary64.lit 46.999999999999986)
  /\ Machine.ofFloat (1 - 5 / 100 + net)%float = Some (Binary64.lit 1.0234999999999999)
  /\ Machine.ofFloat (1 - (1 - 5 / 100))%float = Some (Binary64.lit 0.050000000000000044).
Proof. repeat split; vm_compute; reflexivity. Qed.

End MachineCheck.

(** ** Price movement simulator in binary64 *)

(** The running sums that the loop compares the draw with. *)
Lemma running_sums :
  Binary64.add 0 (Binary64.lit 0.4) = Binary64.lit 0.4
  /\ Binary64.add (Binary64.lit 0.4) (Binary64.lit 0.3) = Binary64.lit 0.7
  /\ Binary64.add (Binary64.lit 0.7) (Binary64.lit 0.2)
     = Binary64.lit 0.8999999999999999
  /\ Binary64.add (Binary64.lit 0.8999999999999999) (Binary64.lit 0.1)
     = Binary64.lit 0.9999999999999999
  /\ Binary64.lit 0.8999999999999999 < Binary64.lit 0.9
  /\ Binary64.lit 0.9999999999999999 == 1 - 2 ^ (-53).
Proof. repeat split; vm_compute; reflexivity. Qed.

(** A multiplier [base + sample * span] lies between [base] and
    [base + span], both ends included. *)
Lemma bucket_within (base span sample : number) :
  Binary64.round base == base -> Binary64.round span == span ->
  0 <= span -> 0 <= sample -> sample < 1 ->
  within base (Binary64.add base span)
         (Binary64.add base (Binary64.mul sample span)).
Proof.
  intros Hb Hs Hspan H0 H1.
  assert (Hlo : 0 <= Binary64.mul sample span).
  { change 0 with (Binary64.round 0). apply round_le. nra. }
  assert (Hhi : Binary64.mul sample span <= span).
  { rewrite <- Hs at 2. apply round_le. nra. }
  split.
  - rewrite <- Hb at 1. apply round_le. lra.
  - apply round_le. lra.
Qed.

(** For a binary64 sample the product [sample * span] is at most the
    rounding of [(1 - 2^-53) * span]. *)
Lemma bucket_within_top (base span sample : number) :
  Binary64.round base == base -> Binary64.round sample == sample ->
  0 <= span -> 0 <= sample -> sample < 1 ->
  within base
         (Binary64.add base (Binary64.mul (1 - 2 ^ (-53)) span))
         (Binary64.add base (Binary64.mul sample span)).
Proof.
  intros Hb Hs Hspan H0 H1.
  pose proof (below_one sample Hs H1) as Htop.
  assert (Hlo : 0 <= Binary64.mul sample span).
  { change 0 with (Binary64.round 0). apply round_le. nra. }
  assert (Hhi : Binary64.mul sample span <= Binary64.mul (1 - 2 ^ (-53)) span).
  { apply round_le. apply Qmult_le_compat_r; assumption. }
  split.
  - rewrite <- Hb at 1. apply round_le. lra.
  - apply round_le. lra.
Qed.

Lemma within_weaken (lo hi hi' x : number) :
  hi <= hi' -> within lo hi x -> within lo hi' x.
Proof. unfold within. intros H [H1 H2]. split; lra. Qed.

Ltac by_evaluation := vm_compute; first [reflexivity | discriminate].

(** The four multiplier ranges of the table, as the closures compute them. *)
Lemma multiplier_ranges (sample : number) :
  0 <= sample -> sample < 1 ->
  within (Binary64.lit 0.1) (Binary64.lit 0.5)
         (Binary64.add (Binary64.lit 0.1) (Binary64.mul sample (Binary64.lit 0.4)))
  /\ within (Binary64.lit 0.7) (Binary64.lit 1.3)
            (Binary64.add (Binary64.lit 0.7) (Binary64.mul sample (Binary64.lit 0.6)))
  /\ within (Binary64.lit 1.3) 3
            (Binary64.add (Binary64.lit 1.3) (Binary64.mul sample (Binary64.lit 1.7)))
  /\ within 3 15 (Binary64.add 3 (Binary64.mul sample 12)).
Proof.
  intros H0 H1. repeat split.
  - apply (bucket_within (Binary64.lit 0.1) (Binary64.lit 0.4) sample);
      try assumption; by_evaluation.
  - apply Qle_trans with (y := Binary64.add (Binary64.lit 0.1) (Binary64.lit 0.4));
      [|by_evaluation].
    apply (bucket_within (Binary64.lit 0.1) (Binary64.lit 0.4) sample);
      try assumption; by_evaluation.
  - apply (bucket_within (Binary64.lit 0.7) (Binary64.lit 0.6) sample);
      try assumption; by_evaluation.
  - apply Qle_trans with (y := Binary64.add (Binary64.lit 0.7) (Binary64.lit 0.6));
      [|by_evaluation].
    apply (bucket_within (Binary64.lit 0.7) (Binary64.lit 0.6) sample);
      try assumption; by_evaluation.
  - apply (bucket_within (Binary64.lit 1.3) (Binary64.lit 1.7) sample);
      try assumption; by_evaluation.
  - apply Qle_trans with (y := Binary64.add (Binary64.lit 1.3) (Binary64.lit 1.7));
      [|by_evaluation].
    apply (bucket_within (Binary64.lit 1.3) (Binary64.lit 1.7) sample);
      try assumption; by_evaluation.
  - apply (bucket_within 3 12 sample); try assumption; by_evaluation.
  - apply Qle_trans with (y := Binary64.add 3 12); [|by_evaluation].
    apply (bucket_within 3 12 sample); try assumption; by_evaluation.
Qed.

(** C6. [simulatePriceMovement] is a total function of its two draws.  In
    binary64 the loop compares the draw with the running sums [0.4], [0.7],
    [0.8999999999999999] and [0.9999999999999999]; for a bucket sample in
    [[0,1)] it returns a multiplier in the range of the first scenario whose
    running sum is at least the draw, both ends of the range included, or
    exactly [1] when no scenario matches, and the result is positive. *)
Theorem simulatePriceMovement_within_bucket (random sample : number) :
  0 <= sample -> sample < 1 ->
  let m := Binary64.simulatePriceMovement random sample in
  0 < m
  /\ (   (random <= Binary64.lit 0.4
          /\ within (Binary64.lit 0.1) (Binary64.lit 0.5) m)
      \/ (Binary64.lit 0.4 < random /\ random <= Binary64.lit 0.7
          /\ within (Binary64.lit 0.7) (Binary64.lit 1.3) m)
      \/ (Binary64.lit 0.7 < random /\ random <= Binary64.lit 0.8999999999999999
          /\ within (Binary64.lit 1.3) 3 m)
      \/ (Binary64.lit 0.8999999999999999 < random
          /\ random <= Binary64.lit 0.9999999999999999
          /\ within 3 15 m)
      \/ (Binary64.lit 0.9999999999999999 < random /\ m = 1)).
Proof.
  intros H0 H1 m.
  destruct (multiplier_ranges sample H0 H1) as (R1 & R2 & R3 & R4).
  destruct running_sums as (S1 & S2 & S3 & S4 & _).
  assert (P1 : 0 < Binary64.lit 0.1) by by_evaluation.
  assert (P2 : 0 < Binary64.lit 0.7) by by_evaluation.
  assert (P3 : 0 < Binary64.lit 1.3) by by_evaluation.
  unfold m, Binary64.simulatePriceMovement, Binary64.scenarios.
  cbn [Binary64.scenarioLoop probability multiplier].
  rewrite S1.
  destruct (num_le random (Binary64.lit 0.4)) eqn:E1;
    [apply num_le_true in E1 | apply num_le_false in E1].
  { split; [destruct R1; lra|]. left. split; assumption. }
  rewrite S2.
  destruct (num_le random (Binary64.lit 0.7)) eqn:E2;
    [apply num_le_true in E2 | apply num_le_false in E2].
  { split; [destruct R2; lra|]. right; left. repeat split; try assumption; apply R2. }
  rewrite S3.
  destruct (num_le random (Binary64.lit 0.8999999999999999)) eqn:E3;
    [apply num_le_true in E3 | apply num_le_false in E3].
  { split; [destruct R3; lra|].
    right; right; left. repeat split; try assumption; apply R3. }
  rewrite S4.
  destruct (num_le random (Binary64.lit 0.9999999999999999)) eqn:E4;
    [apply num_le_true in E4 | apply num_le_false in E4].
  { split; [destruct R4; lra|].
    right; right; right; left. repeat split; try assumption; apply R4. }
  split; [reflexivity|].
  right; right; right; right. split; [assumption | reflexivity].
Qed.

(** The draw [0.9] is above the third running sum and lands in the fourth
    scenario. *)
Lemma simulatePriceMovement_within_bucket_witness :
  within 3 15 (Binary64.simulatePriceMovement (Binary64.lit 0.9) (Binary64.lit 0.5)).
Proof.
  destruct (simulatePriceMovement_within_bucket (Binary64.lit 0.9) (Binary64.lit 0.5))
    as (_ & [(H & _) | [(_ & H & _) | [(_ & H & _) | [(_ & _ & H) | (H & _)]]]]).
  - by_evaluation.
  - by_evaluation.
  - exfalso. revert H. vm_compute. intros H. apply H. reflexivity.
  - exfalso. revert H. vm_compute. intros H. apply H. reflexivity.
  - exfalso. revert H. vm_compute. intros H. apply H. reflexivity.
  - exact H.
  - exfalso. revert H. vm_compute. discriminate.
Defined.

(** At the thresholds: the binary64 value [0.4] is the first running sum
    and belongs to the first scenario; the draw [0.9] belongs to the
    fourth; and the largest sample [1 - 2^-53] reaches the upper end of
    the first and of the third range. *)
Lemma simulatePriceMovement_at_the_thresholds :
  Binary64.simulatePriceMovement (Binary64.lit 0.4) (Binary64.lit 0.25)
  = Binary64.lit 0.2
  /\ Binary64.simulatePriceMovement (Binary64.lit 0.9) (Binary64.lit 0.5) = 9
  /\ Binary64.simulatePriceMovement (Binary64.lit 0.2) (1 - 2 ^ (-53))
     = Binary64.lit 0.5
  /\ Binary64.simulatePriceMovement (Binary64.lit 0.8) (1 - 2 ^ (-53)) = 3.
Proof. repeat split; vm_compute; reflexivity. Qed.

(** A draw that is a binary64 value below [1] is at most the last running
    sum, so it always matches a scenario. *)
Lemma draw_below_one_matches (random : number) :
  Binary64.round random == random -> random < 1 ->
  random <= Binary64.lit 0.9999999999999999.
Proof.
  intros Hr H1.
  destruct running_sums as (_ & _ & _ & _ & _ & E).
  rewrite E. apply below_one; assumption.
Qed.

(** The four multiplier ranges of the exported table.  The second one
    needs the sample to be a binary64 value: [0.8 + 0.4] rounds above
    [1.2], while [0.8 + sample * 0.4] does not for the largest sample. *)
Lemma exported_multiplier_ranges (sample : number) :
  Binary64.round sample == sample -> 0 <= sample -> sample < 1 ->
  within (Binary64.lit 0.3) (Binary64.lit 0.7)
         (Binary64.add (Binary64.lit 0.3) (Binary64.mul sample (Binary64.lit 0.4)))
  /\ within (Binary64.lit 0.8) (Binary64.lit 1.2)
            (Binary64.add (Binary64.lit 0.8) (Binary64.mul sample (Binary64.lit 0.4)))
  /\ within (Binary64.lit 1.2) 2
            (Binary64.add (Binary64.lit 1.2) (Binary64.mul sample (Binary64.lit 0.8)))
  /\ within 2 10 (Binary64.add 2 (Binary64.mul sample 8)).
Proof.
  intros Hs H0 H1. repeat split.
  - apply (bucket_within (Binary64.lit 0.3) (Binary64.lit 0.4) sample);
      try assumption; by_evaluation.
  - apply Qle_trans with (y := Binary64.add (Binary64.lit 0.3) (Binary64.lit 0.4));
      [|by_evaluation].
    apply (bucket_within (Binary64.lit 0.3) (Binary64.lit 0.4) sample);
      try assumption; by_evaluation.
  - apply (bucket_within (Binary64.lit 0.8) (Binary64.lit 0.4) sample);
      try assumption; by_evaluation.
  - apply Qle_trans
      with (y := Binary64.add (Binary64.lit 0.8)
                   (Binary64.mul (1 - 2 ^ (-53)) (Binary64.lit 0.4)));
      [|by_evaluation].
    apply (bucket_within_top (Binary64.lit 0.8) (Binary64.lit 0.4) sample);
      try assumption; by_evaluation.
  - apply (bucket_within (Binary64.lit 1.2) (Binary64.lit 0.8) sample);
      try assumption; by_evaluation.
  - apply Qle_trans with (y := Binary64.add (Binary64.lit 1.2) (Binary64.lit 0.8));
      [|by_evaluation].
    apply (bucket_within (Binary64.lit 1.2) (Binary64.lit 0.8) sample);
      try assumption; by_evaluation.
  - apply (bucket_within 2 8 sample); try assumption; by_evaluation.
  - apply Qle_trans with (y := Binary64.add 2 8); [|by_evaluation].
    apply (bucket_within 2 8 sample); try assumption; by_evaluation.
Qed.

(** X15. The simulator of the exported class, in binary64: for a binary64
    sample in [[0,1)] it returns a multiplier in the range of the first
    scenario whose running sum ([0.4], [0.7], [0.8999999999999999],
    [0.9999999999999999]) is at least the draw, the ranges being
    [[0.3,0.7]], [[0.8,1.2]], [[1.2,2]] and [[2,10]] with both ends
    included, or [1] when no scenario matches; so it lies between [0.3]
    and [10]. *)
Theorem exported_simulatePriceMovement_within_bucket (random sample : number) :
  Binary64.round sample == sample -> 0 <= sample -> sample < 1 ->
  let m := Binary64.ExportedBot.simulatePriceMovement random sample in
  (Binary64.lit 0.3 <= m /\ m <= 10)
  /\ (   (random <= Binary64.lit 0.4
          /\ within (Binary64.lit 0.3) (Binary64.lit 0.7) m)
      \/ (Binary64.lit 0.4 < random /\ random <= Binary64.lit 0.7
          /\ within (Binary64.lit 0.8) (Binary64.lit 1.2) m)
      \/ (Binary64.lit 0.7 < random /\ random <= Binary64.lit 0.8999999999999999
          /\ within (Binary64.lit 1.2) 2 m)
      \/ (Binary64.lit 0.8999999999999999 < random
          /\ random <= Binary64.lit 0.9999999999999999
          /\ within 2 10 m)
      \/ (Binary64.lit 0.9999999999999999 < random /\ m = 1)).
Proof.
  intros Hs H0 H1 m.
  destruct (exported_multiplier_ranges sample Hs H0 H1) as (R1 & R2 & R3 & R4).
  destruct running_sums as (S1 & S2 & S3 & S4 & _).
  assert (P1 : Binary64.lit 0.3 <= Binary64.lit 0.8) by by_evaluation.
  assert (P2 : Binary64.lit 0.3 <= Binary64.lit 1.2) by by_evaluation.
  assert (P3 : Binary64.lit 0.3 <= 1) by by_evaluation.
  assert (Q1 : Binary64.lit 0.7 <= 10) by by_evaluation.
  assert (Q2 : Binary64.lit 1.2 <= 10) by by_evaluation.
  unfold m, Binary64.ExportedBot.simulatePriceMovement, Binary64.ExportedBot.scenarios.
  cbn [Binary64.scenarioLoop probability multiplier].
  rewrite S1.
  destruct (num_le random (Binary64.lit 0.4)) eqn:E1;
    [apply num_le_true in E1 | apply num_le_false in E1].
  { split; [destruct R1; split; lra|]. left. split; assumption. }
  rewrite S2.
  destruct (num_le random (Binary64.lit 0.7)) eqn:E2;
    [apply num_le_true in E2 | apply num_le_false in E2].
  { split; [destruct R2; split; lra|].
    right; left. repeat split; try assumption; apply R2. }
  rewrite S3.
  destruct (num_le random (Binary64.lit 0.8999999999999999)) eqn:E3;
    [apply num_le_true in E3 | apply num_le_false in E3].
  { split; [destruct R3; split; lra|].
    right; right; left. repeat split; try assumption; apply R3. }
  rewrite S4.
  destruct (num_le random (Binary64.lit 0.9999999999999999)) eqn:E4;
    [apply num_le_true in E4 | apply num_le_false in E4].
  { split; [destruct R4; split; lra|].
    right; right; right; left. repeat split; try assumption; apply R4. }
  split; [split; [exact P3 | by_evaluation]|].
  right; right; right; right. split; [assumption | reflexivity].
Qed.

(** The largest sample reaches the upper end [10] of the fourth range. *)
Lemma exported_simulatePriceMovement_within_bucket_witness :
  Binary64.lit 0.3
    <= Binary64.ExportedBot.simulatePriceMovement (Binary64.lit 0.9) (1 - 2 ^ (-53))
  /\ Binary64.ExportedBot.simulatePriceMovement (Binary64.lit 0.9) (1 - 2 ^ (-53))
     <= 10.
Proof.
  refine (proj1 (exported_simulatePriceMovement_within_bucket
                   (Binary64.lit 0.9) (1 - 2 ^ (-53)) _ _ _));
    [by_evaluation | by_evaluation | by_evaluation].
Defined.

(** ** The end-to-end example in binary64 *)

(** Closed statements are evaluated conjunct by conjunct, the witnesses of
    an existential being read off the first conjunct that fixes them. *)
Ltac evaluate :=
  lazymatch goal with
  | |- _ /\ _ => split; [evaluate | evaluate]
  | |- exists _, _ => eexists; evaluate
  | |- _ => by_evaluation
  end.

(** C2 does not hold of the numbers the code stores: at the input of the
    example the profit, the profit percent, the total profit and the final
    quote balance are not the decimals [0.0235], [47] and [1.0235], neither
    as rationals nor as the binary64 values nearest to them. *)
Lemma end_to_end_decimals_are_not_stored :
  exists buyTrade sellTrade gain percent,
    paperTrades (theBot Binary64.afterClose) = [buyTrade; sellTrade]
    /\ PaperTrade.price buyTrade = Binary64.lit 0.0005
    /\ PaperTrade.quoteAmount buyTrade = Binary64.lit 0.05
    /\ Binary64.simulatePriceMovement (Binary64.lit 0.8) (Binary64.lit (2 # 17))
       = Binary64.lit 1.5
    /\ PaperTrade.profit sellTrade = Some gain
    /\ ~ gain == 0.0235 /\ gain <> Binary64.lit 0.0235
    /\ PaperTrade.profitPercent sellTrade = Some percent
    /\ ~ percent == 47
    /\ ~ totalPaperProfit (theBot Binary64.afterClose) == 0.0235
    /\ totalPaperProfit (theBot Binary64.afterClose) <> Binary64.lit 0.0235
    /\ ~ currentQuoteBalance Binary64.exampleConfig (theBot Binary64.afterClose)
         == 1.0235
    /\ currentQuoteBalance Binary64.exampleConfig (theBot Binary64.afterClose)
       <> Binary64.lit 1.0235.
Proof.
  evaluate.
Qed.

(** C2, amended.  The end-to-end example in binary64: initial balance [1],
    buy amount [0.05], acquisition price [0.0005], slippage [2] percent,
    multiplier [1.5].  The quote balance after Open, the asset quantity,
    the exit price and the gross and net proceeds are the binary64 values
    of the stated decimals; the profit, the profit percent and the final
    balance are those of the stated formulas, [0.023499999999999993],
    [46.999999999999986] and [1.0234999999999999], each just below the
    stated decimal. *)
Theorem end_to_end_in_binary64 :
  currentQuoteBalance Binary64.exampleConfig (theBot (start Binary64.exampleConfig)) = 1
  /\ currentQuoteBalance Binary64.exampleConfig (theBot Binary64.afterOpen)
     = Binary64.lit 0.95
  /\ (exists position,
        JsMap.get mintA (paperBalances (theBot Binary64.afterOpen)) = Some position
        /\ PaperBalance.amount position = 100)
  /\ Binary64.simulatePriceMovement (Binary64.lit 0.8) (Binary64.lit (2 # 17))
     = Binary64.lit 1.5
  /\ (exists buyTrade sellTrade gain percent,
        paperTrades (theBot Binary64.afterClose) = [buyTrade; sellTrade]
        /\ PaperTrade.price buyTrade = Binary64.lit 0.0005
        /\ PaperTrade.quoteAmount buyTrade = Binary64.lit 0.05
        /\ PaperTrade.id sellTrade = ("sell_" ++ PaperTrade.id buyTrade)%string
        (* exit price *)
        /\ PaperTrade.price sellTrade = Binary64.lit 0.00075
        /\ PaperTrade.price sellTrade = Binary64.mul (PaperTrade.price buyTrade) (Binary64.lit 1.5)
        (* gross proceeds *)
        /\ Binary64.mul (PaperTrade.tokenAmount sellTrade) (PaperTrade.price sellTrade)
           = Binary64.lit 0.075
        (* net proceeds *)
        /\ PaperTrade.quoteAmount sellTrade = Binary64.lit 0.0735
        /\ PaperTrade.quoteAmount sellTrade
           = Binary64.mul
               (Binary64.mul (PaperTrade.tokenAmount sellTrade)
                             (PaperTrade.price sellTrade))
               (Binary64.sub 1 (Binary64.div 2 100))
        (* profit *)
        /\ PaperTrade.profit sellTrade = Some gain
        /\ gain = Binary64.lit 0.023499999999999993
        /\ gain = Binary64.sub (PaperTrade.quoteAmount sellTrade)
                               (PaperTrade.quoteAmount buyTrade)
        /\ 0.0235 - (1 # 100000000000000000) < gain < 0.0235
        (* profit percent *)
        /\ PaperTrade.profitPercent sellTrade = Some percent
        /\ percent = Binary64.lit 46.999999999999986
        /\ percent
           = Binary64.mul (Binary64.div gain (PaperTrade.quoteAmount buyTrade)) 100
        /\ 47 - (1 # 10000000000000) < percent < 47
        /\ totalPaperProfit (theBot Binary64.afterClose) = gain
        (* the quote asset is credited with the net proceeds *)
        /\ currentQuoteBalance Binary64.exampleConfig (theBot Binary64.afterClose)
           = Binary64.add
               (currentQuoteBalance Binary64.exampleConfig (theBot Binary64.afterOpen))
               (PaperTrade.quoteAmount sellTrade))
  /\ currentQuoteBalance Binary64.exampleConfig (theBot Binary64.afterClose)
     = Binary64.lit 1.0234999999999999
  /\ 1.0235 - (1 # 1000000000000000)
     < currentQuoteBalance Binary64.exampleConfig (theBot Binary64.afterClose)
     < 1.0235
  /\ JsMap.get mintA (paperBalances (theBot Binary64.afterClose)) = None.
Proof.
  evaluate.
Qed.

(** ** The quote balance and the ledger in binary64 *)

Arguments Binary64.round : simpl never.
Arguments Binary64.add : simpl never.
Arguments Binary64.sub : simpl never.
Arguments Binary64.mul : simpl never.
Arguments Binary64.div : simpl never.

(** C7 does not hold as an equality, in two ways.  After the single buy of
    the end-to-end example the equation is off by the rounding of the debit:
    [1 - 0.95] is [0.050000000000000044] against a buy of [0.05], whether
    the left side is evaluated exactly or in binary64.  And for a quote
    symbol that the constructor does not fund the current balance is read
    as [0] from the first state on, so the left side is the initial balance
    [1] against no buy at all. *)
Lemma conservation_fails :
  (let bot := theBot Binary64.afterOpen in
   initialBalance bot = 1
   /\ currentQuoteBalance Binary64.exampleConfig bot = Binary64.lit 0.95
   /\ sumQuote isSell (paperTrades bot) = 0
   /\ sumQuote isBuy (paperTrades bot) == Binary64.lit 0.05
   /\ ~ conserves Binary64.exampleConfig bot
   /\ Binary64.add
        (Binary64.sub (initialBalance bot)
                      (currentQuoteBalance Binary64.exampleConfig bot))
        (sumQuote isSell (paperTrades bot))
      = Binary64.lit 0.050000000000000044
   /\ Binary64.lit 0.05 < Binary64.lit 0.050000000000000044)
  /\ (let bot := theBot (start wsolConfig) in
      initialBalance bot = 1
      /\ currentQuoteBalance wsolConfig bot = 0
      /\ paperTrades bot = []
      /\ ~ conserves wsolConfig bot).
Proof.
  cbv zeta. unfold conserves. evaluate.
Qed.

Lemma replay_snoc initial trades t :
  Binary64.replay initial (trades ++ [t])
  = Binary64.replayTrade (Binary64.replay initial trades) t.
Proof. unfold Binary64.replay. rewrite fold_left_app. reflexivity. Qed.

Section Replay.

Variable config : BotConfig.t.

Let symbol := quoteSymbol config.

Lemma binary64_buy_replays d poolState bot :
  baseMint poolState <> symbol ->
  replays config bot ->
  replays config (fst (Binary64.executePaperBuy config d poolState bot)).
Proof.
  unfold symbol. intros Hne (Hsome & Heq).
  unfold Binary64.executePaperBuy.
  destruct (JsMap.get (quoteSymbol config) (paperBalances bot))
    as [qb|] eqn:Hget; [clear Hsome | contradiction].
  destruct (num_lt (PaperBalance.amount qb) (BotConfig.quoteAmount config)).
  { split; [cbn [fst]; congruence | exact Heq]. }
  unfold replays, currentQuoteBalance in *. cbn [fst paperBalances paperTrades initialBalance].
  rewrite Hget in Heq.
  rewrite JsMapFacts.get_set_ne by exact Hne.
  rewrite JsMapFacts.get_set_eq.
  split; [discriminate|].
  rewrite replay_snoc. unfold Binary64.replayTrade.
  cbn [PaperTrade.action PaperTrade.quoteAmount PaperBalance.amount
       PaperBalance.withAmount].
  rewrite Heq. reflexivity.
Qed.

Lemma binary64_close_replays d tokenMint buyTradeId bot :
  tokenMint <> symbol ->
  replays config bot ->
  replays config (fst (Binary64.executePaperSell config d tokenMint buyTradeId bot)).
Proof.
  unfold symbol. intros Hne (Hsome & Heq).
  unfold Binary64.executePaperSell.
  destruct (JsMap.get tokenMint (paperBalances bot)) as [tb|]; [|now split].
  destruct (find (isBuyWithId buyTradeId) (paperTrades bot)) as [bt|]; [|now split].
  unfold Binary64.settle.
  destruct (JsMap.get (quoteSymbol config) (paperBalances bot))
    as [qb|] eqn:Hget; [clear Hsome | contradiction].
  unfold replays, currentQuoteBalance in *.
  cbn [fst paperBalances paperTrades initialBalance].
  rewrite Hget in Heq.
  rewrite JsMapFacts.get_delete_ne by exact Hne.
  rewrite JsMapFacts.get_set_eq.
  split; [discriminate|].
  rewrite replay_snoc. unfold Binary64.replayTrade.
  cbn [PaperTrade.action PaperTrade.quoteAmount PaperBalance.amount
       PaperBalance.withAmount].
  rewrite Heq. reflexivity.
Qed.

Lemma binary64_sell_replays d rawAccount bot :
  mint rawAccount <> symbol ->
  replays config bot ->
  replays config (fst (Binary64.sell config d rawAccount bot)).
Proof.
  intros Hne Hbal. unfold Binary64.sell.
  destruct (JsMap.get (mint rawAccount) (paperBalances bot)); auto.
  destruct (find _ (paperTrades bot)) as [bt|]; auto.
  pose proof (binary64_close_replays d (mint rawAccount) (PaperTrade.id bt)
                bot Hne Hbal) as H.
  destruct (Binary64.executePaperSell config d (mint rawAccount) (PaperTrade.id bt) bot).
  exact H.
Qed.

Lemma binary64_armed_by_buy d poolState bot :
  Forall (fun t => timerMint t = baseMint poolState)
         (armed (snd (Binary64.buy config d poolState bot))).
Proof.
  unfold Binary64.buy, Binary64.executePaperBuy.
  destruct (JsMap.get _ _) as [qb|]; [|constructor].
  destruct (num_lt _ _); [constructor|]. cbn [snd armed].
  destruct (BotConfig.autoSell config); repeat constructor.
Qed.

Lemma binary64_armed_by_close d tokenMint buyTradeId bot :
  armed (snd (Binary64.executePaperSell config d tokenMint buyTradeId bot)) = [].
Proof.
  unfold Binary64.executePaperSell, Binary64.settle.
  destruct (JsMap.get tokenMint _); auto.
  destruct (find _ _); auto.
  destruct (JsMap.get (quoteSymbol config) _); auto.
Qed.

(** The invariant of a run: the balance replays the ledger and no pending
    timer carries the quote symbol as its mint. *)
Lemma binary64_step_replays w e :
  eventMint e <> Some symbol ->
  replays config (theBot w)
  /\ Forall (fun t => timerMint t <> symbol) (pending w) ->
  replays config (theBot (Binary64.step config w e))
  /\ Forall (fun t => timerMint t <> symbol) (pending (Binary64.step config w e)).
Proof.
  intros Hev (Hbal & Htimers).
  destruct e as [poolState d | rawAccount d | n d |]; cbn [Binary64.step eventMint] in *.
  - assert (Hne : baseMint poolState <> symbol) by congruence.
    split; cbn [absorb theBot pending].
    + unfold Binary64.buy.
      pose proof (binary64_buy_replays d poolState _ Hne Hbal) as H.
      destruct (Binary64.executePaperBuy config d poolState (theBot w)). exact H.
    + apply Forall_app. split; [exact Htimers|].
      eapply Forall_impl; [|apply binary64_armed_by_buy].
      intros t Ht E. apply Hne. unfold symbol. congruence.
  - assert (Hne : mint rawAccount <> symbol) by congruence.
    split; cbn [absorb theBot pending].
    + now apply binary64_sell_replays.
    + apply Forall_app. split; [exact Htimers|].
      unfold Binary64.sell.
      destruct (JsMap.get _ _); [|constructor].
      destruct (find _ _) as [bt|]; [|constructor].
      pose proof (binary64_armed_by_close d (mint rawAccount) (PaperTrade.id bt)
                    (theBot w)) as H.
      destruct (Binary64.executePaperSell _ _ _ _ _). cbn [snd armed] in *.
      rewrite H. constructor.
  - destruct (nth_error (pending w) n) as [t|] eqn:Hn; [|now split].
    assert (Hne : timerMint t <> symbol).
    { apply nth_error_In in Hn. rewrite Forall_forall in Htimers. auto. }
    split; cbn [absorb theBot pending].
    + now apply binary64_close_replays.
    + apply Forall_app. split.
      * now apply removeNth_Forall.
      * rewrite binary64_armed_by_close. constructor.
  - split; cbn [absorb theBot pending Binary64.printSummary fst snd say armed];
      [exact Hbal|].
    rewrite app_nil_r. exact Htimers.
Qed.

Lemma binary64_run_replays events : forall w,
  mintsApart config events ->
  replays config (theBot w)
  /\ Forall (fun t => timerMint t <> symbol) (pending w) ->
  replays config (theBot (Binary64.run config w events)).
Proof.
  induction events as [|e rest IH]; intros w Hev Hw; cbn [Binary64.run fold_left].
  - apply Hw.
  - inversion Hev as [|? ? He Hrest]; subst.
    apply IH; [exact Hrest|]. now apply binary64_step_replays.
Qed.

Lemma start_replays :
  funded config -> replays config (theBot (start config)).
Proof.
  unfold funded, replays. intros Hfunded. split; [exact Hfunded|].
  unfold currentQuoteBalance, Binary64.replay.
  revert Hfunded. unfold start, absorb, initializePaperBalances.
  cbn -[String.eqb quoteSymbol].
  destruct (String.eqb_spec (quoteSymbol config) "USDC") as [->|Hne];
    cbn -[String.eqb quoteSymbol].
  - intros _. reflexivity.
  - destruct (String.eqb_spec "SOL" (quoteSymbol config)) as [Hsol|Hsol];
      cbn -[String.eqb quoteSymbol].
    + intros _. reflexivity.
    + intros H. now contradiction H.
Qed.

End Replay.

(** ** The conservation equation up to rounding *)

(** The exact net flow of a ledger: net proceeds of its Sells minus quote
    amounts of its Buys. *)
Lemma sumQuote_cons_buy t rest :
  PaperTrade.action t = buy_action ->
  sumQuote isBuy (t :: rest) == PaperTrade.quoteAmount t + sumQuote isBuy rest
  /\ sumQuote isSell (t :: rest) == sumQuote isSell rest.
Proof.
  intros Ha. unfold sumQuote, isBuy, isSell. cbn [filter]. rewrite Ha.
  cbn [Action_eqb fold_right]. split; reflexivity.
Qed.

Lemma sumQuote_cons_sell t rest :
  PaperTrade.action t = sell_action ->
  sumQuote isSell (t :: rest) == PaperTrade.quoteAmount t + sumQuote isSell rest
  /\ sumQuote isBuy (t :: rest) == sumQuote isBuy rest.
Proof.
  intros Ha. unfold sumQuote, isBuy, isSell. cbn [filter]. rewrite Ha.
  cbn [Action_eqb fold_right]. split; reflexivity.
Qed.

Lemma allowance_nonneg trades : forall balance,
  0 <= Binary64.allowance balance trades.
Proof.
  induction trades as [|t rest IH]; intros balance; cbn [Binary64.allowance].
  - lra.
  - specialize (IH (Binary64.replayTrade balance t)).
    assert (0 <= Binary64.slack (Binary64.replayTrade balance t)).
    { unfold Binary64.slack.
      pose proof (Qabs_nonneg (Binary64.replayTrade balance t)).
      assert (0 < 2 ^ (-53)) by apply pow2_pos.
      assert (0 < 2 ^ (-1075)) by apply pow2_pos.
      assert (0 <= 2 ^ (-53) * Qabs (Binary64.replayTrade balance t))
        by (apply Qmult_le_0_compat; lra).
      lra. }
    lra.
Qed.

(** The replayed balance differs from the exact one by at most the
    accumulated roundings. *)
Lemma replay_error trades : forall balance,
  Qabs (Binary64.replay balance trades
        - (balance - sumQuote isBuy trades + sumQuote isSell trades))
  <= Binary64.allowance balance trades.
Proof.
  induction trades as [|t rest IH]; intros balance.
  - unfold Binary64.replay, sumQuote.
    cbn [fold_left filter fold_right Binary64.allowance].
    apply Qabs_Qle_condition. split; lra.
  - change (Binary64.replay balance (t :: rest))
      with (Binary64.replay (Binary64.replayTrade balance t) rest).
    cbn [Binary64.allowance].
    specialize (IH (Binary64.replayTrade balance t)).
    apply Qabs_Qle_condition in IH. apply Qabs_Qle_condition.
    set (b1 := Binary64.replayTrade balance t) in *.
    assert (Step : exists z,
               b1 = Binary64.round z
               /\ z - sumQuote isBuy rest + sumQuote isSell rest
                  == balance - sumQuote isBuy (t :: rest) + sumQuote isSell (t :: rest)).
    { unfold b1, Binary64.replayTrade.
      destruct (PaperTrade.action t) eqn:Ha.
      - exists (balance - PaperTrade.quoteAmount t). split; [reflexivity|].
        destruct (sumQuote_cons_buy t rest Ha) as [E1 E2]. rewrite E1, E2. ring.
      - exists (balance + PaperTrade.quoteAmount t). split; [reflexivity|].
        destruct (sumQuote_cons_sell t rest Ha) as [E1 E2]. rewrite E1, E2. ring. }
    destruct Step as (z & Hb1 & Hz).
    pose proof (round_error z) as Hr. rewrite <- Hb1 in Hr.
    apply Qabs_Qle_condition in Hr.
    rewrite <- Hz.
    set (r := Binary64.replay b1 rest) in *.
    set (sb := sumQuote isBuy rest) in *. set (ss := sumQuote isSell rest) in *.
    set (s1 := Binary64.slack b1) in *. set (al := Binary64.allowance b1 rest) in *.
    clearbody r sb ss s1 al b1.
    destruct IH, Hr. split; lra.
Qed.

(** C7, amended.  When the constructor has funded the configured quote
    symbol and no event carries that symbol in place of a mint address,
    then in every state reached from the constructor by pool events,
    account events, timer firings and summaries, in binary64 arithmetic,
    the quote entry is present and its amount is the ledger replayed: the
    initial balance with the quote amount of every Buy subtracted and the
    net proceeds of every Sell added, in ledger order, each step rounded as
    the code rounds it.  The conservation equation therefore holds up to
    the accumulated rounding: the initial balance minus the current balance
    plus the net proceeds of all Sells differs from the quote amounts of
    all Buys by at most [2^-53] times the balance after each trade, plus
    [2^-1075], summed over the trades. *)
Theorem ledger_conservation_in_binary64 config events :
  funded config ->
  mintsApart config events ->
  let bot := theBot (Binary64.run config (start config) events) in
  JsMap.get (quoteSymbol config) (paperBalances bot) <> None
  /\ currentQuoteBalance config bot
     = Binary64.replay (initialBalance bot) (paperTrades bot)
  /\ Qabs (initialBalance bot - currentQuoteBalance config bot
           + sumQuote isSell (paperTrades bot)
           - sumQuote isBuy (paperTrades bot))
     <= Binary64.allowance (initialBalance bot) (paperTrades bot).
Proof.
  intros Hfunded Hev bot.
  assert (H : replays config bot).
  { apply (binary64_run_replays config events (start config) Hev).
    split; [apply start_replays, Hfunded | constructor]. }
  destruct H as (Hentry & Hreplay).
  split; [exact Hentry|]. split; [exact Hreplay|].
  rewrite Hreplay.
  pose proof (replay_error (paperTrades bot) (initialBalance bot)) as He.
  rewrite <- Qabs_opp.
  eapply Qle_trans; [|exact He].
  apply Qle_lteq. right. apply Qabs_wd. ring.
Qed.

Lemma ledger_conservation_in_binary64_witness :
  let bot :=
    theBot (Binary64.run Binary64.exampleConfig (start Binary64.exampleConfig)
                         Binary64.exampleRun) in
  JsMap.get (quoteSymbol Binary64.exampleConfig) (paperBalances bot) <> None
  /\ currentQuoteBalance Binary64.exampleConfig bot
     = Binary64.replay (initialBalance bot) (paperTrades bot)
  /\ Qabs (initialBalance bot - currentQuoteBalance Binary64.exampleConfig bot
           + sumQuote isSell (paperTrades bot)
           - sumQuote isBuy (paperTrades bot))
     <= Binary64.allowance (initialBalance bot) (paperTrades bot).
Proof.
  apply (ledger_conservation_in_binary64 Binary64.exampleConfig Binary64.exampleRun).
  - unfold funded. vm_compute. discriminate.
  - unfold mintsApart, Binary64.exampleRun.
    repeat constructor; vm_compute; discriminate.
Defined.

(** On the example run, with two Buys and one Sell, the equation is off by
    [13 * 2^-56], about [1.8e-16], and the accumulated rounding allowed for
    is below [4e-16]. *)
Example conservation_on_the_example_run :
  let bot :=
    theBot (Binary64.run Binary64.exampleConfig (start Binary64.exampleConfig)
                         Binary64.exampleRun) in
  map PaperTrade.action (paperTrades bot) = [buy_action; sell_action; buy_action]
  /\ initialBalance bot - currentQuoteBalance Binary64.exampleConfig bot
     + sumQuote isSell (paperTrades bot) - sumQuote isBuy (paperTrades bot)
     == 13 * 2 ^ (-56)
  /\ Binary64.allowance (initialBalance bot) (paperTrades bot)
     < 4 # 10000000000000000.
Proof. cbv zeta. evaluate. Qed.
